(** * vinnodrive: deduplicated storage and quota accounting

    A shallow embedding of [app/main.py] and [app/models.py]: the tables of
    the relational store, the blob directory, the request handlers, and the
    properties of uploads, deletions, quota and downloads. *)

From Stdlib Require Import ZArith NArith List Ascii String Bool Lia.
From Stdlib.Strings Require Import Byte.
From Stdlib Require Import DecimalString Sorted.
From stdpp Require Import gmap list fin_maps relations.

Local Open Scope Z_scope.

(** ** Python strings

    A Python [str] is a sequence of Unicode code points. *)

Abbreviation pystr := (list N) (only parsing).
Abbreviation bytes := (list Byte.byte) (only parsing).

Fixpoint of_string (s : string) : pystr :=
  match s with
  | EmptyString => []
  | String c r => N_of_ascii c :: of_string r
  end.

(** [str(n)] for a non-negative integer. *)
Definition str_of_N (n : N) : pystr :=
  of_string (NilEmpty.string_of_uint (N.to_uint n)).

Definition str_of_nat (n : nat) : pystr := str_of_N (N.of_nat n).

(** [c.isspace()]: the code points [str.strip()] removes. *)
Definition isspace (c : N) : bool :=
  ((9 <=? c) && (c <=? 13) || (28 <=? c) && (c <=? 32) ||
   (c =? 133) || (c =? 160) || (c =? 5760) ||
   (8192 <=? c) && (c <=? 8202) ||
   (c =? 8232) || (c =? 8233) || (c =? 8239) || (c =? 8287) ||
   (c =? 12288))%N.

Fixpoint lstrip (s : pystr) : pystr :=
  match s with
  | [] => []
  | c :: r => if isspace c then lstrip r else s
  end.

Definition rstrip (s : pystr) : pystr := rev (lstrip (rev s)).

Definition strip (s : pystr) : pystr := rstrip (lstrip s).

(** Truth value of a [str]: false exactly for the empty string. *)
Definition truthy (s : pystr) : bool :=
  match s with [] => false | _ => true end.

(** Truth value of an optional [str] ([None] and [""] are false). *)
Definition truthy_opt (o : option pystr) : bool :=
  match o with Some s => truthy s | None => false end.

Definition str_eqb (a b : pystr) : bool := bool_decide (a = b).

(** [os.path.join(a, b)] on a POSIX system. *)
Definition os_path_join (a b : pystr) : pystr :=
  match b with
  | 47%N :: _ => b
  | _ =>
    match rev a with
    | [] => b
    | 47%N :: _ => a ++ b
    | _ => a ++ [47%N] ++ b
    end
  end.

(** ** Configuration (main.py, lines 23-30) *)

Definition UPLOAD_DIR : pystr := of_string "storage/blobs".
Definition RATE_LIMIT_CALLS : nat := 2.
Definition RATE_LIMIT_WINDOW : Z := 1.
Definition STORAGE_QUOTA_MB : Z := 10.

(** ** Tables (models.py)

    Only the columns the handlers read or write are kept; the creation
    time stamps of files, shares, grants and folders are never read.
    [users] is keyed by the [username] column, which is declared unique. *)

Record User := {
  password : pystr;
  storage_quota : Z;
  storage_used : Z
}.

Record File := {
  f_id : Z;
  f_filename : pystr;
  f_uploader : pystr;
  f_size : Z;
  f_file_hash : pystr;
  f_is_duplicate : bool;
  f_folder : option pystr
}.

Record Share := {
  sh_file_id : Z;
  sh_share_token : pystr;
  sh_created_by : pystr;
  sh_is_active : bool;
  sh_download_count : Z
}.

Record SharedFile := {
  sf_file_id : Z;
  sf_shared_by : pystr;
  sf_shared_with : pystr
}.

Record Folder := {
  fo_name : pystr;
  fo_owner : pystr
}.

(** Time stamps are micro-seconds, the resolution of [datetime]. *)
Record RateLimit := {
  rl_username : pystr;
  rl_endpoint : pystr;
  rl_timestamp : Z
}.

Record DB := {
  users : gmap pystr User;
  files : list File;
  shares : list Share;
  shared_files : list SharedFile;
  folders : list Folder;
  rate_limits : list RateLimit
}.

(** The whole world a handler acts on: the relational store and the
    directory of blobs (path to content). *)
Record State := {
  db : DB;
  blobs : gmap pystr bytes
}.

Definition empty_db : DB :=
  {| users := ∅; files := []; shares := []; shared_files := [];
     folders := []; rate_limits := [] |}.

Definition initial_state : State := {| db := empty_db; blobs := ∅ |}.

Definition set_users (d : DB) (u : gmap pystr User) : DB :=
  {| users := u; files := files d; shares := shares d;
     shared_files := shared_files d; folders := folders d;
     rate_limits := rate_limits d |}.

Definition set_files (d : DB) (fs : list File) : DB :=
  {| users := users d; files := fs; shares := shares d;
     shared_files := shared_files d; folders := folders d;
     rate_limits := rate_limits d |}.

Definition set_shares (d : DB) (s : list Share) : DB :=
  {| users := users d; files := files d; shares := s;
     shared_files := shared_files d; folders := folders d;
     rate_limits := rate_limits d |}.

Definition set_shared_files (d : DB) (s : list SharedFile) : DB :=
  {| users := users d; files := files d; shares := shares d;
     shared_files := s; folders := folders d;
     rate_limits := rate_limits d |}.

Definition set_folders (d : DB) (s : list Folder) : DB :=
  {| users := users d; files := files d; shares := shares d;
     shared_files := shared_files d; folders := s;
     rate_limits := rate_limits d |}.

Definition set_rate_limits (d : DB) (r : list RateLimit) : DB :=
  {| users := users d; files := files d; shares := shares d;
     shared_files := shared_files d; folders := folders d;
     rate_limits := r |}.

Definition set_storage_used (u : User) (n : Z) : User :=
  {| password := password u; storage_quota := storage_quota u;
     storage_used := n |}.

Definition set_id (r : File) (i : Z) : File :=
  {| f_id := i; f_filename := f_filename r; f_uploader := f_uploader r;
     f_size := f_size r; f_file_hash := f_file_hash r;
     f_is_duplicate := f_is_duplicate r; f_folder := f_folder r |}.

(** ** Responses *)

Inductive Response :=
| RedirectResponse (url : pystr) (status_code : Z)
| HTTPException (status_code : Z) (detail : option pystr)
| FileResponse (path : pystr) (filename : pystr)
| TemplateResponse (name : pystr) (error : option pystr)
| InternalServerError.

(** ** Primary keys

    A new row of [files] receives an integer key larger than every key in
    the table. *)
Definition next_id (fs : list File) : Z :=
  1 + fold_right Z.max 0 (map f_id fs).

(** ** The session

    [db.add] queues a row; the row reaches the table when the session is
    flushed: at [commit], and before each query when the session was made
    with [autoflush] on. *)
Record Session := {
  store : DB;
  pending : list File
}.

Definition flush_files (fs : list File) (new : list File) : list File :=
  fold_left (fun acc r => acc ++ [set_id r (next_id acc)]) new fs.

Definition flush (s : Session) : Session :=
  {| store := set_files (store s) (flush_files (files (store s)) (pending s));
     pending := [] |}.

Definition session_add (s : Session) (r : File) : Session :=
  {| store := store s; pending := pending s ++ [r] |}.

Definition commit (s : Session) : DB := store (flush s).

Definition begin (d : DB) : Session := {| store := d; pending := [] |}.

(** ** Formatting a byte count in MB (main.py, lines 81-83)

    [n / (1024 * 1024)] is the double nearest to the quotient: the division
    by a power of two is exact, so only the conversion of [n] to 53
    significant bits rounds (ties to even). [round53] is that conversion for
    a non-negative integer. *)
Definition round_half_even (num den : Z) : Z :=
  let q := num / den in
  let r := num mod den in
  if (2 * r <? den) then q
  else if (den <? 2 * r) then q + 1
  else if Z.even q then q else q + 1.

Definition round53 (n : Z) : Z :=
  if n <? 2 ^ 53 then n
  else let k := Z.log2 n - 52 in round_half_even n (2 ^ k) * 2 ^ k.

(** The number of hundredths printed by [f"{n / (1024 * 1024):.2f}"] for
    [0 <= n]: the double is converted to two decimals, ties to even. *)
Definition hundredths_mb (n : Z) : Z :=
  round_half_even (round53 n * 100) (1024 * 1024).

Definition two_digits (h : Z) : pystr :=
  str_of_N (Z.to_N (h / 10)) ++ str_of_N (Z.to_N (h mod 10)).

(** [f"{n / (1024 * 1024):.2f}"] *)
Definition format_mb (n : Z) : pystr :=
  let h := hundredths_mb (Z.abs n) in
  (if n <? 0 then of_string "-" else []) ++
  str_of_N (Z.to_N (h / 100)) ++ of_string "." ++ two_digits (h mod 100).

(** ** Rate limiting (main.py, lines 45-69)

    [now] is [datetime.utcnow()] in micro-seconds. *)
Definition microseconds (seconds : Z) : Z := seconds * 1000000.

Definition check_rate_limit (username endpoint : pystr) (now : Z) (d : DB)
  : bool * DB :=
  let window_start := now - microseconds RATE_LIMIT_WINDOW in
  let recent_requests :=
    length (List.filter
      (fun r => str_eqb (rl_username r) username &&
                str_eqb (rl_endpoint r) endpoint &&
                (window_start <=? rl_timestamp r))
      (rate_limits d)) in
  if (RATE_LIMIT_CALLS <=? recent_requests)%nat then (false, d)
  else
    let logged :=
      rate_limits d ++
      [{| rl_username := username; rl_endpoint := endpoint;
          rl_timestamp := now |}] in
    let cleanup_time := now - microseconds 60 in
    (true,
     set_rate_limits d
       (List.filter (fun r => negb (rl_timestamp r <? cleanup_time)) logged)).

(** ** Quota check (main.py, lines 74-85) *)
Definition check_storage_quota (username : pystr) (file_size : Z) (d : DB)
  : bool * pystr :=
  match users d !! username with
  | None => (false, of_string "User not found")
  | Some user =>
    if storage_quota user <? storage_used user + file_size then
      (false,
       of_string "Storage quota exceeded! You have " ++
       format_mb (storage_used user) ++ of_string " MB / " ++
       format_mb (storage_quota user) ++ of_string " MB used.")
    else (true, [])
  end.

(** ** Queries on [files] *)

(** [filter_by(uploader=username, file_hash=h).first() is not None] *)
Definition has_uploaded (username h : pystr) (fs : list File) : bool :=
  existsb (fun r => str_eqb (f_uploader r) username &&
                    str_eqb (f_file_hash r) h) fs.

(** [filter_by(uploader=username, file_hash=h, is_duplicate=True).count()] *)
Definition duplicate_count (username h : pystr) (fs : list File) : nat :=
  length (List.filter
    (fun r => str_eqb (f_uploader r) username &&
              str_eqb (f_file_hash r) h && f_is_duplicate r) fs).

(** [filter_by(file_hash=h).count()], over every uploader *)
Definition reference_count (h : pystr) (fs : list File) : nat :=
  length (List.filter (fun r => str_eqb (f_file_hash r) h) fs).

(** [filter_by(id=i).first()] *)
Definition file_by_id (i : Z) (fs : list File) : option File :=
  List.find (fun r => f_id r =? i) fs.

(** [filter_by(id=i, uploader=username).first()] *)
Definition own_file_by_id (i : Z) (username : pystr) (fs : list File)
  : option File :=
  List.find (fun r => (f_id r =? i) && str_eqb (f_uploader r) username) fs.

(** [filter_by(file_id=i, shared_with=username).first() is not None] *)
Definition is_shared_with (i : Z) (username : pystr) (l : list SharedFile)
  : bool :=
  existsb (fun e => (sf_file_id e =? i) &&
                    str_eqb (sf_shared_with e) username) l.

(** An item of the multipart upload. *)
Record UploadFile := {
  uf_filename : pystr;
  uf_content : bytes
}.

(** State of the upload loop. *)
Record Upload := {
  session : Session;
  disk : gmap pystr bytes;
  uploaded_count : nat;
  skipped_count : nat
}.

(** [request.cookies.get("user")] followed by [if not username]: the
    handlers go on only with a non-empty cookie value. *)
Definition authenticated (cookie : option pystr) : option pystr :=
  match cookie with
  | Some username => if truthy username then Some username else None
  | None => None
  end.

Definition with_db (st : State) (d : DB) : State :=
  {| db := d; blobs := blobs st |}.

(** ** What the handlers take from outside this file *)
Class Env := {
  (** [hashlib.sha256(content).hexdigest()] *)
  sha256_hexdigest : bytes -> pystr;
  (** the [autoflush] flag of [SessionLocal], which [app.database] sets *)
  autoflush : bool;
  (** [helpers.hash_password] and [helpers.verify_password] *)
  hash_password : pystr -> pystr;
  verify_password : pystr -> pystr -> bool
}.

Section Handlers.

Context {env : Env}.

(** What the session does before it runs a query. *)
Definition query (s : Session) : Session :=
  if autoflush then flush s else s.

(** *** POST /signup (main.py, lines 106-128) *)
Definition signup (username pass : pystr) (st : State) : Response * State :=
  match users (db st) !! username with
  | Some _ =>
    (TemplateResponse (of_string "signup.html")
       (Some (of_string "Username already exists")), st)
  | None =>
    let user := {| password := hash_password pass;
                   storage_quota := STORAGE_QUOTA_MB * 1024 * 1024;
                   storage_used := 0 |} in
    (RedirectResponse (of_string "/login") 302,
     with_db st (set_users (db st) (<[username := user]> (users (db st)))))
  end.



(** *** POST /upload (main.py, lines 310-389) *)

(** [folder.strip() if folder else None] *)
Definition folder_name_of (folder : option pystr) : option pystr :=
  match folder with
  | Some f => if truthy f then Some (strip f) else None
  | None => None
  end.

(** One turn of [for file in files]. *)
Definition upload_one (username : pystr) (folder : option pystr)
    (st : Upload) (file : UploadFile) : Upload :=
  let content := uf_content file in
  let size := Z.of_nat (length content) in
  let file_hash := sha256_hexdigest content in
  let blob_path := os_path_join UPLOAD_DIR file_hash in
  let s1 := query (session st) in
  let user_has_uploaded_before :=
    has_uploaded username file_hash (files (store s1)) in
  if negb user_has_uploaded_before &&
     negb (fst (check_storage_quota username size (store s1))) then
    {| session := s1; disk := disk st;
       uploaded_count := uploaded_count st;
       skipped_count := S (skipped_count st) |}
  else
    let disk1 :=
      match disk st !! blob_path with
      | Some _ => disk st
      | None => <[blob_path := content]> (disk st)
      end in
    let record :=
      {| f_id := 0; f_filename := uf_filename file; f_uploader := username;
         f_size := size; f_file_hash := file_hash;
         f_is_duplicate := user_has_uploaded_before;
         f_folder := folder_name_of folder |} in
    let s2 := session_add s1 record in
    let s3 :=
      if user_has_uploaded_before then s2
      else
        let s2' := query s2 in
        match users (store s2') !! username with
        | Some user =>
          {| store := set_users (store s2')
               (<[username :=
                    set_storage_used user (storage_used user + size)]>
                  (users (store s2')));
             pending := pending s2' |}
        | None => s2' (* not reached: the quota check found the row *)
        end in
    {| session := s3; disk := disk1;
       uploaded_count := S (uploaded_count st);
       skipped_count := skipped_count st |}.

Definition upload_loop (username : pystr) (folder : option pystr)
    (fs : list UploadFile) (st : Upload) : Upload :=
  fold_left (upload_one username folder) fs st.

Definition upload_message (uploaded skipped : nat) : pystr :=
  of_string "/upload?upload_error=quota&msg=Uploaded " ++
  str_of_nat uploaded ++ of_string " file(s). " ++
  str_of_nat skipped ++ of_string " file(s) skipped due to storage quota.".

Definition upload_file (cookie : option pystr) (now : Z)
    (fs : list UploadFile) (folder : option pystr) (st : State)
  : Response * State :=
  match authenticated cookie with
  | None => (RedirectResponse (of_string "/login") 307, st)
  | Some username =>
    let (allowed, d1) :=
      check_rate_limit username (of_string "upload") now (db st) in
    if negb allowed then
      (RedirectResponse (of_string "/upload?upload_error=rate_limit") 302, st)
    else
      let r := upload_loop username folder fs
                 {| session := begin d1; disk := blobs st;
                    uploaded_count := 0; skipped_count := 0 |} in
      let st' := {| db := commit (session r); blobs := disk r |} in
      if (0 <? skipped_count r)%nat then
        (RedirectResponse
           (upload_message (uploaded_count r) (skipped_count r)) 302, st')
      else (RedirectResponse (of_string "/upload") 302, st')
  end.

(** *** POST /create-folder (main.py, lines 395-423) *)
Definition contains (c : N) (s : pystr) : bool := existsb (N.eqb c) s.

Definition create_folder (cookie : option pystr) (now : Z)
    (folder_name : pystr) (st : State) : Response * State :=
  match authenticated cookie with
  | None => (RedirectResponse (of_string "/login") 307, st)
  | Some username =>
    let (allowed, d1) :=
      check_rate_limit username (of_string "create-folder") now (db st) in
    if negb allowed then
      (RedirectResponse (of_string "/upload?upload_error=rate_limit") 302, st)
    else
      let folder_name := strip folder_name in
      if negb (truthy folder_name) || contains 47%N folder_name ||
         contains 92%N folder_name then
        (RedirectResponse (of_string "/upload") 302, with_db st d1)
      else if existsb (fun f => str_eqb (fo_name f) folder_name &&
                                str_eqb (fo_owner f) username) (folders d1)
      then (RedirectResponse (of_string "/upload") 302, with_db st d1)
      else
        (RedirectResponse (of_string "/upload") 302,
         with_db st (set_folders d1
           (folders d1 ++
            [{| fo_name := folder_name; fo_owner := username |}])))
  end.

(** *** POST /share-with-user/{file_id} (main.py, lines 429-463) *)
Definition share_with_user (cookie : option pystr) (now : Z) (file_id : Z)
    (target_user : pystr) (st : State) : Response * State :=
  match authenticated cookie with
  | None => (RedirectResponse (of_string "/login") 307, st)
  | Some username =>
    let (allowed, d1) :=
      check_rate_limit username (of_string "share-with-user") now (db st) in
    if negb allowed then
      (RedirectResponse (of_string "/upload?upload_error=rate_limit") 302, st)
    else
      match own_file_by_id file_id username (files d1) with
      | None => (HTTPException 404 None, with_db st d1)
      | Some _ =>
        match users d1 !! target_user with
        | None => (RedirectResponse (of_string "/upload") 302, with_db st d1)
        | Some _ =>
          if is_shared_with file_id target_user (shared_files d1) then
            (RedirectResponse (of_string "/upload") 302, with_db st d1)
          else
            (RedirectResponse (of_string "/upload") 302,
             with_db st (set_shared_files d1
               (shared_files d1 ++
                [{| sf_file_id := file_id; sf_shared_by := username;
                    sf_shared_with := target_user |}])))
        end
      end
  end.

(** *** GET /download/{file_id} (main.py, lines 469-494) *)
Definition download_file (cookie : option pystr) (file_id : Z) (st : State)
  : Response :=
  match authenticated cookie with
  | None => RedirectResponse (of_string "/login") 307
  | Some username =>
    match file_by_id file_id (files (db st)) with
    | None => HTTPException 404 None
    | Some file =>
      if negb (str_eqb (f_uploader file) username) &&
         negb (is_shared_with file_id username (shared_files (db st))) then
        HTTPException 403 (Some (of_string "Access denied"))
      else
        let blob_path := os_path_join UPLOAD_DIR (f_file_hash file) in
        match blobs st !! blob_path with
        | None => HTTPException 404 None
        | Some _ => FileResponse blob_path (f_filename file)
        end
    end
  end.

(** *** POST /delete/{file_id} (main.py, lines 500-558) *)

(** Lines 536-540: the refund, which a duplicate does not get. [None] is
    the failure of [user.storage_used] when the row is missing. *)
Definition refund (username : pystr) (file : File) (us : gmap pystr User)
  : option (gmap pystr User) :=
  if f_is_duplicate file then Some us
  else
    match us !! username with
    | None => None
    | Some user =>
      let used := storage_used user - f_size file in
      Some (<[username :=
                set_storage_used user (if used <? 0 then 0 else used)]> us)
    end.

Definition delete_file (cookie : option pystr) (now : Z) (file_id : Z)
    (st : State) : Response * State :=
  match authenticated cookie with
  | None => (RedirectResponse (of_string "/login") 307, st)
  | Some username =>
    let (allowed, d1) :=
      check_rate_limit username (of_string "delete") now (db st) in
    if negb allowed then
      (RedirectResponse (of_string "/upload?upload_error=rate_limit") 302, st)
    else
      match own_file_by_id file_id username (files d1) with
      | None => (HTTPException 404 None, with_db st d1)
      | Some file =>
        if negb (f_is_duplicate file) &&
           (0 <? duplicate_count username (f_file_hash file) (files d1))%nat
        then
          (RedirectResponse
             (of_string "/upload?error=delete_duplicates_first") 302,
           with_db st d1)
        else
          let blob_path := os_path_join UPLOAD_DIR (f_file_hash file) in
          match refund username file (users d1) with
          | None => (InternalServerError, with_db st d1)
          | Some us =>
            let d2 := set_users d1 us in
            let d3 := set_shares d2
              (List.filter (fun s => negb (sh_file_id s =? file_id))
                 (shares d2)) in
            let d4 := set_shared_files d3
              (List.filter (fun s => negb (sf_file_id s =? file_id))
                 (shared_files d3)) in
            let d5 := set_files d4
              (List.filter (fun r => negb (f_id r =? f_id file))
                 (files d4)) in
            let blobs1 :=
              if (reference_count (f_file_hash file) (files d5) =? 0)%nat
              then
                match blobs st !! blob_path with
                | Some _ => delete blob_path (blobs st)
                | None => blobs st
                end
              else blobs st in
            (RedirectResponse (of_string "/upload") 302,
             {| db := d5; blobs := blobs1 |})
          end
      end
  end.

(** *** POST /share/{file_id} (main.py, lines 564-597); [token] is the
    value of [secrets.token_urlsafe(16)] *)
Definition create_share (cookie : option pystr) (now : Z) (file_id : Z)
    (token : pystr) (st : State) : Response * State :=
  match authenticated cookie with
  | None => (RedirectResponse (of_string "/login") 307, st)
  | Some username =>
    let (allowed, d1) :=
      check_rate_limit username (of_string "share") now (db st) in
    if negb allowed then
      (RedirectResponse (of_string "/upload?upload_error=rate_limit") 302, st)
    else
      match own_file_by_id file_id username (files d1) with
      | None => (HTTPException 404 None, with_db st d1)
      | Some _ =>
        if existsb (fun s => (sh_file_id s =? file_id) && sh_is_active s)
             (shares d1)
        then (RedirectResponse (of_string "/upload") 302, with_db st d1)
        else
          (RedirectResponse (of_string "/upload") 302,
           with_db st (set_shares d1
             (shares d1 ++
              [{| sh_file_id := file_id; sh_share_token := token;
                  sh_created_by := username; sh_is_active := true;
                  sh_download_count := 0 |}])))
      end
  end.

(** *** POST /unshare/{file_id} (main.py, lines 602-617) *)
Definition revoke_share (cookie : option pystr) (file_id : Z) (st : State)
  : Response * State :=
  match authenticated cookie with
  | None => (RedirectResponse (of_string "/login") 307, st)
  | Some username =>
    match own_file_by_id file_id username (files (db st)) with
    | None => (HTTPException 404 None, st)
    | Some _ =>
      (RedirectResponse (of_string "/upload") 302,
       with_db st (set_shares (db st)
         (map (fun s =>
                 if sh_file_id s =? file_id then
                   {| sh_file_id := sh_file_id s;
                      sh_share_token := sh_share_token s;
                      sh_created_by := sh_created_by s;
                      sh_is_active := false;
                      sh_download_count := sh_download_count s |}
                 else s) (shares (db st)))))
    end
  end.

(** *** GET /s/{share_token}/download (main.py, lines 645-665) *)
Fixpoint count_download (token : pystr) (l : list Share) : list Share :=
  match l with
  | [] => []
  | s :: r =>
    if str_eqb (sh_share_token s) token && sh_is_active s then
      {| sh_file_id := sh_file_id s; sh_share_token := sh_share_token s;
         sh_created_by := sh_created_by s; sh_is_active := sh_is_active s;
         sh_download_count := sh_download_count s + 1 |} :: r
    else s :: count_download token r
  end.

Definition public_download (share_token : pystr) (st : State)
  : Response * State :=
  match List.find (fun s => str_eqb (sh_share_token s) share_token &&
                            sh_is_active s) (shares (db st)) with
  | None => (HTTPException 404 None, st)
  | Some share =>
    match file_by_id (sh_file_id share) (files (db st)) with
    | None => (HTTPException 404 None, st)
    | Some file =>
      let blob_path := os_path_join UPLOAD_DIR (f_file_hash file) in
      match blobs st !! blob_path with
      | None => (HTTPException 404 None, st)
      | Some _ =>
        (FileResponse blob_path (f_filename file),
         with_db st (set_shares (db st)
           (count_download share_token (shares (db st)))))
      end
    end
  end.

(** *** GET /upload, the grouping of the caller's files by folder
    (main.py, lines 202 and 231-236) *)
Definition group_name (f : File) : pystr :=
  if truthy_opt (f_folder f) then default [] (f_folder f)
  else of_string "Root".

Definition folders_data (username : pystr) (d : DB)
  : gmap pystr (list File) :=
  let own_files :=
    List.filter (fun r => str_eqb (f_uploader r) username) (files d) in
  fold_left
    (fun acc f =>
       let folder_name := group_name f in
       <[folder_name := default [] (acc !! folder_name) ++ [f]]> acc)
    own_files
    ({[ of_string "Root" := [] ]}).

(** *** Requests that change the state *)
Inductive Request :=
| Signup (username pass : pystr)
| UploadFiles (cookie : option pystr) (now : Z) (fs : list UploadFile)
    (folder : option pystr)
| CreateFolder (cookie : option pystr) (now : Z) (folder_name : pystr)
| ShareWithUser (cookie : option pystr) (now : Z) (file_id : Z)
    (target_user : pystr)
| DeleteFile (cookie : option pystr) (now : Z) (file_id : Z)
| CreateShare (cookie : option pystr) (now : Z) (file_id : Z)
    (token : pystr)
| RevokeShare (cookie : option pystr) (file_id : Z)
| PublicDownload (share_token : pystr).

Definition handle (rq : Request) (st : State) : Response * State :=
  match rq with
  | Signup u p => signup u p st
  | UploadFiles c now fs folder => upload_file c now fs folder st
  | CreateFolder c now n => create_folder c now n st
  | ShareWithUser c now i t => share_with_user c now i t st
  | DeleteFile c now i => delete_file c now i st
  | CreateShare c now i t => create_share c now i t st
  | RevokeShare c i => revoke_share c i st
  | PublicDownload t => public_download t st
  end.

(** The state after a sequence of requests, served one after the other. *)
Definition run (rqs : list Request) (st : State) : State :=
  fold_left (fun s rq => snd (handle rq s)) rqs st.

(** The states the service can be in: those that some sequence of requests
    produces from the empty store and the empty blob directory. *)
Definition reachable (st : State) : Prop :=
  exists rqs, st = run rqs initial_state.


End Handlers.

Section Notions.

Context {env : Env}.

(** ** Specification-level notions *)

(** The bytes counted against a user's quota: the sum of [size] over the
    user's records that are not duplicates (as [actual_storage_used],
    main.py, line 207). *)
Definition actual_storage_used (username : pystr) (fs : list File) : Z :=
  fold_right Z.add 0
    (map f_size
       (List.filter (fun f => str_eqb (f_uploader f) username &&
                              negb (f_is_duplicate f)) fs)).

(** What the tables satisfy between requests: keys of [files] are
    distinct, sizes are lengths, every record's uploader has a row, and
    each row's [storage_used] is the sum above. *)
Record consistent (d : DB) : Prop := {
  ids_distinct : NoDup (map f_id (files d));
  sizes_nonneg : forall r, In r (files d) -> 0 <= f_size r;
  uploader_known :
    forall r, In r (files d) -> is_Some (users d !! f_uploader r);
  used_is_sum :
    forall u user, users d !! u = Some user ->
      storage_used user = actual_storage_used u (files d)
}.

(** The tables a session leaves when it commits now. *)
Definition view (s : Session) : list File :=
  flush_files (files (store s)) (pending s).

(** The record [upload_one] builds for an accepted item. *)
Definition record_of (username : pystr) (folder : option pystr)
    (file : UploadFile) (dup : bool) (i : Z) : File :=
  {| f_id := i; f_filename := uf_filename file; f_uploader := username;
     f_size := Z.of_nat (length (uf_content file));
     f_file_hash := sha256_hexdigest (uf_content file);
     f_is_duplicate := dup; f_folder := folder_name_of folder |}.

Definition blob_path_of (content : bytes) : pystr :=
  os_path_join UPLOAD_DIR (sha256_hexdigest content).

Definition charge (username : pystr) (n : Z) (us : gmap pystr User)
  : gmap pystr User :=
  match us !! username with
  | Some user =>
    <[username := set_storage_used user (storage_used user + n)]> us
  | None => us
  end.

Definition write_blob (content : bytes) (m : gmap pystr bytes)
  : gmap pystr bytes :=
  match m !! blob_path_of content with
  | Some _ => m
  | None => <[blob_path_of content := content]> m
  end.

(** The columns of the store that an upload never touches. *)
Definition other_tables (d : DB)
  : list Share * list SharedFile * list Folder * list RateLimit :=
  (shares d, shared_files d, folders d, rate_limits d).

(** The rows a query sees. *)
Definition visible (s : Session) : list File := files (store (query s)).

(** The item is turned away: new to the user and over the quota (or the
    user has no row). *)
Definition skips (username : pystr) (st : Upload) (file : UploadFile) : bool :=
  negb (has_uploaded username (sha256_hexdigest (uf_content file))
          (visible (session st))) &&
  negb (fst (check_storage_quota username
               (Z.of_nat (length (uf_content file))) (store (session st)))).

(** The handler once the caller is known and the rate limiter lets the
    request through. *)
Definition upload_db (u : pystr) (now : Z) (st : State) : DB :=
  snd (check_rate_limit u (of_string "upload") now (db st)).

Definition upload_run (u : pystr) (now : Z) (fs : list UploadFile)
    (folder : option pystr) (st : State) : Upload :=
  upload_loop u folder fs
    {| session := begin (upload_db u now st); disk := blobs st;
       uploaded_count := 0; skipped_count := 0 |}.

(** Two loop states that the rest of the loop cannot tell apart, but for
    one more skipped item in the first. *)
Definition one_more_skipped (a b : Upload) : Prop :=
  query (session a) = query (session b) /\
  commit (session a) = commit (session b) /\
  disk a = disk b /\
  uploaded_count a = uploaded_count b /\
  skipped_count a = S (skipped_count b).

Definition used_nonneg (us : gmap pystr User) : Prop :=
  forall u user, us !! u = Some user -> 0 <= storage_used user.

Definition charged (u : pystr) (f : File) : bool :=
  str_eqb (f_uploader f) u && negb (f_is_duplicate f).

End Notions.

(** ** A concrete environment

    A stand-in digest (the bytes themselves, behind a letter), sessions
    without autoflush, and pass-through password helpers: enough to run the
    handlers on concrete requests. *)
Definition demo_hexdigest (content : bytes) : pystr :=
  of_string "h" ++ map (fun b => 48 + Byte.to_N b)%N content.

Definition demo_env : Env :=
  {| sha256_hexdigest := demo_hexdigest;
     autoflush := false;
     hash_password := fun p => p;
     verify_password := fun p h => str_eqb p h |}.


Definition alice : pystr := of_string "alice".
Definition bob : pystr := of_string "bob".

Definition report : UploadFile :=
  {| uf_filename := of_string "report.pdf";
     uf_content := [Byte.x01; Byte.x02; Byte.x03] |}.

Definition notes : UploadFile :=
  {| uf_filename := of_string "notes.txt";
     uf_content := [Byte.x04; Byte.x05] |}.

(** Alice and Bob have signed up. *)
Definition signed_up : State :=
  run (env := demo_env)
    [Signup alice (of_string "a"); Signup bob (of_string "b")]
    initial_state.

Definition alice_row : User :=
  {| password := of_string "a"; storage_quota := 10485760;
     storage_used := 0 |}.

Definition bob_row : User :=
  {| password := of_string "b"; storage_quota := 10485760;
     storage_used := 0 |}.

(** Alice has uploaded the report once, and twice. *)
Definition uploaded_once : State :=
  run (env := demo_env)
    [UploadFiles (Some alice) 0 [report] None] signed_up.

Definition uploaded_twice : State :=
  run (env := demo_env)
    [UploadFiles (Some alice) 5000000 [report] None] uploaded_once.

(** Bob holds a grant for Alice's report. *)
Definition shared_once : State :=
  run (env := demo_env)
    [ShareWithUser (Some alice) 7000000 1 bob] uploaded_once.

Definition memo : UploadFile :=
  {| uf_filename := of_string "memo.txt"; uf_content := [Byte.x06] |}.

(** An upload loop about to start for a user with a quota of four bytes. *)
Definition tight_row (used : Z) : User :=
  {| password := []; storage_quota := 4; storage_used := used |}.

Definition tight_loop : Upload :=
  {| session := begin (set_users empty_db {[ alice := tight_row 0 ]});
     disk := ∅; uploaded_count := 0; skipped_count := 0 |}.

(** A sequence of requests from the empty store. *)
Definition busy_day : list Request :=
  [Signup alice (of_string "a");
   UploadFiles (Some alice) 0 [report; notes] (Some (of_string " docs "));
   UploadFiles (Some alice) 5000000 [report] None;
   DeleteFile (Some alice) 9000000 3;
   DeleteFile (Some alice) 9000001 1;
   DeleteFile (Some alice) 15000000 1].

(** ** GET /upload: statistics, marks and the shared list
    (main.py, lines 202-227 and 250-268)

    The handler first reads the caller's row (lines 190-193) and fails
    when there is none; below are the values it computes after that. *)

(** [filter_by(uploader=username).all()] *)
Definition own_files (username : pystr) (d : DB) : list File :=
  List.filter (fun r => str_eqb (f_uploader r) username) (files d).

(** [sum(f.size for f in own_files)] *)
Definition original_total_size (username : pystr) (d : DB) : Z :=
  fold_right Z.add 0 (map f_size (own_files username d)).

(** [original_total_size - actual_storage_used] *)
Definition total_savings_bytes (username : pystr) (d : DB) : Z :=
  original_total_size username d -
  fold_right Z.add 0
    (map f_size
       (List.filter (fun f => negb (f_is_duplicate f))
          (own_files username d))).

(** The mark [has_duplicates] of a listed file (lines 255-261). *)
Definition has_duplicates (username : pystr) (f : File) (d : DB) : bool :=
  if negb (f_is_duplicate f) then
    (0 <? duplicate_count username (f_file_hash f) (files d))%nat
  else false.

(** The files shared with the caller, each with the user who shared it
    (lines 218-227); a grant whose record is missing is left out. *)
Fixpoint shared_list (entries : list SharedFile) (fs : list File)
  : list (File * pystr) :=
  match entries with
  | [] => []
  | entry :: rest =>
    match file_by_id (sf_file_id entry) fs with
    | Some file => (file, sf_shared_by entry) :: shared_list rest fs
    | None => shared_list rest fs
    end
  end.

Definition shared_with_me (username : pystr) (d : DB)
  : list (File * pystr) :=
  shared_list
    (List.filter (fun e => str_eqb (sf_shared_with e) username)
       (shared_files d))
    (files d).

(** ** GET /upload: the folders in order (main.py, lines 196-198 and
    231-247) *)

(** [a <= b] on [str]: code point by code point, a prefix first. *)
Fixpoint str_leb (a b : pystr) : bool :=
  match a, b with
  | [], _ => true
  | _ :: _, [] => false
  | x :: a', y :: b' =>
    if (x <? y)%N then true
    else if (y <? x)%N then false
    else str_leb a' b'
  end.

Fixpoint insert_sorted (k : pystr) (l : list pystr) : list pystr :=
  match l with
  | [] => [k]
  | x :: r => if str_leb k x then k :: l else x :: insert_sorted k r
  end.

(** [sorted(l)] for a list of [str] *)
Definition sorted (l : list pystr) : list pystr :=
  fold_right insert_sorted [] l.

(** [folder_names]: the names of the caller's folders. *)
Definition folder_names (username : pystr) (d : DB) : list pystr :=
  map fo_name
    (List.filter (fun f => str_eqb (fo_owner f) username) (folders d)).

(** [folders_data] after lines 239-241, which add the caller's folders
    that hold no file. *)
Definition page_folders (username : pystr) (d : DB)
  : gmap pystr (list File) :=
  fold_left
    (fun acc name =>
       match acc !! name with
       | Some _ => acc
       | None => <[name := []]> acc
       end)
    (folder_names username d)
    (folders_data username d).

(** [sorted_folders], as the list of its items in order. *)
Definition sorted_folders (username : pystr) (d : DB)
  : list (pystr * list File) :=
  let fd := page_folders username d in
  (of_string "Root", default [] (fd !! of_string "Root")) ::
  map (fun k => (k, default [] (fd !! k)))
    (sorted
       (List.filter (fun k => negb (str_eqb k (of_string "Root")))
          (map fst (map_to_list fd)))).

(** ** The parts of the rate limiter *)

(** The row logged for a request that is let through. *)
Definition rate_row (u e : pystr) (now : Z) : RateLimit :=
  {| rl_username := u; rl_endpoint := e; rl_timestamp := now |}.

(** The rows counted against a user and endpoint at [now]. *)
Definition recent_requests (u e : pystr) (now : Z) (l : list RateLimit)
  : nat :=
  length (List.filter
    (fun r => str_eqb (rl_username r) u && str_eqb (rl_endpoint r) e &&
              (now - microseconds RATE_LIMIT_WINDOW <=? rl_timestamp r)) l).

(** The rows that survive the clean-up at [now]. *)
Definition kept_rows (now : Z) (l : list RateLimit) : list RateLimit :=
  List.filter (fun r => negb (rl_timestamp r <? now - microseconds 60)) l.

(** ** The changes of state the handlers make

    Each handler changes the state by a sequence of the changes below; the
    invariants of the store are read off them. *)
Section Changes.

Context {env : Env}.

(** The state an upload loop leaves when it commits now. *)
Definition state_of (st : Upload) : State :=
  {| db := commit (session st); blobs := disk st |}.

(** The deletion gate (main.py, lines 521-529). *)
Definition gate (u : pystr) (file : File) (fs : list File) : bool :=
  negb (f_is_duplicate file) &&
  (0 <? duplicate_count u (f_file_hash file) fs)%nat.

(** [filter_by(file_id=i).update({"is_active": False})] *)
Definition revoke (i : Z) (l : list Share) : list Share :=
  map (fun s =>
         if sh_file_id s =? i then
           {| sh_file_id := sh_file_id s;
              sh_share_token := sh_share_token s;
              sh_created_by := sh_created_by s;
              sh_is_active := false;
              sh_download_count := sh_download_count s |}
         else s) l.

(** Lines 536-555 of [delete_file], for the record [file] of key [i]. *)
Definition after_delete (i : Z) (file : File) (us : gmap pystr User)
    (s : State) : State :=
  let fs := List.filter (fun r => negb (f_id r =? f_id file)) (files (db s)) in
  let blob_path := os_path_join UPLOAD_DIR (f_file_hash file) in
  {| db :=
       set_files
         (set_shared_files
            (set_shares (set_users (db s) us)
               (List.filter (fun x => negb (sh_file_id x =? i)) (shares (db s))))
            (List.filter (fun x => negb (sf_file_id x =? i))
               (shared_files (db s))))
         fs;
     blobs :=
       if (reference_count (f_file_hash file) fs =? 0)%nat then
         match blobs s !! blob_path with
         | Some _ => delete blob_path (blobs s)
         | None => blobs s
         end
       else blobs s |}.

Inductive change : State -> State -> Prop :=
| change_log (s : State) (rl : list RateLimit) :
    change s (with_db s (set_rate_limits (db s) rl))
| change_signup (s : State) (u pass : pystr) :
    users (db s) !! u = None ->
    change s
      (with_db s (set_users (db s)
         (<[u := {| password := hash_password pass;
                    storage_quota := STORAGE_QUOTA_MB * 1024 * 1024;
                    storage_used := 0 |}]> (users (db s)))))
| change_insert (s : State) (u : pystr) (folder : option pystr)
    (file : UploadFile) (dup : bool) :
    truthy u = true ->
    (dup = true ->
     exists r, In r (files (db s)) /\ f_uploader r = u /\
               f_file_hash r = sha256_hexdigest (uf_content file)) ->
    (dup = false ->
     exists user, users (db s) !! u = Some user /\
       storage_used user + Z.of_nat (length (uf_content file))
         <= storage_quota user) ->
    change s
      {| db :=
           set_files
             (set_users (db s)
                (if dup then users (db s)
                 else charge u (Z.of_nat (length (uf_content file)))
                        (users (db s))))
             (files (db s) ++
              [record_of u folder file dup (next_id (files (db s)))]);
         blobs := write_blob (uf_content file) (blobs s) |}
| change_folder (s : State) (u raw : pystr) :
    truthy u = true ->
    truthy (strip raw) = true ->
    contains 47%N (strip raw) = false ->
    contains 92%N (strip raw) = false ->
    existsb (fun f => str_eqb (fo_name f) (strip raw) &&
                      str_eqb (fo_owner f) u) (folders (db s)) = false ->
    change s
      (with_db s (set_folders (db s)
         (folders (db s) ++ [{| fo_name := strip raw; fo_owner := u |}])))
| change_grant (s : State) (u t : pystr) (i : Z) (file : File) :
    own_file_by_id i u (files (db s)) = Some file ->
    is_Some (users (db s) !! t) ->
    is_shared_with i t (shared_files (db s)) = false ->
    change s
      (with_db s (set_shared_files (db s)
         (shared_files (db s) ++
          [{| sf_file_id := i; sf_shared_by := u; sf_shared_with := t |}])))
| change_share (s : State) (u token : pystr) (i : Z) (file : File) :
    own_file_by_id i u (files (db s)) = Some file ->
    existsb (fun x => (sh_file_id x =? i) && sh_is_active x)
      (shares (db s)) = false ->
    change s
      (with_db s (set_shares (db s)
         (shares (db s) ++
          [{| sh_file_id := i; sh_share_token := token;
              sh_created_by := u; sh_is_active := true;
              sh_download_count := 0 |}])))
| change_revoke (s : State) (u : pystr) (i : Z) (file : File) :
    own_file_by_id i u (files (db s)) = Some file ->
    change s (with_db s (set_shares (db s) (revoke i (shares (db s)))))
| change_count (s : State) (token : pystr) :
    change s
      (with_db s (set_shares (db s) (count_download token (shares (db s)))))
| change_remove (s : State) (u : pystr) (i : Z) (file : File)
    (us : gmap pystr User) :
    own_file_by_id i u (files (db s)) = Some file ->
    gate u file (files (db s)) = false ->
    refund u file (users (db s)) = Some us ->
    change s (after_delete i file us s).

(** *** Invariants of the store *)

(** Every user keeps the quota given at sign-up and stays within it. *)
Definition within_quota (s : State) : Prop :=
  forall u user, users (db s) !! u = Some user ->
    storage_quota user = STORAGE_QUOTA_MB * 1024 * 1024 /\
    0 <= storage_used user <= storage_quota user.

(** Every record finds its blob on the medium. *)
Definition blobs_present (s : State) : Prop :=
  forall r, In r (files (db s)) ->
    is_Some (blobs s !! os_path_join UPLOAD_DIR (f_file_hash r)).

(** Every blob on the medium is referenced by a record. *)
Definition blobs_referenced (s : State) : Prop :=
  forall p c, blobs s !! p = Some c ->
    exists r, In r (files (db s)) /\
              os_path_join UPLOAD_DIR (f_file_hash r) = p.

(** Every blob is stored under the digest of its content. *)
Definition blobs_addressed (s : State) : Prop :=
  forall p c, blobs s !! p = Some c -> p = blob_path_of c.

(** Every record carries the digest and the length of some content. *)
Definition records_hashed (s : State) : Prop :=
  forall r, In r (files (db s)) ->
    exists content, f_file_hash r = sha256_hexdigest content /\
                    f_size r = Z.of_nat (length content).

(** Every duplicate record has an original of the same uploader and hash. *)
Definition originals_kept (s : State) : Prop :=
  forall r, In r (files (db s)) -> f_is_duplicate r = true ->
    exists o, In o (files (db s)) /\ f_uploader o = f_uploader r /\
              f_file_hash o = f_file_hash r /\ f_is_duplicate o = false.

(** Every grant names a record of the user who shared it and a user with a
    row, and no pair of record and grantee occurs twice. *)
Definition grants_valid (s : State) : Prop :=
  (forall g, In g (shared_files (db s)) ->
     (exists f, In f (files (db s)) /\ f_id f = sf_file_id g /\
                f_uploader f = sf_shared_by g) /\
     is_Some (users (db s) !! sf_shared_with g)) /\
  NoDup (map (fun g => (sf_file_id g, sf_shared_with g))
           (shared_files (db s))).

(** Every public share names a record of its creator, and a record has at
    most one active share. *)
Definition shares_valid (s : State) : Prop :=
  (forall x, In x (shares (db s)) ->
     exists f, In f (files (db s)) /\ f_id f = sh_file_id x /\
               f_uploader f = sh_created_by x) /\
  (forall i : Z,
     (length (List.filter (fun x => (sh_file_id x =? i)%Z && sh_is_active x)
                (shares (db s))) <= 1)%nat).

(** Folder names are trimmed, not empty, free of path separators, and
    distinct for one owner. *)
Definition folders_valid (s : State) : Prop :=
  (forall f, In f (folders (db s)) ->
     fo_name f <> [] /\ contains 47%N (fo_name f) = false /\
     contains 92%N (fo_name f) = false /\ strip (fo_name f) = fo_name f) /\
  NoDup (map (fun f => (fo_name f, fo_owner f)) (folders (db s))).

(** All of the above together. *)
Record sound (s : State) : Prop := {
  sound_consistent : consistent (db s);
  sound_quota : within_quota s;
  sound_present : blobs_present s;
  sound_referenced : blobs_referenced s;
  sound_addressed : blobs_addressed s;
  sound_hashed : records_hashed s;
  sound_originals : originals_kept s;
  sound_grants : grants_valid s;
  sound_shares : shares_valid s;
  sound_folders : folders_valid s
}.

End Changes.

(** Further concrete data: a user without a row, a token, the record of
    Alice's first upload and of her second, and the state after she
    publishes the first. *)
Definition carol : pystr := of_string "carol".

Definition token1 : pystr := of_string "tok1".


Definition first_record : File :=
  record_of (env := demo_env) alice None report false 1.

Definition second_record : File :=
  record_of (env := demo_env) alice None report true 2.

Definition published : State :=
  run (env := demo_env)
    [CreateShare (Some alice) 8000000 1 token1] uploaded_once.

(** Bob has uploaded the report too. *)
Definition uploaded_by_both : State :=
  run (env := demo_env)
    [UploadFiles (Some bob) 100 [report] None] uploaded_once.

Definition sign_ups : list Request :=
  [Signup alice (of_string "a"); Signup bob (of_string "b")].

(** Alice has just made two requests on each rate-limited endpoint. *)
Definition throttled : State :=
  run (env := demo_env)
    [UploadFiles (Some alice) 0 [report] None;
     UploadFiles (Some alice) 1 [notes] None;
     CreateFolder (Some alice) 0 (of_string "a");
     CreateFolder (Some alice) 1 (of_string "b");
     ShareWithUser (Some alice) 0 1 bob;
     ShareWithUser (Some alice) 1 2 bob;
     CreateShare (Some alice) 0 1 token1;
     CreateShare (Some alice) 1 2 token1;
     DeleteFile (Some alice) 0 7;
     DeleteFile (Some alice) 1 7]
    signed_up.

(** * Properties *)

Section Properties.

Context {env : Env}.

(** ** Basic facts *)

Lemma str_eqb_eq (a b : pystr) : str_eqb a b = true <-> a = b.
Proof. unfold str_eqb. apply bool_decide_eq_true. Qed.

Lemma str_eqb_refl (a : pystr) : str_eqb a a = true.
Proof. by apply str_eqb_eq. Qed.

Lemma str_eqb_neq (a b : pystr) : a <> b -> str_eqb a b = false.
Proof. intros H. unfold str_eqb. by apply bool_decide_eq_false. Qed.

Lemma authenticated_some (username : pystr) :
  truthy username = true -> authenticated (Some username) = Some username.
Proof. intros H. unfold authenticated. by rewrite H. Qed.

Lemma flush_files_nil (fs : list File) : flush_files fs [] = fs.
Proof. reflexivity. Qed.

Lemma flush_files_app (fs a b : list File) :
  flush_files fs (a ++ b) = flush_files (flush_files fs a) b.
Proof. unfold flush_files. apply fold_left_app. Qed.

Lemma flush_files_one (fs : list File) (r : File) :
  flush_files fs [r] = fs ++ [set_id r (next_id fs)].
Proof. reflexivity. Qed.

Lemma view_flush (s : Session) : view (flush s) = view s.
Proof. reflexivity. Qed.

Lemma view_query (s : Session) : view (query s) = view s.
Proof. unfold query. destruct autoflush; [apply view_flush | done]. Qed.

Lemma view_begin (d : DB) : view (begin d) = files d.
Proof. reflexivity. Qed.

Lemma users_query (s : Session) : users (store (query s)) = users (store s).
Proof. unfold query. by destruct autoflush. Qed.

Lemma query_idem (s : Session) : query (query s) = query s.
Proof. unfold query. destruct autoflush; [|done]. by destruct s as [[]]. Qed.

Lemma view_session_add (s : Session) (r : File) :
  view (session_add s r) = view s ++ [set_id r (next_id (view s))].
Proof. unfold view. simpl. by rewrite flush_files_app, flush_files_one. Qed.

Lemma commit_files (s : Session) : files (commit s) = view s.
Proof. reflexivity. Qed.

Lemma commit_users (s : Session) : users (commit s) = users (store s).
Proof. reflexivity. Qed.

(** The rate limiter writes to [rate_limits] only. *)
Lemma check_rate_limit_frame (username endpoint : pystr) (now : Z) (d : DB) :
  let d1 := snd (check_rate_limit username endpoint now d) in
  users d1 = users d /\ files d1 = files d /\ shares d1 = shares d /\
  shared_files d1 = shared_files d /\ folders d1 = folders d.
Proof.
  unfold check_rate_limit. cbv zeta. by case_match.
Qed.

Lemma check_rate_limit_blocked (username endpoint : pystr) (now : Z) (d : DB) :
  fst (check_rate_limit username endpoint now d) = false ->
  snd (check_rate_limit username endpoint now d) = d.
Proof.
  unfold check_rate_limit. cbv zeta. by case_match.
Qed.

Lemma DB_eq (d1 d2 : DB) :
  users d1 = users d2 -> files d1 = files d2 ->
  other_tables d1 = other_tables d2 -> d1 = d2.
Proof.
  destruct d1, d2. unfold other_tables. simpl.
  intros -> -> H. by inversion H.
Qed.

Lemma other_tables_query (s : Session) :
  other_tables (store (query s)) = other_tables (store s).
Proof. unfold query. by destruct autoflush. Qed.

Lemma visible_begin (d : DB) : visible (begin d) = files d.
Proof. unfold visible, query. by destruct autoflush. Qed.

Lemma visible_autoflush (s : Session) :
  visible s = if autoflush then view s else files (store s).
Proof. unfold visible, query. by destruct autoflush. Qed.

Lemma check_storage_quota_query (u : pystr) (n : Z) (s : Session) :
  check_storage_quota u n (store (query s)) = check_storage_quota u n (store s).
Proof. unfold check_storage_quota. by rewrite users_query. Qed.

Lemma check_storage_quota_ok (u : pystr) (n : Z) (d : DB) :
  fst (check_storage_quota u n d) = true <->
  exists user, users d !! u = Some user /\
               storage_used user + n <= storage_quota user.
Proof.
  unfold check_storage_quota.
  destruct (users d !! u) as [user|]; simpl.
  - destruct (Z.ltb_spec (storage_quota user) (storage_used user + n)); simpl.
    + split; [done|]. intros (? & [= <-] & ?). lia.
    + split; [|done]. intros _. exists user. split; [done | lia].
  - split; [done|]. by intros (? & ? & _).
Qed.

Lemma upload_one_skip (u : pystr) (folder : option pystr) (st : Upload)
    (file : UploadFile) :
  skips u st file = true ->
  upload_one u folder st file =
    {| session := query (session st); disk := disk st;
       uploaded_count := uploaded_count st;
       skipped_count := S (skipped_count st) |}.
Proof.
  unfold skips, visible, upload_one. intros H.
  rewrite check_storage_quota_query. by rewrite H.
Qed.

Lemma upload_one_accept (u : pystr) (folder : option pystr) (st : Upload)
    (file : UploadFile) :
  skips u st file = false ->
  let st' := upload_one u folder st file in
  let prior := has_uploaded u (sha256_hexdigest (uf_content file))
                 (visible (session st)) in
  view (session st') =
    view (session st) ++
    [record_of u folder file prior (next_id (view (session st)))] /\
  users (store (session st')) =
    (if prior then users (store (session st))
     else charge u (Z.of_nat (length (uf_content file)))
            (users (store (session st)))) /\
  other_tables (store (session st')) = other_tables (store (session st)) /\
  disk st' = write_blob (uf_content file) (disk st) /\
  uploaded_count st' = S (uploaded_count st) /\
  skipped_count st' = skipped_count st.
Proof.
  unfold skips, visible. intros H. cbv zeta. unfold upload_one.
  rewrite check_storage_quota_query, H. cbv zeta.
  set (prior := has_uploaded _ _ _) in *.
  simpl. split_and!; try done.
  - destruct prior.
    + by rewrite view_session_add, view_query.
    + transitivity (view (query (session_add (query (session st))
        {| f_id := 0; f_filename := uf_filename file; f_uploader := u;
           f_size := Z.of_nat (length (uf_content file));
           f_file_hash := sha256_hexdigest (uf_content file);
           f_is_duplicate := false; f_folder := folder_name_of folder |}))).
      { by case_match. }
      by rewrite view_query, view_session_add, view_query.
  - destruct prior; simpl; rewrite ?users_query; simpl;
      rewrite ?users_query; [done|].
    unfold charge. destruct (users (store (session st)) !! u); simpl;
      [done|]. by rewrite users_query; simpl; rewrite users_query.
  - destruct prior; simpl; [by rewrite other_tables_query|].
    case_match; simpl; unfold other_tables; simpl;
      fold (other_tables (store (query (session_add (query (session st))
        {| f_id := 0; f_filename := uf_filename file; f_uploader := u;
           f_size := Z.of_nat (length (uf_content file));
           f_file_hash := sha256_hexdigest (uf_content file);
           f_is_duplicate := false; f_folder := folder_name_of folder |}))));
      by rewrite other_tables_query; simpl; rewrite other_tables_query.
Qed.

Lemma next_id_gt (fs : list File) (r : File) :
  In r fs -> f_id r < next_id fs.
Proof.
  unfold next_id. induction fs as [|a fs IH]; simpl; [done|].
  intros [->|H]; [lia|]. specialize (IH H). lia.
Qed.

Lemma next_id_fresh (fs : list File) : ~ In (next_id fs) (map f_id fs).
Proof.
  intros H. apply in_map_iff in H as (r & Heq & Hin).
  apply next_id_gt in Hin. lia.
Qed.

Lemma has_uploaded_app (u h : pystr) (a b : list File) :
  has_uploaded u h (a ++ b) = has_uploaded u h a || has_uploaded u h b.
Proof. unfold has_uploaded. apply existsb_app. Qed.

Lemma has_uploaded_record (u : pystr) (folder : option pystr)
    (file : UploadFile) (dup : bool) (i : Z) :
  has_uploaded u (sha256_hexdigest (uf_content file))
    [record_of u folder file dup i] = true.
Proof.
  unfold has_uploaded. simpl. by rewrite !str_eqb_refl.
Qed.

Lemma has_uploaded_other (u v h : pystr) (folder : option pystr)
    (file : UploadFile) (dup : bool) (i : Z) :
  u <> v ->
  has_uploaded v h [record_of u folder file dup i] = false.
Proof.
  intros H. unfold has_uploaded. simpl. by rewrite str_eqb_neq.
Qed.

Lemma write_blob_present (content : bytes) (m : gmap pystr bytes) :
  is_Some (write_blob content m !! blob_path_of content).
Proof.
  unfold write_blob. destruct (m !! blob_path_of content) eqn:E.
  - by rewrite E.
  - by rewrite lookup_insert_eq.
Qed.

(** A blob already on the medium is not written again, whatever bytes
    arrive under its hash. *)
Lemma write_blob_skip (content : bytes) (m : gmap pystr bytes) :
  is_Some (m !! blob_path_of content) -> write_blob content m = m.
Proof. intros [x E]. unfold write_blob. by rewrite E. Qed.

Lemma write_blob_other (content : bytes) (m : gmap pystr bytes) (p : pystr) :
  p <> blob_path_of content -> write_blob content m !! p = m !! p.
Proof.
  intros H. unfold write_blob. case_match; [done|].
  by rewrite lookup_insert_ne.
Qed.

Lemma charge_lookup (u : pystr) (n : Z) (us : gmap pystr User) (user : User) :
  us !! u = Some user ->
  charge u n us = <[u := set_storage_used user (storage_used user + n)]> us.
Proof. intros H. unfold charge. by rewrite H. Qed.

Lemma upload_file_allowed (u : pystr) (now : Z) (fs : list UploadFile)
    (folder : option pystr) (st : State) :
  truthy u = true ->
  fst (check_rate_limit u (of_string "upload") now (db st)) = true ->
  snd (upload_file (Some u) now fs folder st) =
    {| db := commit (session (upload_run u now fs folder st));
       blobs := disk (upload_run u now fs folder st) |}.
Proof.
  intros Hu Hr. unfold upload_file, upload_run, upload_db.
  rewrite (authenticated_some _ Hu).
  destruct (check_rate_limit u (of_string "upload") now (db st)) as [a d1].
  simpl in *. subst a. simpl. by case_match.
Qed.

(** One accepted item, uploaded in a request of its own. *)
Lemma upload_single (u : pystr) (now : Z) (file : UploadFile)
    (folder : option pystr) (st : State) :
  truthy u = true ->
  fst (check_rate_limit u (of_string "upload") now (db st)) = true ->
  let prior := has_uploaded u (sha256_hexdigest (uf_content file))
                 (files (db st)) in
  (prior = true \/
   fst (check_storage_quota u (Z.of_nat (length (uf_content file)))
          (db st)) = true) ->
  let st' := snd (upload_file (Some u) now [file] folder st) in
  files (db st') =
    files (db st) ++ [record_of u folder file prior (next_id (files (db st)))] /\
  users (db st') =
    (if prior then users (db st)
     else charge u (Z.of_nat (length (uf_content file))) (users (db st))) /\
  shares (db st') = shares (db st) /\
  shared_files (db st') = shared_files (db st) /\
  folders (db st') = folders (db st) /\
  blobs st' = write_blob (uf_content file) (blobs st).
Proof.
  intros Hu Hr prior Hacc st'.
  unfold st'. rewrite (upload_file_allowed _ _ _ _ _ Hu Hr). simpl.
  unfold upload_run, upload_loop. simpl.
  destruct (check_rate_limit_frame u (of_string "upload") now (db st))
    as (Hus & Hfs & Hsh & Hsf & Hfo). fold (upload_db u now st) in *.
  set (st0 := {| session := begin (upload_db u now st); disk := blobs st;
                 uploaded_count := 0; skipped_count := 0 |}).
  assert (Hskip : skips u st0 file = false).
  { unfold skips, st0. simpl. rewrite visible_begin, Hfs. fold prior.
    unfold check_storage_quota in *. rewrite Hus.
    destruct Hacc as [-> | ->]; [done | by rewrite andb_false_r]. }
  destruct (upload_one_accept u folder st0 file Hskip)
    as (Hv & Hu' & Ho & Hd & _).
  unfold st0 in Hv, Hu', Ho, Hd. simpl in Hv, Hu', Ho, Hd.
  rewrite visible_begin, view_begin, Hfs in Hv.
  rewrite visible_begin, Hfs, Hus in Hu'.
  fold st0 in Hv, Hu', Ho, Hd. fold prior in Hv, Hu'.
  unfold other_tables in Ho. injection Ho as E1 E2 E3 E4.
  change (flush_files _ _)
    with (view (session (upload_one u folder st0 file))).
  by rewrite Hv, Hu', E1, E2, E3, Hsh, Hsf, Hfo, Hd.
Qed.

(** ** Uploading the same content twice *)


(** The two uploads as two items of one request: the second item finds the
    record of the first when the session flushes before the query. *)
Lemma upload_one_store_files (u : pystr) (folder : option pystr)
    (st : Upload) (file : UploadFile) :
  autoflush = false ->
  files (store (session (upload_one u folder st file))) =
  files (store (session st)).
Proof.
  intros Haf. unfold upload_one, query. rewrite Haf.
  repeat case_match; done.
Qed.



(** C2. Two different users [u1] and [u2], each with a row and room, and
    neither having uploaded the content before, upload the same content one
    after the other. Each gets a record with [is_duplicate = false] and is
    charged the size once on the own row; the blob is stored under the hash
    once: the second user's request leaves the medium as it is. *)
Theorem upload_same_content_two_users (u1 u2 : pystr) (user1 user2 : User)
    (now1 now2 : Z) (file1 file2 : UploadFile)
    (folder1 folder2 : option pystr) (st : State) :
  truthy u1 = true -> truthy u2 = true -> u1 <> u2 ->
  uf_content file2 = uf_content file1 ->
  users (db st) !! u1 = Some user1 ->
  users (db st) !! u2 = Some user2 ->
  has_uploaded u1 (sha256_hexdigest (uf_content file1)) (files (db st)) = false ->
  has_uploaded u2 (sha256_hexdigest (uf_content file1)) (files (db st)) = false ->
  storage_used user1 + Z.of_nat (length (uf_content file1))
    <= storage_quota user1 ->
  storage_used user2 + Z.of_nat (length (uf_content file1))
    <= storage_quota user2 ->
  fst (check_rate_limit u1 (of_string "upload") now1 (db st)) = true ->
  let st1 := snd (upload_file (Some u1) now1 [file1] folder1 st) in
  fst (check_rate_limit u2 (of_string "upload") now2 (db st1)) = true ->
  let st2 := snd (upload_file (Some u2) now2 [file2] folder2 st1) in
  exists i1 i2, i1 <> i2 /\
    files (db st2) =
      files (db st) ++
      [record_of u1 folder1 file1 false i1;
       record_of u2 folder2 file2 false i2] /\
    users (db st2) =
      <[u2 := set_storage_used user2
                (storage_used user2 + Z.of_nat (length (uf_content file1)))]>
        (<[u1 := set_storage_used user1
                   (storage_used user1 +
                    Z.of_nat (length (uf_content file1)))]>
           (users (db st))) /\
    is_Some (blobs st1 !! blob_path_of (uf_content file1)) /\
    blobs st2 = blobs st1 /\
    blobs st2 = write_blob (uf_content file1) (blobs st).
Proof.
  intros Hu1 Hu2 Hne Hc Hrow1 Hrow2 Hnew1 Hnew2 Hroom1 Hroom2 Hr1 st1 Hr2 st2.
  assert (Hq1 : fst (check_storage_quota u1
                  (Z.of_nat (length (uf_content file1))) (db st)) = true).
  { apply check_storage_quota_ok. eauto. }
  destruct (upload_single u1 now1 file1 folder1 st Hu1 Hr1 (or_intror Hq1))
    as (Hf1 & Hus1 & _ & _ & _ & Hb1).
  fold st1 in Hf1, Hus1, Hb1. rewrite Hnew1 in Hf1, Hus1.
  rewrite (charge_lookup _ _ _ _ Hrow1) in Hus1.
  assert (Hrow2' : users (db st1) !! u2 = Some user2).
  { by rewrite Hus1, lookup_insert_ne. }
  assert (Hnew2' : has_uploaded u2 (sha256_hexdigest (uf_content file2))
                     (files (db st1)) = false).
  { rewrite Hf1, Hc, has_uploaded_app, Hnew2.
    by rewrite has_uploaded_other. }
  assert (Hq2 : fst (check_storage_quota u2
                  (Z.of_nat (length (uf_content file2))) (db st1)) = true).
  { apply check_storage_quota_ok. exists user2. by rewrite Hc. }
  destruct (upload_single u2 now2 file2 folder2 st1 Hu2 Hr2 (or_intror Hq2))
    as (Hf2 & Hus2 & _ & _ & _ & Hb2).
  fold st2 in Hf2, Hus2, Hb2. rewrite Hnew2' in Hf2, Hus2.
  rewrite (charge_lookup _ _ _ _ Hrow2'), Hc in Hus2.
  exists (next_id (files (db st))), (next_id (files (db st1))).
  split_and!.
  - assert (f_id (record_of u1 folder1 file1 false (next_id (files (db st))))
            < next_id (files (db st1))); [|simpl in *; lia].
    apply next_id_gt. rewrite Hf1. apply in_or_app. right. by left.
  - by rewrite Hf2, Hf1, <- app_assoc.
  - by rewrite Hus2, Hus1.
  - rewrite Hb1. apply write_blob_present.
  - rewrite Hb2, Hc, Hb1. apply write_blob_skip, write_blob_present.
  - rewrite Hb2, Hc, Hb1. apply write_blob_skip, write_blob_present.
Qed.

(** ** Batches: an item over quota is skipped, the rest goes on *)

Lemma commit_query (s : Session) : commit (query s) = commit s.
Proof. unfold query. destruct autoflush; [|done]. by destruct s as [[]]. Qed.

Lemma one_more_skipped_step (u : pystr) (folder : option pystr)
    (a b : Upload) (file : UploadFile) :
  one_more_skipped a b ->
  one_more_skipped (upload_one u folder a file) (upload_one u folder b file).
Proof.
  intros (Hq & Hc & Hd & Hu & Hs). unfold one_more_skipped, upload_one.
  rewrite Hq, Hd, Hu, Hs. by case_match.
Qed.

Lemma one_more_skipped_loop (u : pystr) (folder : option pystr)
    (fs : list UploadFile) (a b : Upload) :
  one_more_skipped a b ->
  one_more_skipped (upload_loop u folder fs a) (upload_loop u folder fs b).
Proof.
  revert a b. induction fs as [|f fs IH]; intros a b H; [done|].
  simpl. by apply IH, one_more_skipped_step.
Qed.

Lemma upload_loop_app (u : pystr) (folder : option pystr)
    (a b : list UploadFile) (st : Upload) :
  upload_loop u folder (a ++ b) st =
  upload_loop u folder b (upload_loop u folder a st).
Proof. unfold upload_loop. apply fold_left_app. Qed.

(** C3. In a batch [pre ++ file :: post], let [file] be, at its turn, new
    to the user and too large for what is left of the quota. Then its turn
    writes no blob, inserts no record and leaves every [storage_used] as it
    is, and the batch ends exactly as the batch [pre ++ post] does: same
    store, same blobs, same number of accepted items, one more skipped. *)
Theorem quota_skip_isolated (u : pystr) (folder : option pystr)
    (pre post : list UploadFile) (file : UploadFile) (st0 : Upload)
    (user : User) :
  let st1 := upload_loop u folder pre st0 in
  has_uploaded u (sha256_hexdigest (uf_content file))
    (visible (session st1)) = false ->
  users (store (session st1)) !! u = Some user ->
  storage_quota user
    < storage_used user + Z.of_nat (length (uf_content file)) ->
  let st2 := upload_one u folder st1 file in
  let r := upload_loop u folder (pre ++ file :: post) st0 in
  let r' := upload_loop u folder (pre ++ post) st0 in
  (disk st2 = disk st1 /\
   commit (session st2) = commit (session st1) /\
   uploaded_count st2 = uploaded_count st1 /\
   skipped_count st2 = S (skipped_count st1)) /\
  (commit (session r) = commit (session r') /\
   disk r = disk r' /\
   uploaded_count r = uploaded_count r' /\
   skipped_count r = S (skipped_count r')).
Proof.
  intros st1 Hnew Hrow Hover st2 r r'.
  assert (Hskip : skips u st1 file = true).
  { unfold skips. rewrite Hnew. simpl.
    destruct (fst (check_storage_quota u
      (Z.of_nat (length (uf_content file))) (store (session st1)))) eqn:E;
      [|done].
    apply check_storage_quota_ok in E as (user' & Hrow' & Hle).
    rewrite Hrow in Hrow'. injection Hrow' as <-. lia. }
  assert (Hst2 : one_more_skipped st2 st1).
  { unfold st2. rewrite (upload_one_skip _ _ _ _ Hskip).
    unfold one_more_skipped. simpl.
    by rewrite query_idem, commit_query. }
  split.
  - by destruct Hst2 as (_ & ? & ? & ? & ?).
  - unfold r, r'. rewrite !upload_loop_app. simpl.
    fold st1. fold st2.
    destruct (one_more_skipped_loop u folder post _ _ Hst2)
      as (_ & ? & ? & ? & ?).
    done.
Qed.

(** ** The quota charge and its message *)

Lemma round_half_even_near (num den : Z) :
  0 < den -> 2 * Z.abs (round_half_even num den * den - num) <= den.
Proof.
  intros Hden. unfold round_half_even.
  pose proof (Z.div_mod num den ltac:(lia)) as Hdm.
  pose proof (Z.mod_pos_bound num den Hden) as Hb.
  set (q := num / den) in *. set (r := num mod den) in *.
  destruct (Z.ltb_spec (2 * r) den); [lia|].
  destruct (Z.ltb_spec den (2 * r)); [lia|].
  destruct (Z.even q); lia.
Qed.

Lemma round_half_even_nonneg (num den : Z) :
  0 <= num -> 0 < den -> 0 <= round_half_even num den.
Proof.
  intros Hn Hd. unfold round_half_even.
  pose proof (Z.div_pos num den Hn Hd).
  repeat case_match; lia.
Qed.

Lemma round53_small (n : Z) : n < 2 ^ 53 -> round53 n = n.
Proof.
  intros H. unfold round53.
  destruct (Z.ltb_spec n (2 ^ 53)); [done | lia].
Qed.

Lemma str_of_digit (d : Z) :
  0 <= d <= 9 -> str_of_N (Z.to_N d) = [(48 + Z.to_N d)%N].
Proof.
  intros H.
  assert (d = 0 \/ d = 1 \/ d = 2 \/ d = 3 \/ d = 4 \/ d = 5 \/ d = 6 \/
          d = 7 \/ d = 8 \/ d = 9) as Hd by lia.
  repeat (destruct Hd as [-> | Hd]; [reflexivity|]). by subst.
Qed.

(** The printed text: the integer part, a point, and exactly two decimal
    digits; and, below 2^53 bytes, the printed number of hundredths of a MB
    is within half a hundredth of the byte count. *)
Lemma format_mb_two_decimals (n : Z) :
  0 <= n ->
  exists h d1 d2,
    0 <= h /\ 0 <= d1 <= 9 /\ 0 <= d2 <= 9 /\
    hundredths_mb n = 100 * h + 10 * d1 + d2 /\
    format_mb n =
      str_of_N (Z.to_N h) ++ [46%N; (48 + Z.to_N d1)%N; (48 + Z.to_N d2)%N] /\
    (n < 2 ^ 53 ->
     2 * Z.abs (hundredths_mb n * (1024 * 1024) - 100 * n) <= 1024 * 1024).
Proof.
  intros Hn.
  assert (Hh : 0 <= hundredths_mb n).
  { unfold hundredths_mb. apply round_half_even_nonneg; [|lia].
    unfold round53. case_match; [lia|].
    apply Z.mul_nonneg_nonneg.
    - apply Z.mul_nonneg_nonneg; [|lia].
      apply round_half_even_nonneg; [lia|]. apply Z.pow_pos_nonneg; [lia|].
      destruct (Z.ltb_spec n (2 ^ 53)); [done|].
      assert (Z.log2 (2 ^ 53) <= Z.log2 n) by (apply Z.log2_le_mono; lia).
      rewrite Z.log2_pow2 in *; lia.
    - lia. }
  set (h := hundredths_mb n) in *.
  exists (h / 100), ((h mod 100) / 10), ((h mod 100) mod 10).
  pose proof (Z.div_mod h 100 ltac:(lia)).
  pose proof (Z.mod_pos_bound h 100 ltac:(lia)).
  pose proof (Z.div_mod (h mod 100) 10 ltac:(lia)).
  pose proof (Z.mod_pos_bound (h mod 100) 10 ltac:(lia)).
  assert (0 <= h mod 100 / 10 <= 9).
  { split; [apply Z.div_pos; lia|].
    apply Z.lt_succ_r. apply Z.div_lt_upper_bound; lia. }
  split_and!; try lia.
  - unfold format_mb. rewrite Z.abs_eq by lia. fold h.
    destruct (Z.ltb_spec n 0); [lia|].
    change (of_string ".") with [46%N]. rewrite app_nil_l.
    unfold two_digits.
    rewrite (str_of_digit (h mod 100 / 10)) by lia.
    by rewrite (str_of_digit ((h mod 100) mod 10)) by lia.
  - intros Hsmall. unfold h, hundredths_mb.
    rewrite (round53_small _ Hsmall).
    pose proof (round_half_even_near (n * 100) (1024 * 1024) ltac:(lia)).
    lia.
Qed.

(** C4. For a user with a row and an item new to the user: the quota check
    succeeds exactly when [storage_used + bytes <= storage_quota]; then the
    turn of the upload loop adds [bytes] to [storage_used]; otherwise no
    [storage_used] changes and the check returns the message
    "Storage quota exceeded! You have U MB / Q MB used.", where U and Q
    print usage and quota in MB with two decimals. *)
Theorem quota_charge (u : pystr) (user : User) (folder : option pystr)
    (st : Upload) (file : UploadFile) :
  users (store (session st)) !! u = Some user ->
  has_uploaded u (sha256_hexdigest (uf_content file))
    (visible (session st)) = false ->
  0 <= storage_used user < 2 ^ 53 ->
  0 <= storage_quota user < 2 ^ 53 ->
  let n := Z.of_nat (length (uf_content file)) in
  let check := check_storage_quota u n (store (session st)) in
  let st' := upload_one u folder st file in
  (fst check = true <-> storage_used user + n <= storage_quota user) /\
  (storage_used user + n <= storage_quota user ->
   users (store (session st')) =
     <[u := set_storage_used user (storage_used user + n)]>
       (users (store (session st)))) /\
  (storage_quota user < storage_used user + n ->
   users (store (session st')) = users (store (session st)) /\
   snd check =
     of_string "Storage quota exceeded! You have " ++
     format_mb (storage_used user) ++ of_string " MB / " ++
     format_mb (storage_quota user) ++ of_string " MB used." /\
   forall x, x = storage_used user \/ x = storage_quota user ->
     exists h d1 d2,
       0 <= d1 <= 9 /\ 0 <= d2 <= 9 /\
       format_mb x =
         str_of_N (Z.to_N h) ++
         [46%N; (48 + Z.to_N d1)%N; (48 + Z.to_N d2)%N] /\
       2 * Z.abs ((100 * h + 10 * d1 + d2) * (1024 * 1024) - 100 * x)
         <= 1024 * 1024).
Proof.
  intros Hrow Hnew Hused Hquota n check st'.
  assert (Hiff : fst check = true <->
                 storage_used user + n <= storage_quota user).
  { unfold check. rewrite check_storage_quota_ok. split.
    - intros (user' & Hrow' & Hle). rewrite Hrow in Hrow'.
      by injection Hrow' as <-.
    - eauto. }
  split_and!; [done | |].
  - intros Hle. apply Hiff in Hle.
    assert (Hskip : skips u st file = false).
    { unfold skips. fold n. fold check. rewrite Hle. apply andb_false_r. }
    destruct (upload_one_accept u folder st file Hskip) as (_ & Hus & _).
    fold st' in Hus. rewrite Hnew in Hus.
    by rewrite Hus, (charge_lookup _ _ _ _ Hrow).
  - intros Hover.
    assert (Hno : fst check = false).
    { apply not_true_is_false. intros E. apply Hiff in E. lia. }
    assert (Hskip : skips u st file = true).
    { unfold skips. fold n. fold check. by rewrite Hnew, Hno. }
    split_and!.
    + unfold st'. rewrite (upload_one_skip _ _ _ _ Hskip). simpl.
      apply users_query.
    + unfold check, check_storage_quota. rewrite Hrow.
      destruct (Z.ltb_spec (storage_quota user) (storage_used user + n));
        [done | lia].
    + intros x Hx.
      assert (0 <= x < 2 ^ 53) as [Hx0 Hx53] by (destruct Hx; by subst).
      destruct (format_mb_two_decimals x Hx0)
        as (h & d1 & d2 & _ & Hd1 & Hd2 & Hh & Hfmt & Hnear).
      exists h, d1, d2. rewrite <- Hh. auto.
Qed.

(** ** Deletion *)

Lemma duplicate_count_pos (u h : pystr) (fs : list File) (dup : File) :
  In dup fs -> f_uploader dup = u -> f_file_hash dup = h ->
  f_is_duplicate dup = true ->
  (0 <? duplicate_count u h fs)%nat = true.
Proof.
  intros Hin Hu Hh Hd. apply Nat.ltb_lt. unfold duplicate_count.
  assert (In dup (List.filter
    (fun r => str_eqb (f_uploader r) u && str_eqb (f_file_hash r) h &&
              f_is_duplicate r) fs)) as Hf.
  { apply filter_In. split; [done|].
    by rewrite Hu, Hh, Hd, !str_eqb_refl. }
  destruct (List.filter _ fs); [done | simpl; lia].
Qed.

(** C5. The owner asks to delete a record that is not a duplicate while a
    duplicate record of the same uploader and hash exists. The request is
    refused with a redirect that carries an error (never the 404 of a
    missing record, never the plain redirect of a deletion), and records,
    users, shares, grants, folders and blobs stay as they were. *)
Theorem delete_original_with_duplicates_refused (u : pystr) (now : Z)
    (file_id : Z) (st : State) (file dup : File) :
  truthy u = true ->
  own_file_by_id file_id u (files (db st)) = Some file ->
  f_is_duplicate file = false ->
  In dup (files (db st)) ->
  f_uploader dup = u ->
  f_file_hash dup = f_file_hash file ->
  f_is_duplicate dup = true ->
  let resp := fst (delete_file (Some u) now file_id st) in
  let st' := snd (delete_file (Some u) now file_id st) in
  (resp = (if fst (check_rate_limit u (of_string "delete") now (db st))
           then RedirectResponse
                  (of_string "/upload?error=delete_duplicates_first") 302
           else RedirectResponse
                  (of_string "/upload?upload_error=rate_limit") 302)) /\
  resp <> HTTPException 404 None /\
  resp <> RedirectResponse (of_string "/upload") 302 /\
  files (db st') = files (db st) /\
  users (db st') = users (db st) /\
  shares (db st') = shares (db st) /\
  shared_files (db st') = shared_files (db st) /\
  folders (db st') = folders (db st) /\
  blobs st' = blobs st.
Proof.
  intros Hu Hfile Horig Hin Hdu Hdh Hdd. cbv zeta.
  unfold delete_file. rewrite (authenticated_some _ Hu).
  pose proof (check_rate_limit_frame u (of_string "delete") now (db st))
    as (Hus & Hfs & Hsh & Hsf & Hfo).
  destruct (check_rate_limit u (of_string "delete") now (db st))
    as [[|] d1]; simpl in *.
  - rewrite Hfs, Hfile, Horig. simpl.
    rewrite (duplicate_count_pos u (f_file_hash file) (files (db st)) dup)
      by done.
    simpl. by split_and!.
  - by split_and!.
Qed.

Lemma reference_count_zero (h : pystr) (fs : list File) (r : File) :
  reference_count h fs = 0%nat -> In r fs -> f_file_hash r <> h.
Proof.
  unfold reference_count. intros Hz Hin Hh.
  assert (In r (List.filter (fun r => str_eqb (f_file_hash r) h) fs)) as Hf.
  { apply filter_In. split; [done | by apply str_eqb_eq]. }
  by destruct (List.filter _ fs).
Qed.

Lemma reference_count_nonzero (h : pystr) (fs : list File) :
  reference_count h fs <> 0%nat ->
  exists r, In r fs /\ f_file_hash r = h.
Proof.
  unfold reference_count. intros Hz.
  destruct (List.filter _ fs) as [|r l] eqn:E; [done|].
  assert (In r (List.filter (fun r => str_eqb (f_file_hash r) h) fs)) as Hf.
  { rewrite E. by left. }
  apply filter_In in Hf as [Hin Hh]. exists r. split; [done|].
  by apply str_eqb_eq.
Qed.

Lemma In_remaining (fs : list File) (file r : File) :
  In r fs -> f_id r <> f_id file ->
  In r (List.filter (fun x => negb (f_id x =? f_id file)) fs).
Proof.
  intros Hin Hne. apply filter_In. split; [done|].
  apply negb_true_iff. lia.
Qed.

(** C6. After a deletion that went through, the record is gone from the
    table. If a record with the same hash is left in the table, whoever
    uploaded it, the blob directory is as before, so the blob stays; if
    none is left, the blob is removed. The count the handler takes is zero
    exactly when no such record is left, and it is taken over the table
    without the removed record. *)
Theorem delete_reclaims_unreferenced_blob (u : pystr) (now : Z)
    (file_id : Z) (st : State) (file : File) :
  truthy u = true ->
  own_file_by_id file_id u (files (db st)) = Some file ->
  fst (delete_file (Some u) now file_id st)
    = RedirectResponse (of_string "/upload") 302 ->
  let st' := snd (delete_file (Some u) now file_id st) in
  let blob_path := os_path_join UPLOAD_DIR (f_file_hash file) in
  let referenced :=
    exists r, In r (files (db st')) /\ f_file_hash r = f_file_hash file in
  files (db st') =
    List.filter (fun r => negb (f_id r =? f_id file)) (files (db st)) /\
  (reference_count (f_file_hash file) (files (db st')) = 0%nat <->
   ~ referenced) /\
  (referenced -> blobs st' = blobs st) /\
  (~ referenced -> blobs st' = delete blob_path (blobs st)) /\
  (forall r, In r (files (db st)) -> f_id r <> f_id file ->
     f_file_hash r = f_file_hash file -> blobs st' = blobs st) /\
  (is_Some (blobs st !! blob_path) ->
   (blobs st' !! blob_path = None <-> ~ referenced)).
Proof.
  intros Hu Hfile. cbv zeta.
  unfold delete_file. rewrite (authenticated_some _ Hu).
  pose proof (check_rate_limit_frame u (of_string "delete") now (db st))
    as (Hus & Hfs & Hsh & Hsf & Hfo).
  destruct (check_rate_limit u (of_string "delete") now (db st))
    as [[|] d1]; simpl in *; [|done].
  rewrite Hfs, Hfile.
  destruct (negb (f_is_duplicate file) && _); simpl; [done|].
  destruct (refund u file (users d1)) as [us|]; simpl; [|done].
  intros _. rewrite ?Hfs.
  set (fs' := List.filter _ (files (db st))).
  assert (Hcount : reference_count (f_file_hash file) fs' = 0%nat <->
    ~ (exists r, In r fs' /\ f_file_hash r = f_file_hash file)).
  { split.
    - intros Hz (r & Hr & Hh). by apply (reference_count_zero _ _ r Hz).
    - intros Hno.
      destruct (Nat.eq_dec (reference_count (f_file_hash file) fs') 0%nat)
        as [Hz|Hz]; [done|].
      by apply reference_count_nonzero in Hz. }
  assert (Hother : forall r, In r (files (db st)) -> f_id r <> f_id file ->
    f_file_hash r = f_file_hash file ->
    exists r, In r fs' /\ f_file_hash r = f_file_hash file).
  { intros r Hr Hid Hh. exists r. split; [|done]. by apply In_remaining. }
  destruct (Nat.eqb_spec (reference_count (f_file_hash file) fs') 0)
    as [E|E].
  - pose proof (proj1 Hcount E) as Hno. split_and!; [done | done | | | |].
    + intros Href. by destruct Hno.
    + intros _. destruct (blobs st !! _) eqn:Eb; [done|].
      symmetry. by apply delete_id.
    + intros r Hr Hid Hh. destruct Hno. by apply (Hother r).
    + intros [x Hx]. rewrite Hx. by rewrite lookup_delete_eq.
  - assert (Href : exists r, In r fs' /\ f_file_hash r = f_file_hash file)
      by by apply reference_count_nonzero.
    split_and!; [done | done | done | | done |].
    + intros Hno. by destruct Hno.
    + intros [x Hx]. rewrite Hx. split; [done|]. intros Hno. by destruct Hno.
Qed.

(** ** Download *)

Lemma is_shared_with_true (i : Z) (u : pystr) (l : list SharedFile) :
  is_shared_with i u l = true <->
  exists e, In e l /\ sf_file_id e = i /\ sf_shared_with e = u.
Proof.
  unfold is_shared_with. rewrite existsb_exists. split.
  - intros (e & Hin & H). apply andb_true_iff in H as [H1 H2].
    exists e. split_and!; [done | lia | by apply str_eqb_eq].
  - intros (e & Hin & <- & <-). exists e. split; [done|].
    by rewrite Z.eqb_refl, str_eqb_refl.
Qed.

(** C10. A caller with a cookie asks for an existing record. If the caller
    is not the uploader and no grant for this record id names the caller,
    the answer is 403 "Access denied", so no file is served. If the caller
    is the uploader or a grant names the caller, and the blob is on the
    medium, the file is served. *)
Theorem download_access (u : pystr) (file_id : Z) (st : State) (file : File) :
  truthy u = true ->
  file_by_id file_id (files (db st)) = Some file ->
  let granted :=
    exists e, In e (shared_files (db st)) /\
              sf_file_id e = file_id /\ sf_shared_with e = u in
  let blob_path := os_path_join UPLOAD_DIR (f_file_hash file) in
  (f_uploader file <> u -> ~ granted ->
   download_file (Some u) file_id st =
     HTTPException 403 (Some (of_string "Access denied"))) /\
  (f_uploader file = u \/ granted ->
   is_Some (blobs st !! blob_path) ->
   download_file (Some u) file_id st =
     FileResponse blob_path (f_filename file)).
Proof.
  intros Hu Hfile. cbv zeta.
  unfold download_file. rewrite (authenticated_some _ Hu), Hfile.
  split.
  - intros Hne Hng. rewrite (str_eqb_neq _ _ Hne).
    destruct (is_shared_with _ _ _) eqn:E; [|done].
    by apply is_shared_with_true in E.
  - intros Hok [x Hx].
    assert (negb (str_eqb (f_uploader file) u) &&
            negb (is_shared_with file_id u (shared_files (db st))) = false)
      as ->.
    { destruct Hok as [-> | Hg].
      - by rewrite str_eqb_refl.
      - apply is_shared_with_true in Hg. rewrite Hg. apply andb_false_r. }
    by rewrite Hx.
Qed.

(** ** Records and folders *)

Lemma group_fold_In (l : list File) (acc : gmap pystr (list File)) (r : File) :
  In r l \/ (exists g, acc !! group_name r = Some g /\ In r g) ->
  exists g,
    fold_left
      (fun acc f =>
         <[group_name f := default [] (acc !! group_name f) ++ [f]]> acc)
      l acc !! group_name r = Some g /\ In r g.
Proof.
  revert acc. induction l as [|a l IH]; intros acc H; simpl.
  - destruct H as [[] | H]. done.
  - apply IH. destruct H as [[-> | H] | (g & Hg & Hin)].
    + right. eexists. rewrite lookup_insert_eq. split; [done|].
      apply in_or_app. right. by left.
    + by left.
    + right. destruct (decide (group_name a = group_name r)) as [E|E].
      * rewrite E, lookup_insert_eq, Hg. eexists. split; [done|].
        apply in_or_app. by left.
      * rewrite lookup_insert_ne by done. eauto.
Qed.

(** The upload page lists each record of the caller under its group. *)
Lemma folders_data_In (u : pystr) (d : DB) (r : File) :
  In r (files d) -> f_uploader r = u ->
  exists g, folders_data u d !! group_name r = Some g /\ In r g.
Proof.
  intros Hin Hu. unfold folders_data. apply group_fold_In. left.
  apply filter_In. split; [done|]. by apply str_eqb_eq.
Qed.

Lemma group_name_root (r : File) :
  f_folder r = None \/ f_folder r = Some [] -> group_name r = of_string "Root".
Proof. unfold group_name. by intros [-> | ->]. Qed.

Lemma group_name_named (r : File) (f : pystr) :
  f_folder r = Some f -> f <> [] -> group_name r = f.
Proof. unfold group_name. intros -> H. by destruct f. Qed.

(** ** What [strip] removes *)

Lemma lstrip_spec (s : pystr) :
  exists a, s = a ++ lstrip s /\ forallb isspace a = true /\
            forall c r, lstrip s = c :: r -> isspace c = false.
Proof.
  induction s as [|x s (a & Hs & Ha & Hhd)]; simpl.
  - exists []. by split_and!.
  - destruct (isspace x) eqn:E.
    + exists (x :: a). split_and!; [by rewrite <- app_comm_cons, <- Hs | | done].
      simpl. by rewrite E, Ha.
    + exists []. split_and!; [done | done |]. by intros c r [= <- _].
Qed.

Lemma rstrip_spec (s : pystr) :
  exists b, s = rstrip s ++ b /\ forallb isspace b = true /\
            forall c r, rstrip s = r ++ [c] -> isspace c = false.
Proof.
  destruct (lstrip_spec (rev s)) as (a & Hs & Ha & Hhd).
  exists (rev a). unfold rstrip. split_and!.
  - rewrite <- rev_app_distr, <- Hs. by rewrite rev_involutive.
  - apply forallb_forall. intros x Hx%in_rev.
    by apply (proj1 (forallb_forall _ _) Ha).
  - intros c r Hr. apply (Hhd c (rev r)).
    rewrite <- (rev_involutive (lstrip (rev s))), Hr, rev_app_distr. done.
Qed.

(** [strip s] is [s] without a whitespace-only prefix and a
    whitespace-only suffix, and neither starts nor ends with whitespace. *)
Lemma strip_spec (s : pystr) :
  exists a b,
    s = a ++ strip s ++ b /\
    forallb isspace a = true /\ forallb isspace b = true /\
    (forall c r, strip s = c :: r -> isspace c = false) /\
    (forall c r, strip s = r ++ [c] -> isspace c = false).
Proof.
  destruct (lstrip_spec s) as (a & Hs & Ha & Hhd).
  destruct (rstrip_spec (lstrip s)) as (b & Hl & Hb & Htl).
  exists a, b. unfold strip. split_and!; try done.
  - by rewrite <- Hl.
  - intros c r Hr. apply (Hhd c (r ++ b)). by rewrite Hl, Hr.
Qed.

Lemma lstrip_blank (s : pystr) : forallb isspace s = true -> lstrip s = [].
Proof.
  induction s as [|c s IH]; [done|]. simpl.
  intros [-> Hs]%andb_true_iff. by apply IH.
Qed.

Lemma strip_blank (s : pystr) : forallb isspace s = true -> strip s = [].
Proof. intros Hs. unfold strip. by rewrite (lstrip_blank _ Hs). Qed.

(** C9. An accepted item adds one record. Its [is_duplicate] is the result
    of the prior-upload query. Its folder is the supplied name without the
    whitespace around it: the supplied name is a run of whitespace, the
    stored name, and a run of whitespace, and the stored name neither
    starts nor ends with whitespace ([None] when no name or the empty name
    is supplied). When no name is supplied, or the supplied name is all
    whitespace, the upload page lists the record under the default group
    "Root"; otherwise under the trimmed name. *)
Theorem upload_record_fields (u : pystr) (folder : option pystr)
    (st : Upload) (file : UploadFile) :
  skips u st file = false ->
  let st' := upload_one u folder st file in
  let prior := has_uploaded u (sha256_hexdigest (uf_content file))
                 (visible (session st)) in
  exists r,
    view (session st') = view (session st) ++ [r] /\
    f_uploader r = u /\
    f_is_duplicate r = prior /\
    (folder = None \/ folder = Some [] -> f_folder r = None) /\
    (forall f, folder = Some f -> f <> [] ->
       exists t a b,
         f_folder r = Some t /\ f = a ++ t ++ b /\
         forallb isspace a = true /\ forallb isspace b = true /\
         (forall c rest, t = c :: rest -> isspace c = false) /\
         (forall c rest, t = rest ++ [c] -> isspace c = false) /\
         (t <> [] -> group_name r = t)) /\
    (folder = None \/
     (exists f, folder = Some f /\ forallb isspace f = true) ->
       group_name r = of_string "Root") /\
    exists g, folders_data u (commit (session st')) !! group_name r = Some g
              /\ In r g.
Proof.
  intros Hskip st' prior.
  destruct (upload_one_accept u folder st file Hskip) as (Hv & _).
  fold st' in Hv. fold prior in Hv.
  exists (record_of u folder file prior (next_id (view (session st)))).
  split_and!; try done.
  - by intros [-> | ->].
  - intros f -> Hf.
    destruct (strip_spec f) as (a & b & Hdec & Ha & Hb & Hhd & Htl).
    exists (strip f), a, b. simpl.
    destruct f as [|c f]; [done|]. simpl truthy. cbv iota.
    split_and!; try done. intros Ht. by apply group_name_named.
  - intros [-> | (f & -> & Hf)]; apply group_name_root; simpl; [by left|].
    destruct (truthy f); [right; by rewrite (strip_blank _ Hf) | by left].
  - apply folders_data_In; [|done]. rewrite commit_files, Hv.
    apply in_or_app. right. by left.
Qed.

(** ** Handlers that leave users and records alone *)

Ltac rate_limited u e now st :=
  let Hus := fresh "Hus" in
  let Hfs := fresh "Hfs" in
  pose proof (check_rate_limit_frame u (of_string e) now (db st))
    as (Hus & Hfs & _);
  destruct (check_rate_limit u (of_string e) now (db st)) as [[|] ?];
  simpl in Hus, Hfs.

Ltac keeps_users_files :=
  repeat case_match; simpl; auto.

Lemma create_folder_frame (c : option pystr) (now : Z) (n : pystr) (st : State) :
  let st' := snd (create_folder c now n st) in
  users (db st') = users (db st) /\ files (db st') = files (db st).
Proof.
  unfold create_folder. destruct (authenticated c) as [u|]; [|done].
  rate_limited u "create-folder"%string now st; keeps_users_files.
Qed.

Lemma share_with_user_frame (c : option pystr) (now i : Z) (t : pystr)
    (st : State) :
  let st' := snd (share_with_user c now i t st) in
  users (db st') = users (db st) /\ files (db st') = files (db st).
Proof.
  unfold share_with_user. destruct (authenticated c) as [u|]; [|done].
  rate_limited u "share-with-user"%string now st; keeps_users_files.
Qed.

Lemma create_share_frame (c : option pystr) (now i : Z) (t : pystr)
    (st : State) :
  let st' := snd (create_share c now i t st) in
  users (db st') = users (db st) /\ files (db st') = files (db st).
Proof.
  unfold create_share. destruct (authenticated c) as [u|]; [|done].
  rate_limited u "share"%string now st; keeps_users_files.
Qed.

Lemma revoke_share_frame (c : option pystr) (i : Z) (st : State) :
  let st' := snd (revoke_share c i st) in
  users (db st') = users (db st) /\ files (db st') = files (db st).
Proof.
  unfold revoke_share. destruct (authenticated c) as [u|]; [|done].
  keeps_users_files.
Qed.

Lemma public_download_frame (t : pystr) (st : State) :
  let st' := snd (public_download t st) in
  users (db st') = users (db st) /\ files (db st') = files (db st).
Proof. unfold public_download. keeps_users_files. Qed.

(** ** [storage_used] is never negative *)

Lemma used_nonneg_insert (us : gmap pystr User) (u : pystr) (user : User) :
  used_nonneg us -> 0 <= storage_used user ->
  used_nonneg (<[u := user]> us).
Proof.
  intros H Hu v user' Hv. destruct (decide (u = v)) as [->|Hne].
  - rewrite lookup_insert_eq in Hv. by injection Hv as <-.
  - rewrite lookup_insert_ne in Hv by done. eauto.
Qed.

Lemma used_nonneg_charge (us : gmap pystr User) (u : pystr) (n : Z) :
  used_nonneg us -> 0 <= n -> used_nonneg (charge u n us).
Proof.
  intros H Hn. unfold charge. destruct (us !! u) as [user|] eqn:E; [|done].
  apply used_nonneg_insert; [done|]. simpl. specialize (H _ _ E). lia.
Qed.

(** The refund of a record that is not a duplicate: the size is taken off,
    and a result below zero is replaced by zero. *)
Lemma refund_clamped (u : pystr) (file : File) (us : gmap pystr User)
    (user : User) :
  f_is_duplicate file = false -> us !! u = Some user ->
  refund u file us =
    Some (<[u := set_storage_used user
                   (Z.max 0 (storage_used user - f_size file))]> us).
Proof.
  intros Hd Hu. unfold refund. rewrite Hd, Hu. do 3 f_equal.
  destruct (Z.ltb_spec (storage_used user - f_size file) 0); lia.
Qed.

Lemma refund_duplicate (u : pystr) (file : File) (us : gmap pystr User) :
  f_is_duplicate file = true -> refund u file us = Some us.
Proof. intros Hd. unfold refund. by rewrite Hd. Qed.

Lemma used_nonneg_refund (u : pystr) (file : File) (us us' : gmap pystr User) :
  used_nonneg us -> refund u file us = Some us' -> used_nonneg us'.
Proof.
  intros H. unfold refund. destruct (f_is_duplicate file).
  - by intros [= <-].
  - destruct (us !! u) as [user|]; [|done]. intros [= <-].
    apply used_nonneg_insert; [done|]. simpl. case_match; lia.
Qed.

Lemma upload_one_users (u : pystr) (folder : option pystr) (st : Upload)
    (file : UploadFile) :
  let us := users (store (session st)) in
  let us' := users (store (session (upload_one u folder st file))) in
  us' = us \/ us' = charge u (Z.of_nat (length (uf_content file))) us.
Proof.
  cbv zeta. destruct (skips u st file) eqn:E.
  - left. rewrite (upload_one_skip _ _ _ _ E). simpl. apply users_query.
  - destruct (upload_one_accept u folder st file E) as (_ & -> & _).
    case_match; auto.
Qed.

Lemma used_nonneg_upload_loop (u : pystr) (folder : option pystr)
    (fs : list UploadFile) (st : Upload) :
  used_nonneg (users (store (session st))) ->
  used_nonneg (users (store (session (upload_loop u folder fs st)))).
Proof.
  revert st. induction fs as [|f fs IH]; intros st H; [done|].
  simpl. apply IH.
  destruct (upload_one_users u folder st f) as [-> | ->]; [done|].
  apply used_nonneg_charge; [done | lia].
Qed.

Lemma used_nonneg_handle (rq : Request) (st : State) :
  used_nonneg (users (db st)) ->
  used_nonneg (users (db (snd (handle rq st)))).
Proof.
  intros H. destruct rq as [u p | c now fs folder | c now n | c now i t
                            | c now i | c now i t | c i | t]; simpl.
  - unfold signup. case_match; [done|]. simpl.
    by apply used_nonneg_insert.
  - unfold upload_file. destruct (authenticated c) as [u|]; [|done].
    rate_limited u "upload"%string now st; [|done].
    assert (used_nonneg (users (commit (session
      (upload_loop u folder fs
         {| session := begin d; disk := blobs st;
            uploaded_count := 0; skipped_count := 0 |}))))) as Hn.
    { rewrite commit_users. apply used_nonneg_upload_loop. simpl.
      by rewrite Hus. }
    cbv beta iota zeta. simpl negb. cbv iota. by case_match.
  - by destruct (create_folder_frame c now n st) as [-> _].
  - by destruct (share_with_user_frame c now i t st) as [-> _].
  - unfold delete_file. destruct (authenticated c) as [u|]; [|done].
    rate_limited u "delete"%string now st; [|done].
    rewrite <- Hus in H.
    repeat case_match; simpl; try done; by eapply used_nonneg_refund.
  - by destruct (create_share_frame c now i t st) as [-> _].
  - by destruct (revoke_share_frame c i st) as [-> _].
  - by destruct (public_download_frame t st) as [-> _].
Qed.

(** C7. Whatever requests are served, in whatever order and however often
    repeated, no [storage_used] becomes negative; and the refund of a
    deletion takes the record's size off, putting zero in place of a
    negative result. *)
Theorem storage_used_never_negative (rqs : list Request) (st : State) :
  used_nonneg (users (db st)) ->
  used_nonneg (users (db (run rqs st))) /\
  forall u file user,
    f_is_duplicate file = false -> users (db st) !! u = Some user ->
    exists us,
      refund u file (users (db st)) = Some us /\
      us !! u = Some (set_storage_used user
                        (Z.max 0 (storage_used user - f_size file))) /\
      used_nonneg us.
Proof.
  intros H. split.
  - revert st H. induction rqs as [|rq rqs IH]; intros st H; [done|].
    simpl. apply IH. by apply used_nonneg_handle.
  - intros u file user Hd Hu. eexists. split_and!.
    + by apply refund_clamped.
    + by rewrite lookup_insert_eq.
    + apply used_nonneg_insert; [done | simpl; lia].
Qed.

(** ** [storage_used] is the sum of the sizes of the records charged *)

Lemma actual_storage_used_cons (u : pystr) (a : File) (fs : list File) :
  actual_storage_used u (a :: fs) =
  (if charged u a then f_size a else 0) + actual_storage_used u fs.
Proof.
  unfold actual_storage_used, charged. simpl.
  by destruct (str_eqb (f_uploader a) u && negb (f_is_duplicate a)).
Qed.

Lemma actual_storage_used_app (u : pystr) (a b : list File) :
  actual_storage_used u (a ++ b) =
  actual_storage_used u a + actual_storage_used u b.
Proof.
  induction a as [|x a IH]; [done|].
  rewrite <- app_comm_cons, !actual_storage_used_cons, IH. lia.
Qed.

Lemma actual_storage_used_nonneg (u : pystr) (fs : list File) :
  (forall r, In r fs -> 0 <= f_size r) -> 0 <= actual_storage_used u fs.
Proof.
  induction fs as [|a fs IH]; intros H; [done|].
  rewrite actual_storage_used_cons.
  assert (0 <= f_size a) by (apply H; by left).
  assert (0 <= actual_storage_used u fs) by (apply IH; intros; apply H; by right).
  case_match; lia.
Qed.

Lemma actual_storage_used_none (u : pystr) (fs : list File) :
  (forall r, In r fs -> f_uploader r <> u) -> actual_storage_used u fs = 0.
Proof.
  induction fs as [|a fs IH]; intros H; [done|].
  rewrite actual_storage_used_cons, IH by (intros; apply H; by right).
  unfold charged. rewrite str_eqb_neq; [done|]. apply H. by left.
Qed.

Lemma filter_other_ids (i : Z) (fs : list File) :
  ~ In i (map f_id fs) ->
  List.filter (fun r => negb (f_id r =? i)) fs = fs.
Proof.
  induction fs as [|a fs IH]; intros H; [done|]. simpl in *.
  destruct (Z.eqb_spec (f_id a) i) as [E|E]; [tauto|]. simpl.
  f_equal. apply IH. tauto.
Qed.

(** Removing the row with the key of [file] takes the size of [file] off
    the sum of its uploader when [file] is not a duplicate, and changes no
    other sum. *)
Lemma actual_storage_used_remove (u : pystr) (file : File) (fs : list File) :
  NoDup (map f_id fs) -> In file fs ->
  actual_storage_used u
    (List.filter (fun r => negb (f_id r =? f_id file)) fs) =
  actual_storage_used u fs - (if charged u file then f_size file else 0).
Proof.
  induction fs as [|a fs IH]; intros Hnd Hin; [done|].
  simpl in Hnd. apply NoDup_cons in Hnd as [Hfresh Hnd].
  rewrite list_elem_of_In in Hfresh.
  destruct Hin as [-> | Hin].
  - simpl. rewrite Z.eqb_refl. simpl.
    rewrite (filter_other_ids _ _ Hfresh), actual_storage_used_cons. lia.
  - simpl. destruct (Z.eqb_spec (f_id a) (f_id file)) as [E|E].
    + exfalso. apply Hfresh. rewrite E. by apply in_map.
    + simpl. rewrite !actual_storage_used_cons, IH by done. lia.
Qed.

Lemma NoDup_map_filter (p : File -> bool) (fs : list File) :
  NoDup (map f_id fs) -> NoDup (map f_id (List.filter p fs)).
Proof.
  induction fs as [|a fs IH]; intros H; [done|].
  simpl in H. apply NoDup_cons in H as [Hfresh Hnd].
  rewrite list_elem_of_In in Hfresh.
  simpl. destruct (p a); [|by apply IH].
  simpl. apply NoDup_cons. split; [|by apply IH].
  rewrite list_elem_of_In.
  intros Hin. apply Hfresh. apply in_map_iff in Hin as (r & <- & Hr).
  apply in_map. by apply filter_In in Hr as [Hr _].
Qed.

Lemma consistent_ext (d d' : DB) :
  users d' = users d -> files d' = files d -> consistent d -> consistent d'.
Proof.
  intros Hu Hf [H1 H2 H3 H4]. split; rewrite ?Hu, ?Hf; done.
Qed.

Lemma consistent_empty : consistent empty_db.
Proof.
  split; simpl; try done. constructor.
Qed.

(** A new row gets a fresh key; its uploader is charged the size unless
    the record is a duplicate. *)
Lemma consistent_insert_record (d d' : DB) (u : pystr) (r : File) :
  consistent d ->
  files d' = files d ++ [r] ->
  f_id r = next_id (files d) ->
  f_uploader r = u ->
  0 <= f_size r ->
  users d' =
    (if f_is_duplicate r then users d else charge u (f_size r) (users d)) ->
  is_Some (users d !! u) ->
  consistent d'.
Proof.
  intros [Hnd Hsz Hup Hsum] Hf Hid Hu Hsize Hus [user Huser].
  assert (Hdom : forall v, is_Some (users d !! v) -> is_Some (users d' !! v)).
  { intros v Hv. rewrite Hus. destruct (f_is_duplicate r); [done|].
    rewrite (charge_lookup _ _ _ _ Huser).
    destruct (decide (u = v)) as [->|Hne].
    - by rewrite lookup_insert_eq.
    - by rewrite lookup_insert_ne. }
  split.
  - rewrite Hf, map_app. simpl. apply NoDup_app. split_and!.
    + done.
    + intros i Hi Hi'. apply list_elem_of_In in Hi, Hi'.
      destruct Hi' as [<-|[]]. rewrite Hid in Hi.
      by apply next_id_fresh in Hi.
    + apply NoDup_singleton.
  - intros x. rewrite Hf. intros [Hx | [<- | []]]%in_app_or; auto.
  - intros x. rewrite Hf. intros [Hx | [<- | []]]%in_app_or.
    + apply Hdom. auto.
    + apply Hdom. rewrite Hu. eauto.
  - intros v user'. rewrite Hf, actual_storage_used_app, Hus.
    rewrite actual_storage_used_cons. unfold charged. rewrite Hu.
    change (actual_storage_used v []) with 0.
    destruct (f_is_duplicate r).
    + intros Hv. rewrite (Hsum _ _ Hv), andb_false_r. lia.
    + rewrite (charge_lookup _ _ _ _ Huser).
      destruct (decide (u = v)) as [->|Hne].
      * rewrite lookup_insert_eq. intros [= <-]. simpl.
        rewrite str_eqb_refl, (Hsum _ _ Huser). simpl. lia.
      * rewrite lookup_insert_ne by done. intros Hv.
        rewrite (Hsum _ _ Hv), str_eqb_neq by done. simpl. lia.
Qed.

(** A removed row gives its size back to the uploader unless the record is
    a duplicate; the zero floor of the refund is never hit here. *)
Lemma consistent_remove_record (d d' : DB) (u : pystr) (file : File) :
  consistent d ->
  In file (files d) ->
  f_uploader file = u ->
  files d' = List.filter (fun r => negb (f_id r =? f_id file)) (files d) ->
  refund u file (users d) = Some (users d') ->
  consistent d'.
Proof.
  intros [Hnd Hsz Hup Hsum] Hin Hu Hf Hre.
  assert (Hrem := fun v => actual_storage_used_remove v file _ Hnd Hin).
  rewrite <- Hf in Hrem. unfold charged in Hrem. rewrite Hu in Hrem.
  unfold refund in Hre.
  assert (Hsub : forall x, In x (files d') -> In x (files d)).
  { intros x. rewrite Hf. by intros [? _]%filter_In. }
  destruct (f_is_duplicate file) eqn:Hdup.
  - injection Hre as Hus. split.
    + rewrite Hf. by apply NoDup_map_filter.
    + auto.
    + intros x Hx. rewrite <- Hus. auto.
    + intros v user Hv. rewrite <- Hus in Hv.
      rewrite (Hsum _ _ Hv), Hrem, andb_false_r. lia.
  - destruct (users d !! u) as [user|] eqn:Huser; [|done].
    injection Hre as Hus.
    assert (0 <= actual_storage_used u (files d')).
    { apply actual_storage_used_nonneg. auto. }
    assert (Hge : 0 <= storage_used user - f_size file).
    { rewrite (Hsum _ _ Huser). specialize (Hrem u).
      rewrite str_eqb_refl in Hrem. simpl in Hrem. lia. }
    split.
    + rewrite Hf. by apply NoDup_map_filter.
    + auto.
    + intros x Hx. rewrite <- Hus.
      destruct (decide (u = f_uploader x)) as [->|Hne].
      * by rewrite lookup_insert_eq.
      * rewrite lookup_insert_ne by done. auto.
    + intros v user'. rewrite <- Hus, Hrem.
      destruct (decide (u = v)) as [->|Hne].
      * rewrite lookup_insert_eq. intros [= <-]. simpl.
        rewrite str_eqb_refl, (Hsum _ _ Huser). simpl.
        destruct (Z.ltb_spec (actual_storage_used v (files d) - f_size file) 0);
          [|done].
        rewrite (Hsum _ _ Huser) in Hge. lia.
      * rewrite lookup_insert_ne by done. intros Hv.
        rewrite (Hsum _ _ Hv), str_eqb_neq by done. simpl. lia.
Qed.

Lemma In_flush_files (r : File) (fs new : list File) :
  In r fs -> In r (flush_files fs new).
Proof.
  revert fs. induction new as [|a new IH]; intros fs H; [done|].
  simpl. apply IH. apply in_or_app. by left.
Qed.

Lemma visible_in_view (s : Session) (r : File) :
  In r (visible s) -> In r (view s).
Proof.
  rewrite visible_autoflush. destruct autoflush; [done|].
  apply In_flush_files.
Qed.

Lemma has_uploaded_In (u h : pystr) (fs : list File) :
  has_uploaded u h fs = true ->
  exists r, In r fs /\ f_uploader r = u /\ f_file_hash r = h.
Proof.
  unfold has_uploaded. intros (r & Hin & H)%existsb_exists.
  apply andb_true_iff in H as [H1 H2].
  exists r. split_and!; [done | by apply str_eqb_eq..].
Qed.

Lemma upload_one_consistent (u : pystr) (folder : option pystr)
    (st : Upload) (file : UploadFile) :
  consistent (commit (session st)) ->
  consistent (commit (session (upload_one u folder st file))).
Proof.
  intros Hc. destruct (skips u st file) eqn:E.
  - rewrite (upload_one_skip _ _ _ _ E). simpl. by rewrite commit_query.
  - destruct (upload_one_accept u folder st file E) as (Hv & Hus & _).
    set (prior := has_uploaded _ _ _) in *.
    eapply (consistent_insert_record (commit (session st)) _ u);
      [done | by rewrite !commit_files, Hv | done | done | simpl; lia | | ].
    + by rewrite !commit_users, Hus.
    + rewrite commit_users. destruct prior eqn:Hp.
      * apply has_uploaded_In in Hp as (r & Hin & <- & _).
        apply visible_in_view in Hin.
        apply (uploader_known _ Hc r). by rewrite commit_files.
      * unfold skips in E. fold prior in E. rewrite Hp in E. simpl in E.
        apply negb_false_iff, check_storage_quota_ok in E as (x & Hx & _).
        eauto.
Qed.

Lemma upload_loop_consistent (u : pystr) (folder : option pystr)
    (fs : list UploadFile) (st : Upload) :
  consistent (commit (session st)) ->
  consistent (commit (session (upload_loop u folder fs st))).
Proof.
  revert st. induction fs as [|f fs IH]; intros st H; [done|].
  simpl. by apply IH, upload_one_consistent.
Qed.

Lemma own_file_by_id_In (i : Z) (u : pystr) (fs : list File) (file : File) :
  own_file_by_id i u fs = Some file ->
  In file fs /\ f_id file = i /\ f_uploader file = u.
Proof.
  unfold own_file_by_id. intros [Hin H]%find_some.
  apply andb_true_iff in H as [H1 H2].
  split_and!; [done | lia | by apply str_eqb_eq].
Qed.

(** Every request keeps the tables consistent. *)
Lemma handle_consistent (rq : Request) (st : State) :
  consistent (db st) -> consistent (db (snd (handle rq st))).
Proof.
  intros H. destruct rq as [u p | c now fs folder | c now n | c now i t
                            | c now i | c now i t | c i | t]; simpl.
  - unfold signup. destruct (users (db st) !! u) eqn:E; [done|]. simpl.
    destruct H as [Hnd Hsz Hup Hsum]. split; simpl; [done | done | |].
    + intros r Hr. destruct (decide (u = f_uploader r)) as [->|Hne].
      * by rewrite lookup_insert_eq.
      * rewrite lookup_insert_ne by done. auto.
    + intros v user. destruct (decide (u = v)) as [->|Hne].
      * rewrite lookup_insert_eq. intros [= <-]. simpl. symmetry.
        apply actual_storage_used_none. intros r Hr Heq.
        destruct (Hup r Hr) as [x Hx]. congruence.
      * rewrite lookup_insert_ne by done. auto.
  - unfold upload_file. destruct (authenticated c) as [u|]; [|done].
    rate_limited u "upload"%string now st; [|done].
    assert (consistent (commit (session
      (upload_loop u folder fs
         {| session := begin d; disk := blobs st;
            uploaded_count := 0; skipped_count := 0 |})))) as Hn.
    { apply upload_loop_consistent. simpl.
      by apply (consistent_ext (db st)). }
    cbv beta iota zeta. simpl negb. cbv iota. by case_match.
  - destruct (create_folder_frame c now n st) as [? ?].
    by eapply consistent_ext.
  - destruct (share_with_user_frame c now i t st) as [? ?].
    by eapply consistent_ext.
  - unfold delete_file. destruct (authenticated c) as [u|]; [|done].
    rate_limited u "delete"%string now st; [|done].
    assert (Hd : consistent d) by by apply (consistent_ext (db st)).
    cbv beta iota zeta. simpl negb. cbv iota.
    destruct (own_file_by_id i u (files d)) as [file|] eqn:Ef; [|done].
    apply own_file_by_id_In in Ef as (Hin & _ & Hu).
    destruct (negb (f_is_duplicate file) && _); [done|].
    destruct (refund u file (users d)) as [us|] eqn:Er; [|done].
    simpl. by eapply (consistent_remove_record d _ u file).
  - destruct (create_share_frame c now i t st) as [? ?].
    by eapply consistent_ext.
  - destruct (revoke_share_frame c i st) as [? ?].
    by eapply consistent_ext.
  - destruct (public_download_frame t st) as [? ?].
    by eapply consistent_ext.
Qed.

Lemma run_consistent (rqs : list Request) (st : State) :
  consistent (db st) -> consistent (db (run rqs st)).
Proof.
  revert st. induction rqs as [|rq rqs IH]; intros st H; [done|].
  simpl. by apply IH, handle_consistent.
Qed.

(** C8. In every state the service reaches, each user row's [storage_used]
    is the sum of [size] over that user's records with
    [is_duplicate = false]; and every request, uploads and deletions among
    them, keeps it so. *)
Theorem storage_used_is_sum (st : State) :
  reachable st ->
  (forall u user, users (db st) !! u = Some user ->
     storage_used user = actual_storage_used u (files (db st))) /\
  (forall rq u user,
     users (db (snd (handle rq st))) !! u = Some user ->
     storage_used user =
       actual_storage_used u (files (db (snd (handle rq st))))).
Proof.
  intros [rqs ->].
  assert (H : consistent (db (run rqs initial_state))).
  { apply run_consistent, consistent_empty. }
  split.
  - apply (used_is_sum _ H).
  - intros rq. apply (used_is_sum _ (handle_consistent rq _ H)).
Qed.

(** ** The same content twice in one request

    Within one request the second item is recognised as a duplicate only
    if the session flushes the first record before the next query. *)

(** X29. Two copies of content new to the user in one request: the first
    record is an original; the second is a duplicate exactly when the
    session autoflushes, otherwise it is a second original and the user is
    charged twice. *)
Lemma upload_batch_of_two (u : pystr) (user : User) (now : Z)
    (file1 file2 : UploadFile) (folder : option pystr) (st : State) :
  truthy u = true ->
  uf_content file2 = uf_content file1 ->
  users (db st) !! u = Some user ->
  has_uploaded u (sha256_hexdigest (uf_content file1)) (files (db st)) = false ->
  storage_used user + 2 * Z.of_nat (length (uf_content file1))
    <= storage_quota user ->
  fst (check_rate_limit u (of_string "upload") now (db st)) = true ->
  let st2 := snd (upload_file (Some u) now [file1; file2] folder st) in
  let n := Z.of_nat (length (uf_content file1)) in
  let i1 := next_id (files (db st)) in
  exists i2,
    files (db st2) =
      files (db st) ++
      [record_of u folder file1 false i1;
       record_of u folder file2 autoflush i2] /\
    users (db st2) !! u =
      Some (set_storage_used user
              (storage_used user + (if autoflush then n else 2 * n))).
Proof.
  intros Hu Hc Hrow Hnew Hroom Hr st2 n i1.
  unfold st2. rewrite (upload_file_allowed _ _ _ _ _ Hu Hr). simpl.
  unfold upload_run, upload_loop. simpl.
  destruct (check_rate_limit_frame u (of_string "upload") now (db st))
    as (Hus & Hfs & _). fold (upload_db u now st) in *.
  set (st0 := {| session := begin (upload_db u now st); disk := blobs st;
                 uploaded_count := 0; skipped_count := 0 |}).
  assert (Hskip0 : skips u st0 file1 = false).
  { unfold skips, st0. simpl. rewrite visible_begin, Hfs, Hnew. simpl.
    apply negb_false_iff, check_storage_quota_ok.
    exists user. rewrite Hus. split; [done | lia]. }
  destruct (upload_one_accept u folder st0 file1 Hskip0) as (Hv1 & Hu1 & _).
  set (st1 := upload_one u folder st0 file1) in *.
  unfold st0 in Hv1, Hu1. simpl in Hv1, Hu1.
  rewrite visible_begin, view_begin, Hfs, Hnew in Hv1.
  rewrite visible_begin, Hfs, Hnew, Hus, (charge_lookup _ _ _ _ Hrow) in Hu1.
  fold n in Hu1. fold i1 in Hv1.
  assert (Hprior : has_uploaded u (sha256_hexdigest (uf_content file2))
                     (visible (session st1)) = autoflush).
  { rewrite visible_autoflush. destruct autoflush eqn:Haf.
    - rewrite Hv1, Hc, has_uploaded_app, has_uploaded_record.
      apply orb_true_r.
    - unfold st1. rewrite (upload_one_store_files _ _ _ _ Haf). simpl.
      by rewrite Hfs, Hc. }
  assert (Hskip1 : skips u st1 file2 = false).
  { unfold skips. rewrite Hprior. destruct autoflush; [done|]. simpl.
    apply negb_false_iff, check_storage_quota_ok. eexists.
    rewrite Hu1, lookup_insert_eq. split; [done|]. simpl.
    rewrite Hc. fold n. lia. }
  destruct (upload_one_accept u folder st1 file2 Hskip1) as (Hv2 & Hu2 & _).
  rewrite Hprior in Hv2, Hu2.
  exists (next_id (view (session st1))). split.
  - change (flush_files _ _)
      with (view (session (upload_one u folder st1 file2))).
    by rewrite Hv2, Hv1, <- app_assoc.
  - rewrite Hu2, Hu1. destruct autoflush.
    + by rewrite lookup_insert_eq.
    + unfold charge. rewrite lookup_insert_eq, lookup_insert_eq. simpl.
      rewrite Hc. fold n. do 2 f_equal. lia.
Qed.

End Properties.

(** * The properties at concrete requests *)



Lemma upload_same_content_two_users_witness :
  let st1 := snd (upload_file (env := demo_env) (Some alice) 0 [report]
                    None signed_up) in
  let st2 := snd (upload_file (env := demo_env) (Some bob) 0 [report]
                    (Some (of_string "docs")) st1) in
  exists i1 i2, i1 <> i2 /\
    files (db st2) =
      files (db signed_up) ++
      [record_of (env := demo_env) alice None report false i1;
       record_of (env := demo_env) bob (Some (of_string "docs")) report
         false i2] /\
    users (db st2) =
      <[bob := set_storage_used bob_row 3]>
        (<[alice := set_storage_used alice_row 3]> (users (db signed_up))) /\
    is_Some (blobs st1 !! blob_path_of (env := demo_env) (uf_content report)) /\
    blobs st2 = blobs st1 /\
    blobs st2 =
      write_blob (env := demo_env) (uf_content report) (blobs signed_up).
Proof.
  apply (upload_same_content_two_users (env := demo_env) alice bob
           alice_row bob_row 0 0 report report None
           (Some (of_string "docs")) signed_up);
    by vm_compute.
Defined.

Lemma quota_skip_isolated_witness :
  let st1 := upload_loop (env := demo_env) alice None [notes] tight_loop in
  let st2 := upload_one (env := demo_env) alice None st1 report in
  let r := upload_loop (env := demo_env) alice None
             ([notes] ++ report :: [memo]) tight_loop in
  let r' := upload_loop (env := demo_env) alice None
              ([notes] ++ [memo]) tight_loop in
  (disk st2 = disk st1 /\
   commit (session st2) = commit (session st1) /\
   uploaded_count st2 = uploaded_count st1 /\
   skipped_count st2 = S (skipped_count st1)) /\
  (commit (session r) = commit (session r') /\
   disk r = disk r' /\
   uploaded_count r = uploaded_count r' /\
   skipped_count r = S (skipped_count r')).
Proof.
  apply (quota_skip_isolated (env := demo_env) alice None [notes] [memo]
           report tight_loop (tight_row 2));
    by vm_compute.
Defined.

Lemma quota_charge_witness :
  let user := tight_row 0 in
  let n := Z.of_nat (length (uf_content report)) in
  let check := check_storage_quota alice n (store (session tight_loop)) in
  let st' := upload_one (env := demo_env) alice None tight_loop report in
  (fst check = true <-> storage_used user + n <= storage_quota user) /\
  (storage_used user + n <= storage_quota user ->
   users (store (session st')) =
     <[alice := set_storage_used user (storage_used user + n)]>
       (users (store (session tight_loop)))) /\
  (storage_quota user < storage_used user + n ->
   users (store (session st')) = users (store (session tight_loop)) /\
   snd check =
     of_string "Storage quota exceeded! You have " ++
     format_mb (storage_used user) ++ of_string " MB / " ++
     format_mb (storage_quota user) ++ of_string " MB used." /\
   forall x, x = storage_used user \/ x = storage_quota user ->
     exists h d1 d2,
       0 <= d1 <= 9 /\ 0 <= d2 <= 9 /\
       format_mb x =
         str_of_N (Z.to_N h) ++
         [46%N; (48 + Z.to_N d1)%N; (48 + Z.to_N d2)%N] /\
       2 * Z.abs ((100 * h + 10 * d1 + d2) * (1024 * 1024) - 100 * x)
         <= 1024 * 1024).
Proof.
  apply (quota_charge (env := demo_env) alice (tight_row 0) None
           tight_loop report);
    by vm_compute.
Defined.

Lemma delete_original_with_duplicates_refused_witness :
  let resp := fst (delete_file (Some alice) 9000000 1 uploaded_twice) in
  let st' := snd (delete_file (Some alice) 9000000 1 uploaded_twice) in
  (resp = (if fst (check_rate_limit alice (of_string "delete") 9000000
                     (db uploaded_twice))
           then RedirectResponse
                  (of_string "/upload?error=delete_duplicates_first") 302
           else RedirectResponse
                  (of_string "/upload?upload_error=rate_limit") 302)) /\
  resp <> HTTPException 404 None /\
  resp <> RedirectResponse (of_string "/upload") 302 /\
  files (db st') = files (db uploaded_twice) /\
  users (db st') = users (db uploaded_twice) /\
  shares (db st') = shares (db uploaded_twice) /\
  shared_files (db st') = shared_files (db uploaded_twice) /\
  folders (db st') = folders (db uploaded_twice) /\
  blobs st' = blobs uploaded_twice.
Proof.
  apply (delete_original_with_duplicates_refused alice 9000000 1
           uploaded_twice
           (record_of (env := demo_env) alice None report false 1)
           (record_of (env := demo_env) alice None report true 2));
    try by vm_compute.
  vm_compute. auto.
Defined.

Lemma delete_reclaims_unreferenced_blob_witness :
  let blob_path := os_path_join UPLOAD_DIR (f_file_hash first_record) in
  let alone := snd (delete_file (Some alice) 9000000 1 uploaded_once) in
  let held := snd (delete_file (Some alice) 9000000 1 uploaded_by_both) in
  (is_Some (blobs uploaded_once !! blob_path) /\
   files (db alone) = [] /\ blobs alone !! blob_path = None) /\
  (map f_uploader (files (db held)) = [bob] /\
   blobs held = blobs uploaded_by_both /\
   is_Some (blobs held !! blob_path)).
Proof.
  split.
  - destruct (delete_reclaims_unreferenced_blob alice 9000000 1
                uploaded_once first_record)
      as (Hfs & _ & _ & _ & _ & Hiff); [by vm_compute..|].
    assert (is_Some (blobs uploaded_once !!
              os_path_join UPLOAD_DIR (f_file_hash first_record))) as Hb
      by (vm_compute; eauto).
    split_and!; [exact Hb | by rewrite Hfs |].
    apply (Hiff Hb). rewrite Hfs. by intros (r & Hr & _).
  - destruct (delete_reclaims_unreferenced_blob alice 9000000 1
                uploaded_by_both first_record)
      as (Hfs & _ & Hkeep & _); [by vm_compute..|].
    assert (blobs (snd (delete_file (Some alice) 9000000 1 uploaded_by_both))
            = blobs uploaded_by_both) as Hb.
    { apply Hkeep. rewrite Hfs. vm_compute. eauto. }
    split_and!; [by rewrite Hfs | exact Hb |].
    rewrite Hb. vm_compute. eauto.
Defined.

Lemma storage_used_never_negative_witness :
  used_nonneg (users (db (run (env := demo_env) busy_day uploaded_once))) /\
  forall u file user,
    f_is_duplicate file = false ->
    users (db uploaded_once) !! u = Some user ->
    exists us,
      refund u file (users (db uploaded_once)) = Some us /\
      us !! u = Some (set_storage_used user
                        (Z.max 0 (storage_used user - f_size file))) /\
      used_nonneg us.
Proof.
  apply (storage_used_never_negative (env := demo_env) busy_day
           uploaded_once).
  change (map_Forall (fun (_ : pystr) user => 0 <= storage_used user)
            (users (db uploaded_once))).
  apply (bool_decide_unpack _). by vm_compute.
Defined.

Lemma storage_used_is_sum_witness :
  let st := run (env := demo_env) busy_day initial_state in
  (forall u user, users (db st) !! u = Some user ->
     storage_used user = actual_storage_used u (files (db st))) /\
  (forall rq u user,
     users (db (snd (handle (env := demo_env) rq st))) !! u = Some user ->
     storage_used user =
       actual_storage_used u
         (files (db (snd (handle (env := demo_env) rq st))))).
Proof.
  apply (storage_used_is_sum (env := demo_env)
           (run (env := demo_env) busy_day initial_state)).
  by exists busy_day.
Defined.

Lemma upload_record_fields_witness :
  let st := {| session := begin (db uploaded_once);
               disk := blobs uploaded_once;
               uploaded_count := 0; skipped_count := 0 |} in
  let named := upload_one (env := demo_env) alice
                 (Some (of_string "  docs ")) st notes in
  let blank := upload_one (env := demo_env) alice
                 (Some (of_string "  ")) st report in
  (exists r, view (session named) = view (session st) ++ [r] /\
             f_is_duplicate r = false /\
             f_folder r = Some (of_string "docs") /\
             group_name r = of_string "docs") /\
  (exists r, view (session blank) = view (session st) ++ [r] /\
             f_is_duplicate r = true /\
             group_name r = of_string "Root").
Proof.
  split.
  - destruct (upload_record_fields (env := demo_env) alice
                (Some (of_string "  docs "))
                {| session := begin (db uploaded_once);
                   disk := blobs uploaded_once;
                   uploaded_count := 0; skipped_count := 0 |} notes)
      as (r & Hv & _ & Hd & _ & Hname & _); [by vm_compute|].
    destruct (Hname (of_string "  docs ") eq_refl) as (t & _); [done|].
    exists r. split; [exact Hv|].
    apply app_inj_tail in Hv as [_ <-]. by vm_compute.
  - destruct (upload_record_fields (env := demo_env) alice
                (Some (of_string "  "))
                {| session := begin (db uploaded_once);
                   disk := blobs uploaded_once;
                   uploaded_count := 0; skipped_count := 0 |} report)
      as (r & Hv & _ & Hd & _ & _ & Hroot & _); [by vm_compute|].
    exists r. split_and!; [exact Hv | by rewrite Hd |].
    apply Hroot. right. by exists (of_string "  ").
Defined.

Lemma download_access_witness :
  let file := record_of (env := demo_env) alice None report false 1 in
  let st := shared_once in
  let granted (u : pystr) :=
    exists e, In e (shared_files (db st)) /\
              sf_file_id e = 1 /\ sf_shared_with e = u in
  let blob_path := os_path_join UPLOAD_DIR (f_file_hash file) in
  (f_uploader file <> bob -> ~ granted bob ->
   download_file (Some bob) 1 st =
     HTTPException 403 (Some (of_string "Access denied"))) /\
  (f_uploader file = bob \/ granted bob ->
   is_Some (blobs st !! blob_path) ->
   download_file (Some bob) 1 st =
     FileResponse blob_path (f_filename file)).
Proof.
  apply (download_access bob 1 shared_once
           (record_of (env := demo_env) alice None report false 1));
    by vm_compute.
Defined.

(** * The store as a whole *)

Section Store.

Context {env : Env}.

(** ** Every handler acts by the listed changes *)

Lemma check_rate_limit_log (u e : pystr) (now : Z) (d : DB) :
  exists rl, snd (check_rate_limit u e now d) = set_rate_limits d rl.
Proof.
  unfold check_rate_limit. case_match; simpl; [|eauto].
  exists (rate_limits d). by destruct d.
Qed.

Lemma commit_begin (d : DB) : commit (begin d) = d.
Proof. by destruct d. Qed.

Lemma upload_one_change (u : pystr) (folder : option pystr) (st : Upload)
    (file : UploadFile) :
  truthy u = true ->
  rtc change (state_of st) (state_of (upload_one u folder st file)).
Proof.
  intros Hu. destruct (skips u st file) eqn:E.
  - rewrite (upload_one_skip _ _ _ _ E). unfold state_of. simpl.
    rewrite commit_query. apply rtc_refl.
  - destruct (upload_one_accept u folder st file E)
      as (Hv & Hus & Ho & Hd & _).
    set (prior := has_uploaded _ _ _) in *.
    apply rtc_once.
    assert (state_of (upload_one u folder st file) =
      {| db :=
           set_files
             (set_users (db (state_of st))
                (if prior then users (db (state_of st))
                 else charge u (Z.of_nat (length (uf_content file)))
                        (users (db (state_of st)))))
             (files (db (state_of st)) ++
              [record_of u folder file prior
                 (next_id (files (db (state_of st))))]);
         blobs := write_blob (uf_content file) (blobs (state_of st)) |})
      as ->.
    { unfold state_of at 1. f_equal; [|done].
      apply DB_eq; simpl; [done | done |].
      unfold other_tables in *. simpl in *. done. }
    apply change_insert; [done | |].
    + intros Hp. apply has_uploaded_In in Hp as (r & Hin & ? & ?).
      exists r. split; [|done]. by apply visible_in_view.
    + intros Hp. unfold skips in E. fold prior in E. rewrite Hp in E.
      simpl in E. by apply negb_false_iff, check_storage_quota_ok in E.
Qed.

Lemma upload_loop_change (u : pystr) (folder : option pystr)
    (fs : list UploadFile) (st : Upload) :
  truthy u = true ->
  rtc change (state_of st) (state_of (upload_loop u folder fs st)).
Proof.
  intros Hu. revert st. induction fs as [|f fs IH]; intros st; [done|].
  simpl. etrans; [by apply upload_one_change | apply IH].
Qed.

Lemma authenticated_truthy (c : option pystr) (u : pystr) :
  authenticated c = Some u -> truthy u = true.
Proof.
  unfold authenticated. destruct c as [v|]; [|done].
  destruct (truthy v) eqn:E; [|done]. by intros [= <-].
Qed.

(** The state after the rate limiter has logged the request. *)
Lemma logged_change (s : State) (u e : pystr) (now : Z) :
  change s (with_db s (snd (check_rate_limit u e now (db s)))).
Proof.
  destruct (check_rate_limit_log u e now (db s)) as [rl ->].
  apply change_log.
Qed.

Ltac after_log s u e now :=
  let H := fresh "Hlog" in
  pose proof (logged_change s u (of_string e) now) as H;
  destruct (check_rate_limit u (of_string e) now (db s)) as [[|] d1];
  simpl in H; cbv beta iota zeta; simpl negb; cbv iota; [|done].

Lemma handle_changes (rq : Request) (s : State) :
  rtc change s (snd (handle rq s)).
Proof.
  destruct rq as [u p | c now fs folder | c now n | c now i t
                  | c now i | c now i t | c i | t]; simpl.
  - unfold signup. destruct (users (db s) !! u) eqn:E; [done|].
    apply rtc_once. by apply change_signup.
  - unfold upload_file. destruct (authenticated c) as [u|] eqn:Hc; [|done].
    apply authenticated_truthy in Hc.
    after_log s u "upload"%string now.
    eapply rtc_l; [exact Hlog|].
    pose proof (upload_loop_change u folder fs
      {| session := begin d1; disk := blobs s;
         uploaded_count := 0; skipped_count := 0 |} Hc) as Hl.
    unfold state_of at 1 in Hl. simpl in Hl. rewrite commit_begin in Hl.
    by case_match.
  - unfold create_folder. destruct (authenticated c) as [u|] eqn:Hc; [|done].
    apply authenticated_truthy in Hc.
    after_log s u "create-folder"%string now.
    eapply rtc_l; [exact Hlog|].
    destruct (negb (truthy (strip n)) || contains 47%N (strip n) ||
              contains 92%N (strip n)) eqn:E1; [done|].
    apply orb_false_iff in E1 as [E1 E3].
    apply orb_false_iff in E1 as [E1 E2]. apply negb_false_iff in E1.
    destruct (existsb _ (folders d1)) eqn:E4; [done|].
    apply rtc_once. by apply (change_folder (with_db s d1)).
  - unfold share_with_user.
    destruct (authenticated c) as [u|] eqn:Hc; [|done].
    after_log s u "share-with-user"%string now.
    eapply rtc_l; [exact Hlog|].
    destruct (own_file_by_id i u (files d1)) as [file|] eqn:Ef; [|done].
    destruct (users d1 !! t) eqn:Et; [|done].
    destruct (is_shared_with i t (shared_files d1)) eqn:Es; [done|].
    apply rtc_once. by eapply (change_grant (with_db s d1)).
  - unfold delete_file. destruct (authenticated c) as [u|] eqn:Hc; [|done].
    after_log s u "delete"%string now.
    eapply rtc_l; [exact Hlog|].
    destruct (own_file_by_id i u (files d1)) as [file|] eqn:Ef; [|done].
    destruct (negb (f_is_duplicate file) && _) eqn:Eg; [done|].
    destruct (refund u file (users d1)) as [us|] eqn:Er; [|done].
    apply rtc_once. by apply (change_remove (with_db s d1) u i file us).
  - unfold create_share. destruct (authenticated c) as [u|] eqn:Hc; [|done].
    after_log s u "share"%string now.
    eapply rtc_l; [exact Hlog|].
    destruct (own_file_by_id i u (files d1)) as [file|] eqn:Ef; [|done].
    destruct (existsb _ (shares d1)) eqn:Es; [done|].
    apply rtc_once. by eapply (change_share (with_db s d1)).
  - unfold revoke_share. destruct (authenticated c) as [u|] eqn:Hc; [|done].
    destruct (own_file_by_id i u (files (db s))) as [file|] eqn:Ef; [|done].
    apply rtc_once. by eapply change_revoke.
  - unfold public_download. repeat case_match; try done.
    apply rtc_once. apply change_count.
Qed.

Lemma run_changes (rqs : list Request) (s : State) :
  rtc change s (run rqs s).
Proof.
  revert s. induction rqs as [|rq rqs IH]; intros s; [done|].
  simpl. etrans; [apply handle_changes | apply IH].
Qed.

(** A property that holds of the empty store and survives every change
    holds of every state the service reaches. *)
Lemma reachable_ind (P : State -> Prop) :
  P initial_state ->
  (forall s s', P s -> change s s' -> P s') ->
  forall s, reachable s -> P s.
Proof.
  intros H0 Hstep s [rqs ->].
  pose proof (run_changes rqs initial_state) as Hr.
  induction Hr; eauto.
Qed.


(** ** The invariants survive every change *)

Lemma change_consistent (s s' : State) :
  consistent (db s) -> change s s' -> consistent (db s').
Proof.
  intros Hc Hch.
  destruct Hch as [s rl | s u pass Hnew | s u folder file dup Hu Hd Hn
                   | s u raw | s u t i file | s u token i file
                   | s u i file | s token | s u i file us Hf Hg Hr];
    try (by apply (consistent_ext (db s))).
  - destruct Hc as [Hnd Hsz Hup Hsum]. split; simpl; [done | done | |].
    + intros r Hr. destruct (decide (u = f_uploader r)) as [->|Hne].
      * by rewrite lookup_insert_eq.
      * rewrite lookup_insert_ne by done. auto.
    + intros v user. destruct (decide (u = v)) as [->|Hne].
      * rewrite lookup_insert_eq. intros [= <-]. simpl. symmetry.
        apply actual_storage_used_none. intros r Hr Heq.
        destruct (Hup r Hr) as [x Hx]. congruence.
      * rewrite lookup_insert_ne by done. auto.
  - eapply (consistent_insert_record (db s) _ u
              (record_of u folder file dup (next_id (files (db s)))));
      try done; simpl; [lia|].
    destruct dup.
    + destruct (Hd eq_refl) as (r & Hin & <- & _).
      by apply (uploader_known _ Hc).
    + destruct (Hn eq_refl) as (user & -> & _). eauto.
  - apply own_file_by_id_In in Hf as (Hin & _ & Hu).
    by eapply (consistent_remove_record (db s) _ u file).
Qed.


(** ** Paths of blobs *)

Lemma os_path_join_blob (h : pystr) :
  os_path_join UPLOAD_DIR h =
  if match h with c :: _ => (c =? 47)%N | [] => false end then h
  else UPLOAD_DIR ++ 47%N :: h.
Proof.
  destruct h as [|c h]; [reflexivity|].
  destruct (N.eqb_spec c 47) as [->|Hc]; [reflexivity|].
  destruct c as [|q]; [reflexivity|].
  do 6 (destruct q as [q|q|]; try reflexivity). congruence.
Qed.

(** Different hashes have different paths under the blob directory. *)
Lemma os_path_join_inj (a b : pystr) :
  os_path_join UPLOAD_DIR a = os_path_join UPLOAD_DIR b -> a = b.
Proof.
  rewrite !os_path_join_blob.
  destruct a as [|x a], b as [|y b]; simpl;
    repeat match goal with
    | |- context [(?c =? 47)%N] => destruct (N.eqb_spec c 47); subst
    end; try done; intros E; try (by inversion E).
  all: try (vm_compute in E; by inversion E).
Qed.

Lemma same_id_same_record (fs : list File) (a b : File) :
  NoDup (map f_id fs) -> In a fs -> In b fs -> f_id a = f_id b -> a = b.
Proof.
  induction fs as [|x fs IH]; intros Hnd Ha Hb Hid; [done|].
  simpl in Hnd. apply NoDup_cons in Hnd as [Hx Hnd].
  rewrite list_elem_of_In in Hx.
  destruct Ha as [->|Ha], Hb as [->|Hb]; try done.
  - exfalso. apply Hx. rewrite Hid. by apply in_map.
  - exfalso. apply Hx. rewrite <- Hid. by apply in_map.
  - by apply IH.
Qed.

Lemma NoDup_map_filter_gen {A B : Type} (f : A -> B) (p : A -> bool)
    (l : list A) :
  NoDup (map f l) -> NoDup (map f (List.filter p l)).
Proof.
  induction l as [|a l IH]; intros Hnd; [done|].
  simpl in Hnd. apply NoDup_cons in Hnd as [Hfresh Hnd].
  rewrite list_elem_of_In in Hfresh.
  simpl. destruct (p a); [|by apply IH].
  simpl. apply NoDup_cons. split; [|by apply IH].
  rewrite list_elem_of_In.
  intros Hin. apply Hfresh. apply in_map_iff in Hin as (r & <- & Hr).
  apply in_map. by apply filter_In in Hr as [Hr _].
Qed.

Lemma write_blob_keeps (content : bytes) (m : gmap pystr bytes)
    (p : pystr) (c : bytes) :
  m !! p = Some c -> write_blob content m !! p = Some c.
Proof.
  intros Hp. unfold write_blob.
  destruct (m !! blob_path_of content) eqn:E; [done|].
  rewrite lookup_insert_ne; [done|]. congruence.
Qed.

Lemma write_blob_lookup (content : bytes) (m : gmap pystr bytes)
    (p : pystr) (c : bytes) :
  write_blob content m !! p = Some c ->
  m !! p = Some c \/ (p = blob_path_of content /\ c = content).
Proof.
  unfold write_blob. destruct (m !! blob_path_of content) eqn:E; [auto|].
  destruct (decide (blob_path_of content = p)) as [<-|Hne].
  - rewrite lookup_insert_eq. intros [= <-]. auto.
  - rewrite lookup_insert_ne by done. auto.
Qed.

(** ** [strip] twice is [strip] once *)

Lemma lstrip_id (t : pystr) :
  (forall c r, t = c :: r -> isspace c = false) -> lstrip t = t.
Proof.
  destruct t as [|c r]; [done|]. intros H. simpl.
  by rewrite (H c r eq_refl).
Qed.

Lemma rstrip_id (t : pystr) :
  (forall c r, t = r ++ [c] -> isspace c = false) -> rstrip t = t.
Proof.
  intros H. unfold rstrip. rewrite lstrip_id; [apply rev_involutive|].
  intros c r Hr. apply (H c (rev r)).
  by rewrite <- (rev_involutive t), Hr.
Qed.

Lemma strip_idem (s : pystr) : strip (strip s) = strip s.
Proof.
  destruct (strip_spec s) as (a & b & _ & _ & _ & Hhd & Htl).
  unfold strip at 1. rewrite lstrip_id by done. by apply rstrip_id.
Qed.


(** ** Quota and blobs under the changes *)

Ltac by_change H :=
  destruct H as [s rl | s u pass Hnew | s u folder file dup Hu Hd Hn
                 | s u raw Hu Hn H47 H92 Hex | s u t i file Hf Ht Hs
                 | s u token i file Hf Hs | s u i file Hf | s token
                 | s u i file us Hf Hg Hr].

Lemma change_within_quota (s s' : State) :
  consistent (db s) -> within_quota s -> change s s' -> within_quota s'.
Proof.
  intros Hc Hq Hch. unfold within_quota in *. by_change Hch; simpl; try done.
  - intros v user. destruct (decide (u = v)) as [->|Hne].
    + rewrite lookup_insert_eq. intros [= <-]. simpl.
      split; [done | by vm_compute].
    + rewrite lookup_insert_ne by done. apply Hq.
  - destruct dup; [done|]. destruct (Hn eq_refl) as (user & Hrow & Hle).
    rewrite (charge_lookup _ _ _ _ Hrow). intros v user'.
    destruct (decide (u = v)) as [->|Hne].
    + rewrite lookup_insert_eq. intros [= <-]. simpl.
      destruct (Hq _ _ Hrow) as [? ?]. split; [done | lia].
    + rewrite lookup_insert_ne by done. apply Hq.
  - apply own_file_by_id_In in Hf as (Hin & _ & _).
    pose proof (sizes_nonneg _ Hc _ Hin) as Hsz.
    unfold refund in Hr. destruct (f_is_duplicate file).
    + injection Hr as <-. apply Hq.
    + destruct (users (db s) !! u) as [user|] eqn:Hrow; [|done].
      injection Hr as <-. intros v user'.
      destruct (decide (u = v)) as [->|Hne].
      * rewrite lookup_insert_eq. intros [= <-]. simpl.
        destruct (Hq _ _ Hrow) as [? ?]. split; [done|]. case_match; lia.
      * rewrite lookup_insert_ne by done. apply Hq.
Qed.

Lemma change_blobs_present (s s' : State) :
  blobs_present s -> change s s' -> blobs_present s'.
Proof.
  intros Hb Hch. unfold blobs_present in *. by_change Hch; simpl; try done.
  - intros r [Hr | [<- | []]]%in_app_or.
    + destruct (Hb r Hr) as [c Hc]. exists c. by apply write_blob_keeps.
    + apply write_blob_present.
  - intros r [Hin Hid]%filter_In.
    destruct (Nat.eqb_spec (reference_count (f_file_hash file)
      (List.filter (fun r => negb (f_id r =? f_id file)) (files (db s)))) 0)
      as [Hz|Hz]; [|auto].
    assert (f_file_hash r <> f_file_hash file) as Hne.
    { apply (reference_count_zero _ _ _ Hz). by apply filter_In. }
    destruct (blobs s !! os_path_join UPLOAD_DIR (f_file_hash file));
      [|auto].
    rewrite lookup_delete_ne; [auto|].
    intros E. by apply os_path_join_inj in E.
Qed.

Lemma change_blobs_referenced (s s' : State) :
  consistent (db s) -> blobs_referenced s -> change s s' ->
  blobs_referenced s'.
Proof.
  intros Hc Hb Hch. unfold blobs_referenced in *.
  by_change Hch; simpl; try done.
  - intros p c [Hold | [-> ->]]%write_blob_lookup.
    + destruct (Hb p c Hold) as (r & Hin & Hp). exists r.
      split; [|done]. apply in_or_app. by left.
    + eexists. split; [apply in_or_app; right; by left | done].
  - apply own_file_by_id_In in Hf as (Hin & _ & _).
    intros p c Hp.
    set (fs := List.filter (fun r => negb (f_id r =? f_id file))
                 (files (db s))) in *.
    assert (blobs s !! p = Some c /\
            (reference_count (f_file_hash file) fs = 0%nat ->
             p <> os_path_join UPLOAD_DIR (f_file_hash file))) as [Hold Hne].
    { destruct (Nat.eqb_spec (reference_count (f_file_hash file) fs) 0)
        as [Hz|Hz]; [|done].
      destruct (blobs s !! os_path_join UPLOAD_DIR (f_file_hash file))
        eqn:E.
      - apply lookup_delete_Some in Hp as [? ?]. done.
      - split; [done|]. intros _ ->. congruence. }
    destruct (Hb p c Hold) as (r & Hr0 & Hrp).
    destruct (decide (f_id r = f_id file)) as [Hid|Hid].
    + assert (r = file) as -> by
        by apply (same_id_same_record _ _ _ (ids_distinct _ Hc)).
      destruct (Nat.eq_dec (reference_count (f_file_hash file) fs) 0%nat)
        as [Hz|Hz]; [by destruct (Hne Hz)|].
      apply reference_count_nonzero in Hz as (r' & Hr' & Hh).
      exists r'. split; [done|]. by rewrite Hh.
    + exists r. split; [|done]. by apply In_remaining.
Qed.

Lemma change_blobs_addressed (s s' : State) :
  blobs_addressed s -> change s s' -> blobs_addressed s'.
Proof.
  intros Hb Hch. unfold blobs_addressed in *. by_change Hch; simpl; try done.
  - intros p c [Hold | [-> ->]]%write_blob_lookup; auto.
  - intros p c Hp. apply (Hb p c).
    destruct (_ =? 0)%nat; [|done].
    destruct (blobs s !! os_path_join UPLOAD_DIR (f_file_hash file));
      [|done].
    by apply lookup_delete_Some in Hp as [_ ?].
Qed.

Lemma change_records_hashed (s s' : State) :
  records_hashed s -> change s s' -> records_hashed s'.
Proof.
  intros Hb Hch. unfold records_hashed in *. by_change Hch; simpl; try done.
  - intros r [Hr | [<- | []]]%in_app_or; [auto|].
    by exists (uf_content file).
  - intros r [Hin _]%filter_In. auto.
Qed.


(** ** Records, grants, shares and folders under the changes *)

Lemma change_originals_kept (s s' : State) :
  consistent (db s) -> originals_kept s -> change s s' -> originals_kept s'.
Proof.
  intros Hc Ho Hch. unfold originals_kept in *.
  by_change Hch; simpl; try done.
  - intros r [Hr0 | [<- | []]]%in_app_or Hdup.
    + destruct (Ho r Hr0 Hdup) as (o & Hin & ?). exists o.
      split; [apply in_or_app; by left | done].
    + simpl in Hdup. destruct (Hd Hdup) as (r0 & Hr0 & Hu0 & Hh0).
      destruct (f_is_duplicate r0) eqn:E.
      * destruct (Ho r0 Hr0 E) as (o & Hin & Hou & Hoh & Hod). exists o.
        split; [apply in_or_app; by left|]. simpl. split_and!; congruence.
      * exists r0. split; [apply in_or_app; by left|]. by simpl.
  - apply own_file_by_id_In in Hf as (Hin & _ & Hfu).
    intros r [Hr0 Hid]%filter_In Hdup.
    destruct (Ho r Hr0 Hdup) as (o & Ho_in & Hou & Hoh & Hod).
    exists o. split; [|done]. apply In_remaining; [done|]. intros Heq.
    assert (o = file) as -> by
      by apply (same_id_same_record _ _ _ (ids_distinct _ Hc)).
    unfold gate in Hg. rewrite Hod in Hg. simpl in Hg.
    rewrite (duplicate_count_pos u (f_file_hash file) (files (db s)) r) in Hg;
      [done | done | congruence | done | done].
Qed.

Lemma charge_is_Some (u v : pystr) (n : Z) (us : gmap pystr User) :
  is_Some (us !! v) -> is_Some (charge u n us !! v).
Proof.
  intros Hv. unfold charge. destruct (us !! u) eqn:E; [|done].
  destruct (decide (u = v)) as [->|Hne].
  - by rewrite lookup_insert_eq.
  - by rewrite lookup_insert_ne.
Qed.

Lemma refund_is_Some (u v : pystr) (file : File) (us us' : gmap pystr User) :
  refund u file us = Some us' -> is_Some (us !! v) -> is_Some (us' !! v).
Proof.
  unfold refund. destruct (f_is_duplicate file); [by intros [= <-]|].
  destruct (us !! u) eqn:E; [|done]. intros [= <-] Hv.
  destruct (decide (u = v)) as [->|Hne].
  - by rewrite lookup_insert_eq.
  - by rewrite lookup_insert_ne.
Qed.

Lemma is_shared_with_fresh (i : Z) (t : pystr) (l : list SharedFile) :
  is_shared_with i t l = false ->
  ~ In (i, t) (map (fun g => (sf_file_id g, sf_shared_with g)) l).
Proof.
  intros Hs Hin. apply in_map_iff in Hin as (g & [= Hi Ht] & Hg).
  assert (is_shared_with i t l = true); [|congruence].
  apply is_shared_with_true. eauto.
Qed.

Lemma change_grants_valid (s s' : State) :
  grants_valid s -> change s s' -> grants_valid s'.
Proof.
  intros [Hres Hnd] Hch. unfold grants_valid in *.
  by_change Hch; simpl; try done.
  - split; [|done]. intros g Hg. destruct (Hres g Hg) as [Hfile Huser].
    split; [done|]. destruct (decide (u = sf_shared_with g)) as [->|Hne].
    + by rewrite lookup_insert_eq.
    + by rewrite lookup_insert_ne.
  - split; [|done]. intros g Hg.
    destruct (Hres g Hg) as [(f & Hin & ?) Huser]. split.
    + exists f. split; [apply in_or_app; by left | done].
    + destruct dup; [done | by apply charge_is_Some].
  - apply own_file_by_id_In in Hf as (Hin & Hid & Hfu). split.
    + intros g [Hg | [<- | []]]%in_app_or; [auto|]. simpl. eauto.
    + rewrite map_app. apply NoDup_app. split_and!; [done | |].
      * intros x Hx Hx'. apply list_elem_of_In in Hx, Hx'.
        destruct Hx' as [<-|[]]. by apply is_shared_with_fresh in Hs.
      * apply NoDup_singleton.
  - apply own_file_by_id_In in Hf as (Hin & Hid & Hfu). split.
    + intros g [Hg0 Hne]%filter_In.
      destruct (Hres g Hg0) as [(f & Hf_in & Hfid & ?) Huser]. split.
      * exists f. split; [|done]. apply In_remaining; [done|].
        apply negb_true_iff in Hne. lia.
      * by eapply refund_is_Some.
    + by apply NoDup_map_filter_gen.
Qed.

Lemma revoke_In (i : Z) (l : list Share) (x : Share) :
  In x (revoke i l) ->
  exists y, In y l /\ sh_file_id x = sh_file_id y /\
            sh_created_by x = sh_created_by y /\
            sh_share_token x = sh_share_token y /\
            (sh_is_active x = true -> sh_is_active y = true).
Proof.
  unfold revoke. intros (y & <- & Hy)%in_map_iff. exists y.
  by destruct (sh_file_id y =? i).
Qed.

Lemma revoke_active (i j : Z) (l : list Share) :
  (length (List.filter (fun x => (sh_file_id x =? j)%Z && sh_is_active x)
             (revoke i l)) <=
   length (List.filter (fun x => (sh_file_id x =? j)%Z && sh_is_active x) l))%nat.
Proof.
  induction l as [|a l IH]; [done|]. simpl.
  destruct (sh_file_id a =? i) eqn:E; simpl.
  - rewrite andb_false_r. case_match; simpl; lia.
  - case_match; simpl; lia.
Qed.

Lemma count_download_In (token : pystr) (l : list Share) (x : Share) :
  In x (count_download token l) ->
  exists y, In y l /\ sh_file_id x = sh_file_id y /\
            sh_created_by x = sh_created_by y.
Proof.
  induction l as [|a l IH]; [done|]. simpl.
  destruct (str_eqb (sh_share_token a) token && sh_is_active a).
  - intros [<- | Hx]; [exists a; auto | exists x; auto].
  - intros [<- | Hx]; [exists a; auto|].
    destruct (IH Hx) as (y & ? & ?). exists y. auto.
Qed.

Lemma count_download_active (token : pystr) (j : Z) (l : list Share) :
  List.filter (fun x => (sh_file_id x =? j)%Z && sh_is_active x)
    (count_download token l) =
  count_download token
    (List.filter (fun x => (sh_file_id x =? j)%Z && sh_is_active x) l) \/
  length (List.filter (fun x => (sh_file_id x =? j)%Z && sh_is_active x)
            (count_download token l)) =
  length (List.filter (fun x => (sh_file_id x =? j)%Z && sh_is_active x) l).
Proof.
  right. induction l as [|a l IH]; [done|]. simpl.
  destruct (str_eqb (sh_share_token a) token && sh_is_active a); simpl.
  - by destruct ((sh_file_id a =? j) && sh_is_active a).
  - destruct ((sh_file_id a =? j) && sh_is_active a); simpl; lia.
Qed.

Lemma filter_filter_le {A : Type} (p q : A -> bool) (l : list A) :
  (length (List.filter p (List.filter q l)) <= length (List.filter p l))%nat.
Proof.
  induction l as [|a l IH]; [done|]. simpl.
  destruct (q a), (p a) eqn:E; simpl; rewrite ?E; simpl; lia.
Qed.

Lemma change_shares_valid (s s' : State) :
  shares_valid s -> change s s' -> shares_valid s'.
Proof.
  intros [Hres Hone] Hch. unfold shares_valid in *.
  by_change Hch; simpl; try done.
  - split; [|done]. intros x Hx. destruct (Hres x Hx) as (f & Hin & ?).
    exists f. split; [apply in_or_app; by left | done].
  - apply own_file_by_id_In in Hf as (Hin & Hid & Hfu). split.
    + intros x [Hx | [<- | []]]%in_app_or; [auto|]. simpl. eauto.
    + intros j. rewrite List.filter_app, length_app. simpl.
      destruct (Z.eqb_spec i j) as [->|Hne]; simpl.
      * assert (List.filter
          (fun x => (sh_file_id x =? j)%Z && sh_is_active x) (shares (db s))
          = []) as ->; [|done].
        destruct (List.filter _ (shares (db s))) as [|x l] eqn:E; [done|].
        assert (In x (List.filter
          (fun x => (sh_file_id x =? j)%Z && sh_is_active x) (shares (db s))))
          as [Hx Hp]%filter_In by (rewrite E; by left).
        assert (existsb (fun x => (sh_file_id x =? j)%Z && sh_is_active x)
                  (shares (db s)) = true); [|congruence].
        apply existsb_exists. eauto.
      * specialize (Hone j). lia.
  - split.
    + intros x (y & Hy & -> & -> & _)%revoke_In. auto.
    + intros j. etrans; [apply revoke_active | apply Hone].
  - split.
    + intros x (y & Hy & -> & ->)%count_download_In. auto.
    + intros j.
      destruct (count_download_active token j (shares (db s))) as [E|E].
      * rewrite E. pose proof (Hone j). clear E.
        destruct (List.filter _ (shares (db s))) as [|a [|b l]];
          simpl in *; try lia; by case_match.
      * rewrite E. apply Hone.
  - apply own_file_by_id_In in Hf as (Hin & Hid & Hfu). split.
    + intros x [Hx Hne]%filter_In.
      destruct (Hres x Hx) as (f & Hf_in & Hfid & ?).
      exists f. split; [|done]. apply In_remaining; [done|].
      apply negb_true_iff in Hne. lia.
    + intros j. etrans; [apply filter_filter_le | apply Hone].
Qed.

Lemma change_folders_valid (s s' : State) :
  folders_valid s -> change s s' -> folders_valid s'.
Proof.
  intros [Hname Hnd] Hch. unfold folders_valid in *.
  by_change Hch; simpl; try done.
  split.
  - intros f [Hf | [<- | []]]%in_app_or; [auto|]. simpl.
    split_and!; [by destruct (strip raw) | done | done | apply strip_idem].
  - rewrite map_app. apply NoDup_app. split_and!; [done | |].
    + intros x Hx Hx'. apply list_elem_of_In in Hx, Hx'.
      destruct Hx' as [<-|[]]. apply in_map_iff in Hx as (f & [= E1 E2] & Hf).
      assert (existsb (fun f => str_eqb (fo_name f) (strip raw) &&
                                str_eqb (fo_owner f) u) (folders (db s))
              = true); [|congruence].
      apply existsb_exists. exists f. split; [done|].
      by rewrite E1, E2, !str_eqb_refl.
    + apply NoDup_singleton.
Qed.


(** ** Every reachable state is sound *)

Lemma sound_initial : sound initial_state.
Proof.
  split.
  - apply consistent_empty.
  - by intros u user Hu.
  - by intros r Hr.
  - by intros p c Hp.
  - by intros p c Hp.
  - by intros r Hr.
  - by intros r Hr.
  - split; [done | constructor].
  - split; [done | intros i; simpl; lia].
  - split; [done | constructor].
Qed.

Lemma sound_change (s s' : State) : sound s -> change s s' -> sound s'.
Proof.
  intros [] Hch. split.
  - by eapply change_consistent.
  - by eapply change_within_quota.
  - by eapply change_blobs_present.
  - by eapply change_blobs_referenced.
  - by eapply change_blobs_addressed.
  - by eapply change_records_hashed.
  - by eapply change_originals_kept.
  - by eapply change_grants_valid.
  - by eapply change_shares_valid.
  - by eapply change_folders_valid.
Qed.

Lemma reachable_sound (s : State) : reachable s -> sound s.
Proof. apply reachable_ind; [apply sound_initial | apply sound_change]. Qed.

Lemma reachable_handle (rq : Request) (s : State) :
  reachable s -> reachable (snd (handle rq s)).
Proof.
  intros [rqs ->]. exists (rqs ++ [rq]). unfold run.
  by rewrite fold_left_app.
Qed.

(** X1. In every state the service reaches, each user has the quota given
    at sign-up, 10 MB, and a [storage_used] between zero and that quota. *)
Theorem quota_never_exceeded (s : State) (u : pystr) (user : User) :
  reachable s -> users (db s) !! u = Some user ->
  storage_quota user = 10485760 /\
  0 <= storage_used user <= storage_quota user.
Proof.
  intros Hs Hu.
  destruct (sound_quota _ (reachable_sound _ Hs) _ _ Hu) as [Hq Hb].
  split; [|done]. by rewrite Hq.
Qed.

(** X2. In every reachable state the blob of every record is on the
    medium, so the uploader's download of an existing record is always
    served: it never ends in 404 for a missing blob. *)
Theorem owner_download_served (s : State) (u : pystr) (i : Z) (file : File) :
  reachable s -> truthy u = true ->
  file_by_id i (files (db s)) = Some file -> f_uploader file = u ->
  is_Some (blobs s !! os_path_join UPLOAD_DIR (f_file_hash file)) /\
  download_file (Some u) i s =
    FileResponse (os_path_join UPLOAD_DIR (f_file_hash file))
      (f_filename file).
Proof.
  intros Hs Hu Hf Hown.
  assert (In file (files (db s))) as Hin.
  { unfold file_by_id in Hf. by apply find_some in Hf as [? _]. }
  pose proof (sound_present _ (reachable_sound _ Hs) _ Hin) as Hb.
  split; [done|]. destruct Hb as [c Hc].
  unfold download_file.
  by rewrite (authenticated_some _ Hu), Hf, Hown, str_eqb_refl, Hc.
Qed.


(** X3. In every reachable state each blob on the medium is referenced by
    a record: deletions leave no orphan behind. *)
Theorem no_orphan_blob (s : State) (p : pystr) (c : bytes) :
  reachable s -> blobs s !! p = Some c ->
  exists r, In r (files (db s)) /\
            os_path_join UPLOAD_DIR (f_file_hash r) = p.
Proof.
  intros Hs Hp. by apply (sound_referenced _ (reachable_sound _ Hs) p c).
Qed.

(** X4. In every reachable state the blob stored for a record has the
    record's hash as its digest; and if the digest has no collisions, the
    record's size is the length of that blob. *)
Theorem blob_matches_record (s : State) (r : File) :
  reachable s -> In r (files (db s)) ->
  exists c,
    blobs s !! os_path_join UPLOAD_DIR (f_file_hash r) = Some c /\
    sha256_hexdigest c = f_file_hash r /\
    ((forall a b, sha256_hexdigest a = sha256_hexdigest b -> a = b) ->
     f_size r = Z.of_nat (length c)).
Proof.
  intros Hs Hr. pose proof (reachable_sound _ Hs) as Hsound.
  destruct (sound_present _ Hsound _ Hr) as [c Hc]. exists c.
  pose proof (sound_addressed _ Hsound _ _ Hc) as Hp.
  apply os_path_join_inj in Hp.
  split_and!; [done | done |].
  intros Hinj. destruct (sound_hashed _ Hsound _ Hr) as (c' & Hh & ->).
  do 2 f_equal. apply Hinj. congruence.
Qed.

(** X5. In every reachable state a duplicate record has an original: a
    record of the same uploader and hash with [is_duplicate = false]. *)
Theorem duplicate_has_original (s : State) (r : File) :
  reachable s -> In r (files (db s)) -> f_is_duplicate r = true ->
  exists o, In o (files (db s)) /\ f_uploader o = f_uploader r /\
            f_file_hash o = f_file_hash r /\ f_is_duplicate o = false.
Proof.
  intros Hs. apply (sound_originals _ (reachable_sound _ Hs)).
Qed.

(** X6. In every reachable state a grant names an existing record that
    belongs to the user who shared it, and a grantee who has a row; and no
    record is granted twice to the same user. *)
Theorem grants_point_to_records (s : State) :
  reachable s ->
  (forall g, In g (shared_files (db s)) ->
     (exists f, In f (files (db s)) /\ f_id f = sf_file_id g /\
                f_uploader f = sf_shared_by g) /\
     is_Some (users (db s) !! sf_shared_with g)) /\
  NoDup (map (fun g => (sf_file_id g, sf_shared_with g))
           (shared_files (db s))).
Proof.
  intros Hs. apply (sound_grants _ (reachable_sound _ Hs)).
Qed.

(** X7. In every reachable state a public share names an existing record
    that belongs to its creator, and a record has at most one active
    share. *)
Theorem shares_point_to_records (s : State) :
  reachable s ->
  (forall x, In x (shares (db s)) ->
     exists f, In f (files (db s)) /\ f_id f = sh_file_id x /\
               f_uploader f = sh_created_by x) /\
  (forall i : Z,
     (length (List.filter (fun x => (sh_file_id x =? i)%Z && sh_is_active x)
                (shares (db s))) <= 1)%nat).
Proof.
  intros Hs. apply (sound_shares _ (reachable_sound _ Hs)).
Qed.

(** X8. In every reachable state a folder name is not empty, has no
    whitespace around it, contains neither "/" nor "\", and occurs once
    for its owner. *)
Theorem folders_well_formed (s : State) :
  reachable s ->
  (forall f, In f (folders (db s)) ->
     fo_name f <> [] /\ contains 47%N (fo_name f) = false /\
     contains 92%N (fo_name f) = false /\ strip (fo_name f) = fo_name f) /\
  NoDup (map (fun f => (fo_name f, fo_owner f)) (folders (db s))).
Proof.
  intros Hs. apply (sound_folders _ (reachable_sound _ Hs)).
Qed.

(** X9. Different hashes give different paths under the blob directory,
    so two contents never share a blob unless they share a hash. *)
Theorem blob_paths_distinct (a b : pystr) :
  a <> b -> os_path_join UPLOAD_DIR a <> os_path_join UPLOAD_DIR b.
Proof. intros Hne E. by apply os_path_join_inj in E. Qed.


(** ** The rate limiter *)

Lemma check_rate_limit_eq (u e : pystr) (now : Z) (d : DB) :
  check_rate_limit u e now d =
  if (RATE_LIMIT_CALLS <=? recent_requests u e now (rate_limits d))%nat
  then (false, d)
  else (true, set_rate_limits d
                (kept_rows now (rate_limits d ++ [rate_row u e now]))).
Proof. reflexivity. Qed.

Lemma check_rate_limit_allowed (u e : pystr) (now : Z) (d d' : DB) :
  check_rate_limit u e now d = (true, d') ->
  (recent_requests u e now (rate_limits d) < RATE_LIMIT_CALLS)%nat /\
  d' = set_rate_limits d
         (kept_rows now (rate_limits d) ++ [rate_row u e now]).
Proof.
  rewrite check_rate_limit_eq.
  destruct (Nat.leb_spec RATE_LIMIT_CALLS
              (recent_requests u e now (rate_limits d))); [done|].
  intros [= <-]. split; [done|]. f_equal.
  unfold kept_rows. rewrite List.filter_app. simpl.
  destruct (Z.ltb_spec now (now - microseconds 60)); [|done].
  unfold microseconds in *. lia.
Qed.

Lemma recent_requests_app (u e : pystr) (now : Z) (a b : list RateLimit) :
  recent_requests u e now (a ++ b) =
  (recent_requests u e now a + recent_requests u e now b)%nat.
Proof.
  unfold recent_requests. by rewrite List.filter_app, length_app.
Qed.

Lemma recent_requests_row (u e : pystr) (now t : Z) :
  now - microseconds RATE_LIMIT_WINDOW <= t ->
  recent_requests u e now [rate_row u e t] = 1%nat.
Proof.
  intros Ht. unfold recent_requests. simpl. rewrite !str_eqb_refl. simpl.
  by destruct (Z.leb_spec (now - microseconds RATE_LIMIT_WINDOW) t); [|lia].
Qed.

Lemma recent_requests_other (u e v e' : pystr) (now t : Z) :
  u <> v \/ e <> e' ->
  recent_requests u e now [rate_row v e' t] = 0%nat.
Proof.
  intros Hne. unfold recent_requests. simpl.
  destruct Hne as [Hne|Hne].
  - by rewrite (str_eqb_neq v u) by congruence.
  - rewrite (str_eqb_neq e' e) by congruence. by rewrite andb_false_r.
Qed.

(** Rows inside the window are younger than a minute, so the clean-up of
    a later request does not take them out of the count. *)
Lemma recent_requests_kept (u e : pystr) (now now' : Z) (l : list RateLimit) :
  now' - microseconds 60 <= now - microseconds RATE_LIMIT_WINDOW ->
  recent_requests u e now (kept_rows now' l) = recent_requests u e now l.
Proof.
  intros Ht. unfold recent_requests, kept_rows.
  induction l as [|r l IH]; [done|]. simpl.
  destruct (Z.ltb_spec (rl_timestamp r) (now' - microseconds 60)); simpl.
  - rewrite IH.
    destruct (Z.leb_spec (now - microseconds RATE_LIMIT_WINDOW)
                (rl_timestamp r)); [lia|].
    by rewrite andb_false_r.
  - case_match; simpl; by rewrite IH.
Qed.

(** X10. Two requests per second: once two requests of a user on an
    endpoint have been let through, a third one that comes within a second
    of the first is refused. *)
Theorem third_call_refused (u e : pystr) (t1 t2 t3 : Z) (d d1 d2 : DB) :
  check_rate_limit u e t1 d = (true, d1) ->
  check_rate_limit u e t2 d1 = (true, d2) ->
  t1 <= t2 -> t2 <= t3 -> t3 <= t1 + 1000000 ->
  check_rate_limit u e t3 d2 = (false, d2).
Proof.
  intros H1 H2 H12 H23 H31.
  apply check_rate_limit_allowed in H1 as [_ ->].
  apply check_rate_limit_allowed in H2 as [_ ->].
  rewrite check_rate_limit_eq. cbn [rate_limits set_rate_limits].
  assert (2 <= recent_requests u e t3
                 (kept_rows t2
                    (kept_rows t1 (rate_limits d) ++ [rate_row u e t1]) ++
                  [rate_row u e t2]))%nat as Hc.
  { unfold kept_rows at 1. rewrite List.filter_app. simpl.
    destruct (Z.ltb_spec t1 (t2 - microseconds 60)) as [Hlt|_];
      [unfold microseconds in Hlt; lia|]. simpl.
    rewrite !recent_requests_app.
    rewrite !recent_requests_row
      by (unfold microseconds, RATE_LIMIT_WINDOW; lia).
    lia. }
  by destruct (Nat.leb_spec RATE_LIMIT_CALLS
    (recent_requests u e t3
       (kept_rows t2 (kept_rows t1 (rate_limits d) ++ [rate_row u e t1]) ++
        [rate_row u e t2]))); [|unfold RATE_LIMIT_CALLS in *; lia].
Qed.

(** X11. A request that is let through is logged with its time, and
    afterwards no logged row is older than one minute; the other tables
    are not touched. *)
Theorem allowed_call_logged (u e : pystr) (now : Z) (d d' : DB) :
  check_rate_limit u e now d = (true, d') ->
  In (rate_row u e now) (rate_limits d') /\
  (forall r, In r (rate_limits d') -> now - 60000000 <= rl_timestamp r) /\
  (forall r, In r (rate_limits d') ->
     r = rate_row u e now \/ In r (rate_limits d)) /\
  users d' = users d /\ files d' = files d /\ shares d' = shares d /\
  shared_files d' = shared_files d /\ folders d' = folders d.
Proof.
  intros H. apply check_rate_limit_allowed in H as [_ ->]. simpl.
  split_and!; try done.
  - apply in_or_app. right. by left.
  - intros r [Hr | [<- | []]]%in_app_or; [|simpl; lia].
    apply filter_In in Hr as [_ Hk]. apply negb_true_iff in Hk.
    unfold microseconds in Hk. lia.
  - intros r [Hr | [<- | []]]%in_app_or; [|by left].
    right. by apply filter_In in Hr as [? _].
Qed.

(** X12. The allowance is per user and per endpoint: a request of another
    user, or on another endpoint, made no later than 59 seconds after
    [now], does not change whether a request at [now] is let through. *)
Theorem rate_limit_independent (u e v e' : pystr) (now now' : Z) (d : DB) :
  u <> v \/ e <> e' ->
  now' <= now + 59000000 ->
  fst (check_rate_limit u e now (snd (check_rate_limit v e' now' d))) =
  fst (check_rate_limit u e now d).
Proof.
  intros Hne Ht. rewrite (check_rate_limit_eq v e' now' d).
  destruct (RATE_LIMIT_CALLS <=? recent_requests v e' now' (rate_limits d))%nat;
    [done|].
  rewrite !check_rate_limit_eq. cbn [snd rate_limits set_rate_limits].
  rewrite recent_requests_kept
    by (unfold microseconds, RATE_LIMIT_WINDOW; lia).
  rewrite recent_requests_app, (recent_requests_other u e v e' now now' Hne).
  rewrite Nat.add_0_r. by case_match.
Qed.


(** ** Requests that are turned away *)

Ltac turned_away Hu Hr :=
  rewrite (authenticated_some _ Hu);
  match type of Hr with
  | fst ?c = false => destruct c as [[|] ?]; simpl in Hr; [done | reflexivity]
  end.

(** X13. A request the rate limiter refuses has no effect at all: each of
    the five limited handlers answers with the rate-limit redirect and
    returns the state as it was, rate-limit log included. *)
Theorem rate_limited_no_effect (u : pystr) (now : Z) (s : State) :
  truthy u = true ->
  let refused := (RedirectResponse
                    (of_string "/upload?upload_error=rate_limit") 302, s) in
  (forall fs folder,
     fst (check_rate_limit u (of_string "upload") now (db s)) = false ->
     upload_file (Some u) now fs folder s = refused) /\
  (forall name,
     fst (check_rate_limit u (of_string "create-folder") now (db s)) = false ->
     create_folder (Some u) now name s = refused) /\
  (forall i t,
     fst (check_rate_limit u (of_string "share-with-user") now (db s)) = false ->
     share_with_user (Some u) now i t s = refused) /\
  (forall i,
     fst (check_rate_limit u (of_string "delete") now (db s)) = false ->
     delete_file (Some u) now i s = refused) /\
  (forall i token,
     fst (check_rate_limit u (of_string "share") now (db s)) = false ->
     create_share (Some u) now i token s = refused).
Proof.
  intros Hu refused. unfold refused. split_and!.
  - intros fs folder Hr. unfold upload_file. turned_away Hu Hr.
  - intros name Hr. unfold create_folder. turned_away Hu Hr.
  - intros i t Hr. unfold share_with_user. turned_away Hu Hr.
  - intros i Hr. unfold delete_file. turned_away Hu Hr.
  - intros i token Hr. unfold create_share. turned_away Hu Hr.
Qed.

(** X14. Without the cookie, or with an empty one, every handler that asks
    for it redirects to the login page and leaves the state as it was. *)
Theorem missing_cookie_redirects (c : option pystr) (s : State) :
  c = None \/ c = Some [] ->
  let login_page := RedirectResponse (of_string "/login") 307 in
  (forall now fs folder, upload_file c now fs folder s = (login_page, s)) /\
  (forall now name, create_folder c now name s = (login_page, s)) /\
  (forall now i t, share_with_user c now i t s = (login_page, s)) /\
  (forall i, download_file c i s = login_page) /\
  (forall now i, delete_file c now i s = (login_page, s)) /\
  (forall now i token, create_share c now i token s = (login_page, s)) /\
  (forall i, revoke_share c i s = (login_page, s)).
Proof.
  intros [-> | ->]; by split_and!.
Qed.

(** ** Sign-up and login *)


(** X16. Signing up a name twice is signing it up once: the second request
    is answered with "Username already exists" and changes nothing, so the
    first password and the usage of the account stay. *)
Theorem signup_twice (u pass1 pass2 : pystr) (s : State) :
  let s1 := snd (signup u pass1 s) in
  signup u pass2 s1 =
    (TemplateResponse (of_string "signup.html")
       (Some (of_string "Username already exists")), s1).
Proof.
  cbv zeta. unfold signup at 2 3.
  destruct (users (db s) !! u) eqn:E; simpl.
  - unfold signup. by rewrite E.
  - unfold signup. simpl. by rewrite lookup_insert_eq.
Qed.


(** ** Counting a batch *)

Lemma upload_one_counts (u : pystr) (folder : option pystr) (st : Upload)
    (file : UploadFile) :
  let st' := upload_one u folder st file in
  (uploaded_count st' + skipped_count st' =
   S (uploaded_count st + skipped_count st))%nat /\
  (length (view (session st')) + uploaded_count st =
   length (view (session st)) + uploaded_count st')%nat.
Proof.
  cbv zeta. destruct (skips u st file) eqn:E.
  - rewrite (upload_one_skip _ _ _ _ E). simpl. rewrite view_query. lia.
  - destruct (upload_one_accept u folder st file E)
      as (Hv & _ & _ & _ & Hup & Hsk).
    rewrite Hv, Hup, Hsk, length_app. simpl. lia.
Qed.

Lemma upload_loop_counts (u : pystr) (folder : option pystr)
    (fs : list UploadFile) (st : Upload) :
  let r := upload_loop u folder fs st in
  (uploaded_count r + skipped_count r =
   uploaded_count st + skipped_count st + length fs)%nat /\
  (length (view (session r)) + uploaded_count st =
   length (view (session st)) + uploaded_count r)%nat.
Proof.
  revert st. induction fs as [|f fs IH]; intros st; simpl; [lia|].
  destruct (IH (upload_one u folder st f)) as [H1 H2].
  destruct (upload_one_counts u folder st f) as [H3 H4].
  unfold upload_loop in *. lia.
Qed.

(** X17. An upload request that is let through accounts for every item:
    accepted plus skipped items are the items sent, the table grows by
    one record per accepted item, and the answer is the plain redirect
    exactly when nothing was skipped. *)
Theorem upload_batch_accounting (u : pystr) (now : Z)
    (fs : list UploadFile) (folder : option pystr) (s : State) :
  truthy u = true ->
  fst (check_rate_limit u (of_string "upload") now (db s)) = true ->
  let r := upload_run u now fs folder s in
  let resp := fst (upload_file (Some u) now fs folder s) in
  let s' := snd (upload_file (Some u) now fs folder s) in
  (uploaded_count r + skipped_count r = length fs)%nat /\
  (length (files (db s')) = length (files (db s)) + uploaded_count r)%nat /\
  (skipped_count r = 0%nat ->
   resp = RedirectResponse (of_string "/upload") 302) /\
  (skipped_count r <> 0%nat ->
   resp = RedirectResponse
            (upload_message (uploaded_count r) (skipped_count r)) 302).
Proof.
  intros Hu Hr r resp s'.
  unfold s'. rewrite (upload_file_allowed _ _ _ _ _ Hu Hr). fold r.
  destruct (upload_loop_counts u folder fs
    {| session := begin (upload_db u now s); disk := blobs s;
       uploaded_count := 0; skipped_count := 0 |}) as [H1 H2].
  fold (upload_run u now fs folder s) in H1, H2. fold r in H1, H2.
  simpl in H1, H2. rewrite view_begin in H2.
  destruct (check_rate_limit_frame u (of_string "upload") now (db s))
    as (_ & Hfs & _). fold (upload_db u now s) in Hfs. rewrite Hfs in H2.
  split_and!.
  - lia.
  - simpl. change (flush_files _ _) with (view (session r)). lia.
  - intros Hz. unfold resp, upload_file.
    rewrite (authenticated_some _ Hu).
    destruct (check_rate_limit u (of_string "upload") now (db s))
      as [a d1] eqn:E. simpl in Hr. subst a. cbv beta iota zeta. simpl negb.
    cbv iota.
    assert (r = upload_loop u folder fs
      {| session := begin d1; disk := blobs s;
         uploaded_count := 0; skipped_count := 0 |}) as <-.
    { unfold r, upload_run, upload_db. by rewrite E. }
    by rewrite Hz.
  - intros Hz. unfold resp, upload_file.
    rewrite (authenticated_some _ Hu).
    destruct (check_rate_limit u (of_string "upload") now (db s))
      as [a d1] eqn:E. simpl in Hr. subst a. cbv beta iota zeta. simpl negb.
    cbv iota.
    assert (r = upload_loop u folder fs
      {| session := begin d1; disk := blobs s;
         uploaded_count := 0; skipped_count := 0 |}) as <-.
    { unfold r, upload_run, upload_db. by rewrite E. }
    by destruct (skipped_count r).
Qed.

Lemma has_uploaded_none (u h : pystr) (fs : list File) :
  (forall r, In r fs -> f_uploader r <> u) -> has_uploaded u h fs = false.
Proof.
  intros H. unfold has_uploaded.
  destruct (existsb _ fs) eqn:E; [|done].
  apply existsb_exists in E as (r & Hr & Hp).
  apply andb_true_iff in Hp as [Hp _]. apply str_eqb_eq in Hp.
  by destruct (H r Hr).
Qed.

Lemma upload_loop_unknown_user (u : pystr) (folder : option pystr)
    (fs : list UploadFile) (st : Upload) :
  users (store (session st)) !! u = None ->
  (forall r, In r (view (session st)) -> f_uploader r <> u) ->
  let r := upload_loop u folder fs st in
  state_of r = state_of st /\
  uploaded_count r = uploaded_count st /\
  skipped_count r = (skipped_count st + length fs)%nat.
Proof.
  revert st. induction fs as [|f fs IH]; intros st Hrow Hnone; simpl.
  { split_and!; [done | done | lia]. }
  assert (skips u st f = true) as Hskip.
  { unfold skips. rewrite has_uploaded_none.
    - unfold check_storage_quota. by rewrite Hrow.
    - intros r Hr. apply Hnone. by apply visible_in_view. }
  rewrite (upload_one_skip _ _ _ _ Hskip).
  edestruct (IH {| session := query (session st); disk := disk st;
                   uploaded_count := uploaded_count st;
                   skipped_count := S (skipped_count st) |})
    as (H1 & H2 & H3); simpl.
  - by rewrite users_query.
  - by rewrite view_query.
  - unfold upload_loop in *. rewrite H1, H2, H3. simpl.
    split_and!; [|done|lia]. unfold state_of. simpl.
    by rewrite commit_query.
Qed.

(** X18. A cookie that names a user who never signed up stores nothing: in
    a reachable state every item of the upload is skipped, and records,
    users, shares, grants, folders and blobs stay as they were. *)
Theorem unknown_user_uploads_nothing (u : pystr) (now : Z)
    (fs : list UploadFile) (folder : option pystr) (s : State) :
  reachable s -> truthy u = true ->
  users (db s) !! u = None ->
  fst (check_rate_limit u (of_string "upload") now (db s)) = true ->
  let r := upload_run u now fs folder s in
  let s' := snd (upload_file (Some u) now fs folder s) in
  uploaded_count r = 0%nat /\ skipped_count r = length fs /\
  files (db s') = files (db s) /\ users (db s') = users (db s) /\
  shares (db s') = shares (db s) /\
  shared_files (db s') = shared_files (db s) /\
  folders (db s') = folders (db s) /\ blobs s' = blobs s.
Proof.
  intros Hs Hu Hrow Hr r s'.
  unfold s'. rewrite (upload_file_allowed _ _ _ _ _ Hu Hr). fold r.
  destruct (check_rate_limit_frame u (of_string "upload") now (db s))
    as (Hus & Hfs & Hsh & Hsf & Hfo). fold (upload_db u now s) in *.
  destruct (upload_loop_unknown_user u folder fs
    {| session := begin (upload_db u now s); disk := blobs s;
       uploaded_count := 0; skipped_count := 0 |}) as (H1 & H2 & H3).
  - simpl. by rewrite Hus.
  - cbn [session]. rewrite view_begin, Hfs. intros x Hx Heq.
    destruct (uploader_known _ (sound_consistent _ (reachable_sound _ Hs))
                x Hx) as [y Hy].
    congruence.
  - fold (upload_run u now fs folder s) in H1, H2, H3. fold r in H1, H2, H3.
    change {| db := commit (session r); blobs := disk r |} with (state_of r).
    rewrite H1. unfold state_of. cbn [session disk db blobs].
    rewrite commit_begin. simpl in H3. by split_and!.
Qed.


(** ** Only the uploader acts on a record *)

Lemma not_own_file (u : pystr) (i : Z) (fs : list File) (file : File) :
  NoDup (map f_id fs) ->
  file_by_id i fs = Some file -> f_uploader file <> u ->
  own_file_by_id i u fs = None.
Proof.
  intros Hnd Hf Hne.
  destruct (own_file_by_id i u fs) as [f|] eqn:E; [|done].
  apply own_file_by_id_In in E as (Hin & Hid & Hu).
  unfold file_by_id in Hf. apply find_some in Hf as [Hin' Hid'].
  assert (f = file) as ->; [|done].
  apply (same_id_same_record fs); [done | done | done | lia].
Qed.

(** X19. In a reachable state a user who is not the uploader of a record
    cannot delete it, share it, publish it or revoke its share: each of
    these requests is answered 404 (or turned away by the rate limiter),
    and records, users, shares, grants and blobs stay as they were. *)
Theorem only_uploader_acts (u : pystr) (now i : Z) (s : State)
    (file : File) :
  reachable s -> truthy u = true ->
  file_by_id i (files (db s)) = Some file -> f_uploader file <> u ->
  let untouched (s' : State) :=
    files (db s') = files (db s) /\ users (db s') = users (db s) /\
    shares (db s') = shares (db s) /\
    shared_files (db s') = shared_files (db s) /\ blobs s' = blobs s in
  (untouched (snd (delete_file (Some u) now i s)) /\
   (fst (check_rate_limit u (of_string "delete") now (db s)) = true ->
    fst (delete_file (Some u) now i s) = HTTPException 404 None)) /\
  (forall t,
     untouched (snd (share_with_user (Some u) now i t s)) /\
     (fst (check_rate_limit u (of_string "share-with-user") now (db s)) = true ->
      fst (share_with_user (Some u) now i t s) = HTTPException 404 None)) /\
  (forall token,
     untouched (snd (create_share (Some u) now i token s)) /\
     (fst (check_rate_limit u (of_string "share") now (db s)) = true ->
      fst (create_share (Some u) now i token s) = HTTPException 404 None)) /\
  revoke_share (Some u) i s = (HTTPException 404 None, s).
Proof.
  intros Hs Hu Hf Hne untouched. unfold untouched.
  pose proof (not_own_file u i _ file
    (ids_distinct _ (sound_consistent _ (reachable_sound _ Hs))) Hf Hne)
    as Hnot.
  split; [|split; [|split]].
  - unfold delete_file. rewrite (authenticated_some _ Hu).
    pose proof (check_rate_limit_frame u (of_string "delete") now (db s))
      as (Hus & Hfs & Hsh & Hsf & _).
    destruct (check_rate_limit u (of_string "delete") now (db s)) as [[|] d1];
      simpl in Hus, Hfs, Hsh, Hsf; cbv beta iota zeta; simpl negb; cbv iota;
      [|by split_and!].
    rewrite Hfs, Hnot. by split_and!.
  - intros t. unfold share_with_user. rewrite (authenticated_some _ Hu).
    pose proof (check_rate_limit_frame u (of_string "share-with-user") now
                  (db s)) as (Hus & Hfs & Hsh & Hsf & _).
    destruct (check_rate_limit u (of_string "share-with-user") now (db s))
      as [[|] d1];
      simpl in Hus, Hfs, Hsh, Hsf; cbv beta iota zeta; simpl negb; cbv iota;
      [|by split_and!].
    rewrite Hfs, Hnot. by split_and!.
  - intros token. unfold create_share. rewrite (authenticated_some _ Hu).
    pose proof (check_rate_limit_frame u (of_string "share") now (db s))
      as (Hus & Hfs & Hsh & Hsf & _).
    destruct (check_rate_limit u (of_string "share") now (db s))
      as [[|] d1];
      simpl in Hus, Hfs, Hsh, Hsf; cbv beta iota zeta; simpl negb; cbv iota;
      [|by split_and!].
    rewrite Hfs, Hnot. by split_and!.
  - unfold revoke_share. by rewrite (authenticated_some _ Hu), Hnot.
Qed.

(** ** What a deletion leaves *)

Lemma delete_file_done (u : pystr) (now i : Z) (s : State) :
  truthy u = true ->
  fst (delete_file (Some u) now i s)
    = RedirectResponse (of_string "/upload") 302 ->
  exists file us,
    own_file_by_id i u (files (db s)) = Some file /\
    gate u file (files (db s)) = false /\
    refund u file (users (db s)) = Some us /\
    snd (delete_file (Some u) now i s) =
      after_delete i file us
        (with_db s (snd (check_rate_limit u (of_string "delete") now (db s)))).
Proof.
  intros Hu. unfold delete_file. rewrite (authenticated_some _ Hu).
  pose proof (check_rate_limit_frame u (of_string "delete") now (db s))
    as (Hus & Hfs & _).
  destruct (check_rate_limit u (of_string "delete") now (db s)) as [[|] d1];
    simpl in Hus, Hfs; cbv beta iota zeta; simpl negb; cbv iota;
    [|by intros H; vm_compute in H].
  rewrite <- Hfs, <- Hus.
  destruct (own_file_by_id i u (files d1)) as [file|] eqn:Ef; [|done].
  destruct (negb (f_is_duplicate file) && _) eqn:Eg;
    [by intros H; vm_compute in H|].
  destruct (refund u file (users d1)) as [us|] eqn:Er; [|done].
  intros _. by exists file, us.
Qed.

Lemma delete_file_applies (u : pystr) (now i : Z) (s : State) (file : File)
    (us : gmap pystr User) :
  truthy u = true ->
  fst (check_rate_limit u (of_string "delete") now (db s)) = true ->
  own_file_by_id i u (files (db s)) = Some file ->
  gate u file (files (db s)) = false ->
  refund u file (users (db s)) = Some us ->
  delete_file (Some u) now i s =
    (RedirectResponse (of_string "/upload") 302,
     after_delete i file us
       (with_db s (snd (check_rate_limit u (of_string "delete") now (db s))))).
Proof.
  intros Hu Hr Hf Hg Hre. unfold delete_file.
  rewrite (authenticated_some _ Hu).
  pose proof (check_rate_limit_frame u (of_string "delete") now (db s))
    as (Hus & Hfs & _).
  destruct (check_rate_limit u (of_string "delete") now (db s)) as [[|] d1];
    simpl in Hus, Hfs, Hr; [|done].
  cbv beta iota zeta. simpl negb. cbv iota.
  unfold gate in Hg. by rewrite Hfs, Hf, Hg, Hus, Hre.
Qed.

(** X20. After a deletion that went through, the record's key is gone from
    the table, no grant and no public share names it, and every download
    of it, by whatever user, is answered 404. *)
Theorem deleted_record_gone (u : pystr) (now i : Z) (s : State) :
  truthy u = true ->
  fst (delete_file (Some u) now i s)
    = RedirectResponse (of_string "/upload") 302 ->
  let s' := snd (delete_file (Some u) now i s) in
  file_by_id i (files (db s')) = None /\
  (forall g, In g (shared_files (db s')) -> sf_file_id g <> i) /\
  (forall x, In x (shares (db s')) -> sh_file_id x <> i) /\
  (forall v, truthy v = true ->
     download_file (Some v) i s' = HTTPException 404 None).
Proof.
  intros Hu Hdone s'.
  destruct (delete_file_done u now i s Hu Hdone)
    as (file & us & Hf & _ & _ & Hs').
  apply own_file_by_id_In in Hf as (_ & Hid & _).
  assert (Hgone : file_by_id i (files (db s')) = None).
  { unfold s'. rewrite Hs'. simpl. unfold file_by_id.
    destruct (List.find _ _) as [x|] eqn:E; [|done].
    apply find_some in E as [[_ Hx]%filter_In Hi].
    apply negb_true_iff in Hx. lia. }
  split_and!; [done | | |].
  - unfold s'. rewrite Hs'. simpl. intros g [_ Hg]%filter_In.
    apply negb_true_iff in Hg. lia.
  - unfold s'. rewrite Hs'. simpl. intros x [_ Hx]%filter_In.
    apply negb_true_iff in Hx. lia.
  - intros v Hv. unfold download_file.
    by rewrite (authenticated_some _ Hv), Hgone.
Qed.


(** ** Grants and public shares at work *)

Lemma own_is_file (u : pystr) (i : Z) (fs : list File) (file : File) :
  NoDup (map f_id fs) ->
  own_file_by_id i u fs = Some file -> file_by_id i fs = Some file.
Proof.
  intros Hnd (Hin & Hid & Hu)%own_file_by_id_In. unfold file_by_id.
  destruct (List.find (fun r => f_id r =? i) fs) as [f|] eqn:E.
  - apply find_some in E as [Hin' Hid']. f_equal.
    apply (same_id_same_record fs); [done | done | done | lia].
  - pose proof (find_none _ _ E file Hin) as Hx. simpl in Hx. lia.
Qed.

Lemma find_app_none {A : Type} (p : A -> bool) (a b : list A) :
  (forall x, In x a -> p x = false) ->
  List.find p (a ++ b) = List.find p b.
Proof.
  induction a as [|x a IH]; intros H; [done|]. simpl.
  rewrite (H x) by (by left). apply IH. intros y Hy. apply H. by right.
Qed.

Lemma count_download_app (token : pystr) (a b : list Share) :
  (forall x, In x a -> sh_share_token x <> token) ->
  count_download token (a ++ b) = a ++ count_download token b.
Proof.
  induction a as [|x a IH]; intros H; [done|]. simpl.
  rewrite (str_eqb_neq (sh_share_token x) token) by (apply H; by left).
  simpl. f_equal. apply IH. intros y Hy. apply H. by right.
Qed.

(** X21. Once the uploader has shared a record with a user who has a row,
    that user can download it: in a reachable state the request is
    answered with the file. *)
Theorem grant_lets_download (u t : pystr) (now i : Z) (s : State)
    (file : File) :
  reachable s -> truthy u = true -> truthy t = true ->
  fst (check_rate_limit u (of_string "share-with-user") now (db s)) = true ->
  own_file_by_id i u (files (db s)) = Some file ->
  is_Some (users (db s) !! t) ->
  let s' := snd (share_with_user (Some u) now i t s) in
  is_shared_with i t (shared_files (db s')) = true /\
  download_file (Some t) i s' =
    FileResponse (os_path_join UPLOAD_DIR (f_file_hash file))
      (f_filename file).
Proof.
  intros Hs Hu Ht Hr Hf [x Hx] s'.
  pose proof (reachable_sound _ Hs) as Hsound.
  pose proof (own_is_file u i _ file
    (ids_distinct _ (sound_consistent _ Hsound)) Hf) as Hfile.
  assert (In file (files (db s))) as Hin
    by by apply own_file_by_id_In in Hf as [? _].
  destruct (sound_present _ Hsound _ Hin) as [c Hc].
  assert (files (db s') = files (db s) /\ blobs s' = blobs s /\
          is_shared_with i t (shared_files (db s')) = true)
    as (Hfs' & Hb' & Hsh').
  { unfold s', share_with_user. rewrite (authenticated_some _ Hu).
    pose proof (check_rate_limit_frame u (of_string "share-with-user") now
                  (db s)) as (Hus & Hfs & _ & Hsf & _).
    destruct (check_rate_limit u (of_string "share-with-user") now (db s))
      as [[|] d1]; simpl in Hus, Hfs, Hsf, Hr; [|done].
    cbv beta iota zeta. simpl negb. cbv iota.
    rewrite Hfs, Hf, Hus, Hx.
    destruct (is_shared_with i t (shared_files d1)) eqn:E; simpl;
      [by split_and!|].
    split_and!; [done | done |].
    unfold is_shared_with. rewrite existsb_app. simpl.
    by rewrite Z.eqb_refl, str_eqb_refl, orb_true_r. }
  split; [done|]. unfold download_file.
  rewrite (authenticated_some _ Ht), Hfs', Hfile, Hsh', Hb', Hc.
  by rewrite andb_false_r.
Qed.

(** X22. A public share works end to end: in a reachable state, after the
    uploader publishes a record that has no active share, under a token no
    share uses, the public download with that token serves the file and
    sets the download count of the new share to one. *)
Theorem public_share_serves (u token : pystr) (now i : Z) (s : State)
    (file : File) :
  reachable s -> truthy u = true ->
  fst (check_rate_limit u (of_string "share") now (db s)) = true ->
  own_file_by_id i u (files (db s)) = Some file ->
  existsb (fun x => (sh_file_id x =? i) && sh_is_active x)
    (shares (db s)) = false ->
  (forall x, In x (shares (db s)) -> sh_share_token x <> token) ->
  let s1 := snd (create_share (Some u) now i token s) in
  let s2 := snd (public_download token s1) in
  fst (public_download token s1) =
    FileResponse (os_path_join UPLOAD_DIR (f_file_hash file))
      (f_filename file) /\
  shares (db s2) =
    shares (db s) ++
    [{| sh_file_id := i; sh_share_token := token; sh_created_by := u;
        sh_is_active := true; sh_download_count := 1 |}] /\
  files (db s2) = files (db s) /\ users (db s2) = users (db s) /\
  blobs s2 = blobs s.
Proof.
  intros Hs Hu Hr Hf Hnone Hfresh s1 s2.
  pose proof (reachable_sound _ Hs) as Hsound.
  pose proof (own_is_file u i _ file
    (ids_distinct _ (sound_consistent _ Hsound)) Hf) as Hfile.
  assert (In file (files (db s))) as Hin
    by by apply own_file_by_id_In in Hf as [? _].
  destruct (sound_present _ Hsound _ Hin) as [c Hc].
  assert (files (db s1) = files (db s) /\ users (db s1) = users (db s) /\
          blobs s1 = blobs s /\
          shares (db s1) =
            shares (db s) ++
            [{| sh_file_id := i; sh_share_token := token;
                sh_created_by := u; sh_is_active := true;
                sh_download_count := 0 |}])
    as (Hfs1 & Hus1 & Hb1 & Hsh1).
  { unfold s1, create_share. rewrite (authenticated_some _ Hu).
    pose proof (check_rate_limit_frame u (of_string "share") now (db s))
      as (Hus & Hfs & Hsh & _).
    destruct (check_rate_limit u (of_string "share") now (db s))
      as [[|] d1]; simpl in Hus, Hfs, Hsh, Hr; [|done].
    cbv beta iota zeta. simpl negb. cbv iota.
    rewrite Hfs, Hf, Hsh, Hnone. by simpl. }
  assert (forall x, In x (shares (db s)) ->
            str_eqb (sh_share_token x) token && sh_is_active x = false)
    as Hold.
  { intros x Hx. by rewrite (str_eqb_neq _ _ (Hfresh x Hx)). }
  unfold s2, public_download.
  rewrite Hsh1, (find_app_none _ _ _ Hold). simpl.
  rewrite str_eqb_refl. simpl. rewrite Hfs1, Hfile, Hb1, Hc. simpl.
  rewrite (count_download_app _ _ _ Hfresh). simpl.
  by rewrite str_eqb_refl.
Qed.

Lemma revoke_inactive (i : Z) (l : list Share) (x : Share) :
  In x (revoke i l) -> sh_file_id x = i -> sh_is_active x = false.
Proof.
  unfold revoke. intros (y & <- & Hy)%in_map_iff.
  destruct (Z.eqb_spec (sh_file_id y) i); [done|]. by intros.
Qed.

(** X23. Revoking ends the public share: after the uploader's revoke no
    share of the record is active, and a public download with a token that
    only shares of this record carry is answered 404. *)
Theorem revoked_share_dead (u token : pystr) (i : Z) (s : State)
    (file : File) :
  truthy u = true ->
  own_file_by_id i u (files (db s)) = Some file ->
  (forall x, In x (shares (db s)) ->
     sh_share_token x = token -> sh_file_id x = i) ->
  let s' := snd (revoke_share (Some u) i s) in
  fst (revoke_share (Some u) i s)
    = RedirectResponse (of_string "/upload") 302 /\
  (forall x, In x (shares (db s')) -> sh_file_id x = i ->
     sh_is_active x = false) /\
  public_download token s' = (HTTPException 404 None, s').
Proof.
  intros Hu Hf Htok s'.
  assert (revoke_share (Some u) i s =
    (RedirectResponse (of_string "/upload") 302,
     with_db s (set_shares (db s) (revoke i (shares (db s)))))) as Hrev.
  { unfold revoke_share. by rewrite (authenticated_some _ Hu), Hf. }
  unfold s'. rewrite Hrev. simpl. split_and!; [done | |].
  - intros x Hx. by apply (revoke_inactive i (shares (db s))).
  - unfold public_download. simpl.
    destruct (List.find _ (revoke i (shares (db s)))) as [x|] eqn:E;
      [|done].
    apply find_some in E as [Hx Hp]. apply andb_true_iff in Hp as [Ht Ha].
    apply str_eqb_eq in Ht.
    destruct (revoke_In i _ x Hx) as (y & Hy & Hid & _ & Hty & _).
    rewrite (revoke_inactive i _ x Hx) in Ha; [done|].
    rewrite Hid. apply Htok; [done | congruence].
Qed.

(** X24. Deleting a duplicate frees nothing: in a reachable state it
    leaves every [storage_used] and the blob directory as they were, since
    the original still refers to the blob. *)
Theorem deleting_duplicate_frees_nothing (u : pystr) (now i : Z)
    (s : State) (file : File) :
  reachable s -> truthy u = true ->
  own_file_by_id i u (files (db s)) = Some file ->
  f_is_duplicate file = true ->
  fst (delete_file (Some u) now i s)
    = RedirectResponse (of_string "/upload") 302 ->
  let s' := snd (delete_file (Some u) now i s) in
  users (db s') = users (db s) /\ blobs s' = blobs s /\
  files (db s') =
    List.filter (fun r => negb (f_id r =? f_id file)) (files (db s)).
Proof.
  intros Hs Hu Hf Hdup Hdone s'.
  pose proof (reachable_sound _ Hs) as Hsound.
  destruct (delete_file_done u now i s Hu Hdone)
    as (file' & us & Hf' & _ & Hre & Hs').
  rewrite Hf in Hf'. injection Hf' as <-.
  rewrite (refund_duplicate _ _ _ Hdup) in Hre. injection Hre as <-.
  pose proof (check_rate_limit_frame u (of_string "delete") now (db s))
    as (Hus & Hfs & _).
  apply own_file_by_id_In in Hf as (Hin & _ & _).
  destruct (sound_originals _ Hsound _ Hin Hdup)
    as (o & Ho & _ & Hoh & Hod).
  assert (f_id o <> f_id file) as Hne.
  { intros E. assert (o = file) as -> by
      by apply (same_id_same_record _ _ _
                  (ids_distinct _ (sound_consistent _ Hsound))).
    congruence. }
  unfold s'. rewrite Hs'. unfold after_delete.
  cbn [db blobs with_db files users set_files set_shared_files set_shares
       set_users].
  rewrite Hfs. split_and!; [done | | done].
  destruct (Nat.eqb_spec (reference_count (f_file_hash file)
    (List.filter (fun r => negb (f_id r =? f_id file)) (files (db s)))) 0)
    as [Hz|Hz]; [|done].
  exfalso. apply (reference_count_zero _ _ o Hz); [|done].
  by apply In_remaining.
Qed.


(** ** Upload and delete undo each other *)

Lemma duplicate_count_none (u h : pystr) (fs : list File) :
  has_uploaded u h fs = false -> duplicate_count u h fs = 0%nat.
Proof.
  unfold has_uploaded, duplicate_count.
  induction fs as [|a fs IH]; [done|]. simpl.
  intros [Ha Hfs]%orb_false_iff. rewrite Ha. simpl. by apply IH.
Qed.

Lemma filter_all {A : Type} (p : A -> bool) (l : list A) :
  (forall x, In x l -> p x = true) -> List.filter p l = l.
Proof.
  induction l as [|a l IH]; intros H; [done|]. simpl.
  rewrite (H a) by (by left). f_equal. apply IH. intros x Hx. apply H.
  by right.
Qed.

(** X25. An upload followed by the deletion of the new record is a round
    trip: in a reachable state, when a user uploads content that is new to
    the user and then deletes the record just made, the records, the
    users' usage, the blobs, the shares, the grants and the folders are
    again what they were before the upload. *)
Theorem upload_then_delete_restores (u : pystr) (user : User)
    (now1 now2 : Z) (file : UploadFile) (folder : option pystr)
    (s : State) :
  reachable s -> truthy u = true ->
  users (db s) !! u = Some user ->
  has_uploaded u (sha256_hexdigest (uf_content file)) (files (db s)) = false ->
  storage_used user + Z.of_nat (length (uf_content file))
    <= storage_quota user ->
  fst (check_rate_limit u (of_string "upload") now1 (db s)) = true ->
  let s1 := snd (upload_file (Some u) now1 [file] folder s) in
  fst (check_rate_limit u (of_string "delete") now2 (db s1)) = true ->
  let s2 := snd (delete_file (Some u) now2 (next_id (files (db s))) s1) in
  fst (delete_file (Some u) now2 (next_id (files (db s))) s1)
    = RedirectResponse (of_string "/upload") 302 /\
  files (db s2) = files (db s) /\ users (db s2) = users (db s) /\
  blobs s2 = blobs s /\ shares (db s2) = shares (db s) /\
  shared_files (db s2) = shared_files (db s) /\
  folders (db s2) = folders (db s).
Proof.
  intros Hs Hu Hrow Hnew Hroom Hr1 s1 Hr2 s2.
  pose proof (reachable_sound _ Hs) as Hsound.
  assert (Hq : fst (check_storage_quota u
                 (Z.of_nat (length (uf_content file))) (db s)) = true).
  { apply check_storage_quota_ok. eauto. }
  destruct (upload_single u now1 file folder s Hu Hr1 (or_intror Hq))
    as (Hf1 & Hu1 & Hsh1 & Hsf1 & Hfo1 & Hb1).
  fold s1 in Hf1, Hu1, Hsh1, Hsf1, Hfo1, Hb1. rewrite Hnew in Hf1, Hu1.
  rewrite (charge_lookup _ _ _ _ Hrow) in Hu1.
  set (n := next_id (files (db s))) in *.
  set (r := record_of u folder file false n) in *.
  assert (Hown : own_file_by_id n u (files (db s1)) = Some r).
  { rewrite Hf1. unfold own_file_by_id. rewrite find_app_none.
    - simpl. by rewrite Z.eqb_refl, str_eqb_refl.
    - intros x Hx. apply next_id_gt in Hx. fold n in Hx.
      destruct (Z.eqb_spec (f_id x) n); [lia | done]. }
  assert (Hgate : gate u r (files (db s1)) = false).
  { unfold gate. rewrite Hf1. unfold duplicate_count.
    rewrite List.filter_app, length_app. simpl. rewrite andb_false_r.
    fold (duplicate_count u (sha256_hexdigest (uf_content file))
            (files (db s))).
    by rewrite (duplicate_count_none _ _ _ Hnew). }
  destruct (sound_quota _ Hsound _ _ Hrow) as (_ & Hnn & _).
  assert (Hre : refund u r (users (db s1)) = Some (users (db s))).
  { unfold refund. simpl. rewrite Hu1, lookup_insert_eq. simpl. f_equal.
    rewrite insert_insert_eq. apply insert_id. rewrite Hrow. f_equal.
    destruct (Z.ltb_spec (storage_used user +
      Z.of_nat (length (uf_content file)) -
      Z.of_nat (length (uf_content file))) 0); [lia|].
    destruct user. unfold set_storage_used. simpl. f_equal. lia. }
  rewrite (delete_file_applies u now2 n s1 r _ Hu Hr2 Hown Hgate Hre) in *.
  pose proof (check_rate_limit_frame u (of_string "delete") now2 (db s1))
    as (Hus2 & Hfs2 & Hsh2 & Hsf2 & Hfo2).
  unfold s2. rewrite (delete_file_applies u now2 n s1 r _ Hu Hr2 Hown Hgate Hre).
  unfold after_delete.
  cbn [fst snd db blobs with_db files users shares shared_files folders
       set_files set_shared_files set_shares set_users].
  rewrite Hfs2, Hsh2, Hsf2, Hfo2, Hf1, Hsh1, Hsf1, Hfo1.
  assert (Hrest : List.filter (fun x => negb (f_id x =? f_id r))
                    (files (db s) ++ [r]) = files (db s)).
  { rewrite List.filter_app. simpl. rewrite Z.eqb_refl. simpl.
    rewrite app_nil_r. apply filter_other_ids. apply next_id_fresh. }
  rewrite Hrest.
  destruct (sound_shares _ Hsound) as [Hshares _].
  destruct (sound_grants _ Hsound) as [Hgrants _].
  split_and!; try done.
  - destruct (Nat.eqb_spec (reference_count (f_file_hash r) (files (db s))) 0)
      as [Hz|Hz].
    + rewrite Hb1.
      assert (blobs s !! blob_path_of (uf_content file) = None) as Hnone.
      { destruct (blobs s !! blob_path_of (uf_content file)) as [c|] eqn:E;
          [|done].
        destruct (sound_referenced _ Hsound _ _ E) as (x & Hx & Hp).
        apply os_path_join_inj in Hp.
        by destruct (reference_count_zero _ _ x Hz Hx). }
      change (os_path_join UPLOAD_DIR (f_file_hash r))
        with (blob_path_of (uf_content file)).
      unfold write_blob. rewrite Hnone, lookup_insert_eq.
      by apply delete_insert_id.
    + rewrite Hb1. apply write_blob_skip.
      apply reference_count_nonzero in Hz as (x & Hx & Hh).
      pose proof (sound_present _ Hsound _ Hx) as Hp.
      by rewrite Hh in Hp.
  - apply filter_all. intros x Hx.
    destruct (Hshares x Hx) as (f & Hfin & Hid & _).
    apply next_id_gt in Hfin. fold n in Hfin. apply negb_true_iff. lia.
  - apply filter_all. intros x Hx.
    destruct (Hgrants x Hx) as [(f & Hfin & Hid & _) _].
    apply next_id_gt in Hfin. fold n in Hfin. apply negb_true_iff. lia.
Qed.


(** ** The upload page against the handlers *)

(** X26. The page marks exactly the files whose deletion is refused: in a
    reachable state a delete request for an own record that the rate
    limiter lets through is answered with the "delete duplicates first"
    redirect if the record is marked [has_duplicates], and goes through
    otherwise. *)
Theorem delete_refused_iff_marked (u : pystr) (now i : Z) (s : State)
    (file : File) :
  reachable s -> truthy u = true ->
  fst (check_rate_limit u (of_string "delete") now (db s)) = true ->
  own_file_by_id i u (files (db s)) = Some file ->
  fst (delete_file (Some u) now i s) =
    if has_duplicates u file (db s)
    then RedirectResponse (of_string "/upload?error=delete_duplicates_first")
           302
    else RedirectResponse (of_string "/upload") 302.
Proof.
  intros Hs Hu Hr Hf.
  pose proof (reachable_sound _ Hs) as Hsound.
  assert (has_duplicates u file (db s) = gate u file (files (db s))) as ->.
  { unfold has_duplicates, gate. by destruct (f_is_duplicate file). }
  destruct (gate u file (files (db s))) eqn:Hg.
  - unfold delete_file. rewrite (authenticated_some _ Hu).
    pose proof (check_rate_limit_frame u (of_string "delete") now (db s))
      as (_ & Hfs & _).
    destruct (check_rate_limit u (of_string "delete") now (db s))
      as [[|] d1]; simpl in Hfs, Hr; [|done].
    cbv beta iota zeta. simpl negb. cbv iota. unfold gate in Hg.
    by rewrite Hfs, Hf, Hg.
  - pose proof Hf as (Hin & _ & Hfu)%own_file_by_id_In.
    destruct (uploader_known _ (sound_consistent _ Hsound) _ Hin)
      as [user Huser].
    rewrite Hfu in Huser.
    assert (exists us, refund u file (users (db s)) = Some us) as [us Hre].
    { unfold refund. rewrite Huser. destruct (f_is_duplicate file); eauto. }
    by rewrite (delete_file_applies u now i s file us).
Qed.

Lemma sum_filter_split (p : File -> bool) (l : list File) :
  fold_right Z.add 0 (map f_size l) =
  fold_right Z.add 0 (map f_size (List.filter p l)) +
  fold_right Z.add 0 (map f_size (List.filter (fun f => negb (p f)) l)).
Proof.
  induction l as [|a l IH]; [done|]. simpl.
  destruct (p a); simpl; lia.
Qed.

(** X27. The savings shown on the page are the bytes of the caller's
    duplicate records, the bytes counted are the caller's [storage_used],
    and in a reachable state the savings are never negative. *)
Theorem savings_are_duplicates (u : pystr) (user : User) (s : State) :
  reachable s -> users (db s) !! u = Some user ->
  total_savings_bytes u (db s) =
    fold_right Z.add 0
      (map f_size (List.filter f_is_duplicate (own_files u (db s)))) /\
  original_total_size u (db s) =
    storage_used user + total_savings_bytes u (db s) /\
  0 <= total_savings_bytes u (db s).
Proof.
  intros Hs Hu. pose proof (reachable_sound _ Hs) as Hsound.
  assert (Hsav : total_savings_bytes u (db s) =
    fold_right Z.add 0
      (map f_size (List.filter f_is_duplicate (own_files u (db s))))).
  { unfold total_savings_bytes, original_total_size.
    rewrite (sum_filter_split f_is_duplicate (own_files u (db s))). lia. }
  assert (Hact : actual_storage_used u (files (db s)) =
    fold_right Z.add 0
      (map f_size (List.filter (fun f => negb (f_is_duplicate f))
                     (own_files u (db s))))).
  { unfold actual_storage_used, own_files.
    generalize (files (db s)). intros l.
    induction l as [|a l IH]; [done|]. simpl.
    destruct (str_eqb (f_uploader a) u); simpl; [|done].
    destruct (f_is_duplicate a); simpl; by rewrite IH. }
  split_and!; [done | |].
  - rewrite (used_is_sum _ (sound_consistent _ Hsound) _ _ Hu), Hact.
    unfold total_savings_bytes. lia.
  - rewrite Hsav.
    assert (forall l : list File,
      (forall r, In r l -> 0 <= f_size r) ->
      0 <= fold_right Z.add 0 (map f_size l)) as Hpos.
    { induction l as [|a l IH]; intros H; simpl; [done|].
      assert (0 <= f_size a) by (apply H; by left).
      assert (0 <= fold_right Z.add 0 (map f_size l))
        by (apply IH; intros; apply H; by right).
      lia. }
    apply Hpos. intros r [[Hr _]%filter_In _]%filter_In.
    by apply (sizes_nonneg _ (sound_consistent _ Hsound)).
Qed.

(** X28. In a reachable state the page leaves no grant out: the list of
    files shared with a user has one entry per grant to that user, each
    with the granted record and the user who shared it. *)
Theorem shared_list_complete (t : pystr) (s : State) :
  reachable s ->
  length (shared_with_me t (db s)) =
    length (List.filter (fun e => str_eqb (sf_shared_with e) t)
              (shared_files (db s))) /\
  forall file by_, In (file, by_) (shared_with_me t (db s)) ->
    In file (files (db s)) /\ f_uploader file = by_ /\
    is_shared_with (f_id file) t (shared_files (db s)) = true.
Proof.
  intros Hs. pose proof (reachable_sound _ Hs) as Hsound.
  destruct (sound_grants _ Hsound) as [Hres _].
  pose proof (ids_distinct _ (sound_consistent _ Hsound)) as Hnd.
  unfold shared_with_me.
  assert (forall l : list SharedFile,
    (forall e, In e l -> In e (shared_files (db s)) /\
                         sf_shared_with e = t) ->
    length (shared_list l (files (db s))) = length l /\
    forall file by_, In (file, by_) (shared_list l (files (db s))) ->
      In file (files (db s)) /\ f_uploader file = by_ /\
      is_shared_with (f_id file) t (shared_files (db s)) = true) as Hgen.
  { induction l as [|e l IH]; intros Hl; [done|]. simpl.
    destruct (Hl e (or_introl eq_refl)) as [He Het].
    destruct (Hres e He) as [(f & Hf & Hid & Hby) _].
    destruct (IH (fun x Hx => Hl x (or_intror Hx))) as [IH1 IH2].
    assert (file_by_id (sf_file_id e) (files (db s)) = Some f) as ->.
    { unfold file_by_id.
      destruct (List.find _ (files (db s))) as [f'|] eqn:E.
      - apply find_some in E as [Hf' Hid']. f_equal.
        apply (same_id_same_record (files (db s))); [done..|lia].
      - pose proof (find_none _ _ E f Hf) as Hx. simpl in Hx. lia. }
    simpl. split; [by rewrite IH1|].
    intros file by_ [[= <- <-] | Hin]; [|by apply IH2].
    split_and!; [done | done |].
    apply is_shared_with_true. exists e. by rewrite Hid. }
  apply Hgen. intros e [He Ht]%filter_In. split; [done|].
  by apply str_eqb_eq.
Qed.

(** ** The folders of the upload page *)

#[local] Set Warnings "-clear-no-such-hyp".

Lemma str_leb_total (a b : pystr) :
  str_leb a b = false -> str_leb b a = true.
Proof.
  revert b. induction a as [|x a IH]; intros [|y b]; simpl; try done.
  destruct (N.ltb_spec x y), (N.ltb_spec y x); try done; try lia.
  apply IH.
Qed.

Lemma insert_sorted_In (k x : pystr) (l : list pystr) :
  In x (insert_sorted k l) <-> x = k \/ In x l.
Proof.
  induction l as [|a l IH]; simpl; [split; intros [?|?]; auto|].
  destruct (str_leb k a); simpl; [split; intros [?|?]; auto|].
  rewrite IH. tauto.
Qed.

Lemma insert_sorted_Sorted (k : pystr) (l : list pystr) :
  Sorted (fun a b => str_leb a b = true) l ->
  Sorted (fun a b => str_leb a b = true) (insert_sorted k l).
Proof.
  induction l as [|a l IH]; intros Hs; simpl; [by repeat constructor|].
  destruct (str_leb k a) eqn:E; [constructor; [done | by constructor]|].
  apply Sorted_inv in Hs as [Hs Hhd]. constructor; [by apply IH|].
  destruct l as [|b l]; simpl.
  - constructor. by apply str_leb_total.
  - destruct (str_leb k b); constructor;
      [by apply str_leb_total | by apply HdRel_inv in Hhd].
Qed.

Lemma insert_sorted_NoDup (k : pystr) (l : list pystr) :
  ~ In k l -> NoDup l -> NoDup (insert_sorted k l).
Proof.
  induction l as [|a l IH]; intros Hk Hnd; simpl.
  - apply NoDup_singleton.
  - apply NoDup_cons in Hnd as [Ha Hnd]. rewrite list_elem_of_In in Ha.
    destruct (str_leb k a).
    + apply NoDup_cons. rewrite list_elem_of_In. split; [done|].
      apply NoDup_cons. by rewrite list_elem_of_In.
    + apply NoDup_cons. rewrite list_elem_of_In, insert_sorted_In.
      split; [|apply IH; [|done]]; simpl in Hk; naive_solver.
Qed.

Lemma sorted_In (x : pystr) (l : list pystr) : In x (sorted l) <-> In x l.
Proof.
  induction l as [|a l IH]; simpl; [done|].
  rewrite insert_sorted_In, IH. naive_solver.
Qed.

Lemma sorted_Sorted (l : list pystr) :
  Sorted (fun a b => str_leb a b = true) (sorted l).
Proof.
  induction l as [|a l IH]; simpl; [constructor|].
  by apply insert_sorted_Sorted.
Qed.

Lemma sorted_NoDup (l : list pystr) : NoDup l -> NoDup (sorted l).
Proof.
  induction l as [|a l IH]; intros Hnd; simpl; [done|].
  apply NoDup_cons in Hnd as [Ha Hnd]. rewrite list_elem_of_In in Ha.
  apply insert_sorted_NoDup; [by rewrite sorted_In | by apply IH].
Qed.

Lemma group_fold_lookup (l : list File) (acc : gmap pystr (list File))
    (k : pystr) :
  let res :=
    fold_left
      (fun acc f =>
         <[group_name f := default [] (acc !! group_name f) ++ [f]]> acc)
      l acc in
  default [] (res !! k) =
    default [] (acc !! k) ++
    List.filter (fun f => str_eqb (group_name f) k) l /\
  (is_Some (res !! k) <->
   is_Some (acc !! k) \/ exists f, In f l /\ group_name f = k).
Proof.
  revert acc. induction l as [|a l IH]; intros acc; simpl.
  - rewrite app_nil_r. naive_solver.
  - destruct (IH (<[group_name a :=
                      default [] (acc !! group_name a) ++ [a]]> acc))
      as [IH1 IH2].
    cbv zeta in IH1, IH2. rewrite IH1, IH2.
    destruct (decide (group_name a = k)) as [<-|Hne].
    + rewrite lookup_insert_eq, str_eqb_refl. simpl.
      rewrite <- app_assoc. split; [done|].
      split; [intros _|intros _; by left].
      right. exists a. auto.
    + rewrite lookup_insert_ne, (str_eqb_neq _ _ Hne) by done.
      split; [done|]. split.
      * intros [?|(f & ? & ?)]; [by left | right; eauto].
      * intros [?|(f & [<-|?] & ?)]; [by left | done | right; eauto].
Qed.

Lemma page_fold_lookup (names : list pystr) (acc : gmap pystr (list File))
    (k : pystr) :
  let res :=
    fold_left
      (fun acc name =>
         match acc !! name with
         | Some _ => acc
         | None => <[name := []]> acc
         end) names acc in
  default [] (res !! k) = default [] (acc !! k) /\
  (is_Some (res !! k) <-> is_Some (acc !! k) \/ In k names).
Proof.
  revert acc. induction names as [|n names IH]; intros acc; simpl.
  - naive_solver.
  - destruct (acc !! n) as [g|] eqn:E.
    + destruct (IH acc) as [IH1 IH2]. cbv zeta in IH1, IH2.
      rewrite IH1, IH2. split; [done|]. split; [naive_solver|].
      intros [?|[<-|?]]; [by left | left; by rewrite E | by right].
    + destruct (IH (<[n := []]> acc)) as [IH1 IH2]. cbv zeta in IH1, IH2.
      rewrite IH1, IH2. destruct (decide (n = k)) as [<-|Hne].
      * rewrite lookup_insert_eq, E. split; [done|]. naive_solver.
      * rewrite lookup_insert_ne by done. naive_solver.
Qed.

(** X30. The upload page lists "Root" first and then every other group in
    ascending order of its name, each once: the groups of the caller's
    files and the folders the caller created, empty ones included. Each
    group holds exactly the caller's files of that group, in upload
    order. *)
Theorem folders_listed_in_order (u : pystr) (d : DB) :
  exists ks,
    map fst (sorted_folders u d) = of_string "Root" :: ks /\
    Sorted (fun a b => str_leb a b = true) ks /\ NoDup ks /\
    (forall k, In k ks <->
       k <> of_string "Root" /\
       ((exists f, In f (own_files u d) /\ group_name f = k) \/
        In k (folder_names u d))) /\
    (forall k g, In (k, g) (sorted_folders u d) ->
       g = List.filter (fun f => str_eqb (group_name f) k) (own_files u d)).
Proof.
  set (fd := page_folders u d).
  assert (Hfd : forall k,
    default [] (fd !! k) =
      List.filter (fun f => str_eqb (group_name f) k) (own_files u d) /\
    (is_Some (fd !! k) <->
     k = of_string "Root" \/
     (exists f, In f (own_files u d) /\ group_name f = k) \/
     In k (folder_names u d))).
  { intros k. unfold fd, page_folders, folders_data.
    destruct (page_fold_lookup (folder_names u d)
      (fold_left
         (fun acc f =>
            <[group_name f := default [] (acc !! group_name f) ++ [f]]> acc)
         (own_files u d) {[of_string "Root" := []]}) k) as [P1 P2].
    destruct (group_fold_lookup (own_files u d)
      {[of_string "Root" := []]} k) as [G1 G2].
    cbv zeta in P1, P2, G1, G2. unfold own_files in *.
    rewrite P1, P2, G1, G2.
    destruct (decide (of_string "Root" = k)) as [<-|Hne].
    - rewrite lookup_singleton_eq. simpl. split; [done|]. naive_solver.
    - rewrite lookup_singleton_ne by done. simpl. split; [done|].
      split; [|naive_solver].
      intros [[[x Hx]|?]|?]; [done | naive_solver | naive_solver]. }
  set (keys := List.filter (fun k => negb (str_eqb k (of_string "Root")))
                 (map fst (map_to_list fd))).
  assert (Hkeys : forall k, In k keys <->
    k <> of_string "Root" /\ is_Some (fd !! k)).
  { intros k. unfold keys. rewrite filter_In, negb_true_iff.
    rewrite <- list_elem_of_In, list_elem_of_fmap. split.
    - intros [([k' g] & -> & Hin%elem_of_map_to_list) Hne]. simpl in *.
      split; [|eauto]. intros ->. by rewrite str_eqb_refl in Hne.
    - intros [Hne [g Hg]]. split; [|by apply str_eqb_neq].
      exists (k, g). split; [done|]. by apply elem_of_map_to_list. }
  exists (sorted keys). split_and!.
  - unfold sorted_folders. fold fd. fold keys. simpl. f_equal.
    rewrite map_map. simpl. apply map_id.
  - apply sorted_Sorted.
  - apply sorted_NoDup. unfold keys. apply NoDup_ListNoDup, List.NoDup_filter.
    apply NoDup_ListNoDup, NoDup_fst_map_to_list.
  - intros k. rewrite sorted_In, Hkeys.
    destruct (Hfd k) as [_ ->]. naive_solver.
  - intros k g. unfold sorted_folders. fold fd. fold keys.
    intros [[= <- <-] | Hin]; [apply Hfd|].
    apply in_map_iff in Hin as (k' & [= <- <-] & _). apply Hfd.
Qed.

End Store.

(** * The store at concrete requests *)

Lemma reachable_signed_up : reachable (env := demo_env) signed_up.
Proof. by exists sign_ups. Qed.

Lemma reachable_uploaded_once : reachable (env := demo_env) uploaded_once.
Proof.
  by exists (sign_ups ++ [UploadFiles (Some alice) 0 [report] None]).
Qed.

Lemma reachable_uploaded_twice : reachable (env := demo_env) uploaded_twice.
Proof.
  by exists (sign_ups ++ [UploadFiles (Some alice) 0 [report] None;
                          UploadFiles (Some alice) 5000000 [report] None]).
Qed.

Lemma reachable_shared_once : reachable (env := demo_env) shared_once.
Proof.
  by exists (sign_ups ++ [UploadFiles (Some alice) 0 [report] None;
                          ShareWithUser (Some alice) 7000000 1 bob]).
Qed.

Lemma reachable_published : reachable (env := demo_env) published.
Proof.
  by exists (sign_ups ++ [UploadFiles (Some alice) 0 [report] None;
                          CreateShare (Some alice) 8000000 1 token1]).
Qed.

Lemma quota_never_exceeded_witness :
  storage_quota (set_storage_used alice_row 3) = 10485760 /\
  0 <= storage_used (set_storage_used alice_row 3)
    <= storage_quota (set_storage_used alice_row 3).
Proof.
  apply (quota_never_exceeded (env := demo_env) uploaded_once alice
           (set_storage_used alice_row 3) reachable_uploaded_once).
  by vm_compute.
Defined.

Lemma owner_download_served_witness :
  is_Some (blobs uploaded_once !!
             os_path_join UPLOAD_DIR (f_file_hash first_record)) /\
  download_file (Some alice) 1 uploaded_once =
    FileResponse (os_path_join UPLOAD_DIR (f_file_hash first_record))
      (f_filename first_record).
Proof.
  apply (owner_download_served (env := demo_env) uploaded_once alice 1
           first_record reachable_uploaded_once);
    by vm_compute.
Defined.

Lemma no_orphan_blob_witness :
  exists r, In r (files (db uploaded_once)) /\
            os_path_join UPLOAD_DIR (f_file_hash r) =
              blob_path_of (env := demo_env) (uf_content report).
Proof.
  apply (no_orphan_blob (env := demo_env) uploaded_once
           (blob_path_of (env := demo_env) (uf_content report))
           (uf_content report) reachable_uploaded_once).
  by vm_compute.
Defined.

Lemma blob_matches_record_witness :
  exists c,
    blobs uploaded_once !! os_path_join UPLOAD_DIR (f_file_hash first_record)
      = Some c /\
    demo_hexdigest c = f_file_hash first_record /\
    ((forall a b, demo_hexdigest a = demo_hexdigest b -> a = b) ->
     f_size first_record = Z.of_nat (length c)).
Proof.
  apply (blob_matches_record (env := demo_env) uploaded_once first_record
           reachable_uploaded_once).
  vm_compute. auto.
Defined.

Lemma duplicate_has_original_witness :
  exists o, In o (files (db uploaded_twice)) /\
            f_uploader o = f_uploader second_record /\
            f_file_hash o = f_file_hash second_record /\
            f_is_duplicate o = false.
Proof.
  apply (duplicate_has_original (env := demo_env) uploaded_twice
           second_record reachable_uploaded_twice);
    [vm_compute; auto | reflexivity].
Defined.

Lemma grants_point_to_records_witness :
  (forall g, In g (shared_files (db shared_once)) ->
     (exists f, In f (files (db shared_once)) /\ f_id f = sf_file_id g /\
                f_uploader f = sf_shared_by g) /\
     is_Some (users (db shared_once) !! sf_shared_with g)) /\
  NoDup (map (fun g => (sf_file_id g, sf_shared_with g))
           (shared_files (db shared_once))).
Proof.
  exact (grants_point_to_records (env := demo_env) shared_once
           reachable_shared_once).
Defined.

Lemma shares_point_to_records_witness :
  (forall x, In x (shares (db published)) ->
     exists f, In f (files (db published)) /\ f_id f = sh_file_id x /\
               f_uploader f = sh_created_by x) /\
  (forall i : Z,
     (length (List.filter (fun x => (sh_file_id x =? i)%Z && sh_is_active x)
                (shares (db published))) <= 1)%nat).
Proof.
  exact (shares_point_to_records (env := demo_env) published
           reachable_published).
Defined.

Lemma folders_well_formed_witness :
  let s := run (env := demo_env)
             (sign_ups ++ [CreateFolder (Some alice) 0 (of_string " docs ")])
             initial_state in
  (forall f, In f (folders (db s)) ->
     fo_name f <> [] /\ contains 47%N (fo_name f) = false /\
     contains 92%N (fo_name f) = false /\ strip (fo_name f) = fo_name f) /\
  NoDup (map (fun f => (fo_name f, fo_owner f)) (folders (db s))).
Proof.
  apply (folders_well_formed (env := demo_env)).
  by exists (sign_ups ++ [CreateFolder (Some alice) 0 (of_string " docs ")]).
Defined.

Lemma blob_paths_distinct_witness :
  os_path_join UPLOAD_DIR (of_string "ab") <>
  os_path_join UPLOAD_DIR (of_string "/ab").
Proof.
  apply (blob_paths_distinct (of_string "ab") (of_string "/ab")).
  by vm_compute.
Defined.

Lemma third_call_refused_witness :
  let d1 := snd (check_rate_limit alice (of_string "upload") 0 empty_db) in
  let d2 := snd (check_rate_limit alice (of_string "upload") 400000 d1) in
  check_rate_limit alice (of_string "upload") 900000 d2 = (false, d2).
Proof.
  apply (third_call_refused alice (of_string "upload") 0 400000 900000
           empty_db
           (snd (check_rate_limit alice (of_string "upload") 0 empty_db))
           (snd (check_rate_limit alice (of_string "upload") 400000
                   (snd (check_rate_limit alice (of_string "upload") 0
                           empty_db)))));
    by vm_compute.
Defined.

Lemma allowed_call_logged_witness :
  let d := db uploaded_once in
  let d' := snd (check_rate_limit alice (of_string "upload") 90000000 d) in
  In (rate_row alice (of_string "upload") 90000000) (rate_limits d') /\
  (forall r, In r (rate_limits d') -> 90000000 - 60000000 <= rl_timestamp r) /\
  (forall r, In r (rate_limits d') ->
     r = rate_row alice (of_string "upload") 90000000 \/
     In r (rate_limits d)) /\
  users d' = users d /\ files d' = files d /\ shares d' = shares d /\
  shared_files d' = shared_files d /\ folders d' = folders d.
Proof.
  apply (allowed_call_logged alice (of_string "upload") 90000000
           (db uploaded_once)).
  by vm_compute.
Defined.

Lemma rate_limit_independent_witness :
  fst (check_rate_limit alice (of_string "upload") 100
         (snd (check_rate_limit bob (of_string "upload") 50
                 (db uploaded_once)))) =
  fst (check_rate_limit alice (of_string "upload") 100 (db uploaded_once)).
Proof.
  apply (rate_limit_independent alice (of_string "upload") bob
           (of_string "upload") 100 50 (db uploaded_once));
    [left | ]; by vm_compute.
Defined.

Lemma rate_limited_no_effect_witness :
  let s := throttled in
  let refused := (RedirectResponse
                    (of_string "/upload?upload_error=rate_limit") 302, s) in
  upload_file (env := demo_env) (Some alice) 2 [memo] None s = refused /\
  create_folder (Some alice) 2 (of_string "c") s = refused /\
  share_with_user (Some alice) 2 1 bob s = refused /\
  delete_file (Some alice) 2 1 s = refused /\
  create_share (Some alice) 2 1 token1 s = refused.
Proof.
  destruct (rate_limited_no_effect (env := demo_env) alice 2 throttled)
    as (H1 & H2 & H3 & H4 & H5); [by vm_compute|].
  split_and!; [apply H1 | apply H2 | apply H3 | apply H4 | apply H5];
    by vm_compute.
Defined.

Lemma missing_cookie_redirects_witness :
  let s := uploaded_once in
  let c : option pystr := Some [] in
  let login_page := RedirectResponse (of_string "/login") 307 in
  (forall now fs folder,
     upload_file (env := demo_env) c now fs folder s = (login_page, s)) /\
  (forall now name, create_folder c now name s = (login_page, s)) /\
  (forall now i t, share_with_user c now i t s = (login_page, s)) /\
  (forall i, download_file c i s = login_page) /\
  (forall now i, delete_file c now i s = (login_page, s)) /\
  (forall now i token, create_share c now i token s = (login_page, s)) /\
  (forall i, revoke_share c i s = (login_page, s)).
Proof.
  apply (missing_cookie_redirects (env := demo_env) (Some []) uploaded_once).
  by right.
Defined.


Lemma upload_batch_accounting_witness :
  let fs := [report; notes; report] in
  let r := upload_run (env := demo_env) alice 0 fs None signed_up in
  let resp := fst (upload_file (env := demo_env) (Some alice) 0 fs None
                     signed_up) in
  let s' := snd (upload_file (env := demo_env) (Some alice) 0 fs None
                   signed_up) in
  (uploaded_count r + skipped_count r = length fs)%nat /\
  (length (files (db s')) =
   length (files (db signed_up)) + uploaded_count r)%nat /\
  (skipped_count r = 0%nat ->
   resp = RedirectResponse (of_string "/upload") 302) /\
  (skipped_count r <> 0%nat ->
   resp = RedirectResponse
            (upload_message (uploaded_count r) (skipped_count r)) 302).
Proof.
  apply (upload_batch_accounting (env := demo_env) alice 0
           [report; notes; report] None signed_up);
    by vm_compute.
Defined.

Lemma unknown_user_uploads_nothing_witness :
  let fs := [report; notes] in
  let r := upload_run (env := demo_env) carol 0 fs None signed_up in
  let s' := snd (upload_file (env := demo_env) (Some carol) 0 fs None
                   signed_up) in
  uploaded_count r = 0%nat /\ skipped_count r = length fs /\
  files (db s') = files (db signed_up) /\
  users (db s') = users (db signed_up) /\
  shares (db s') = shares (db signed_up) /\
  shared_files (db s') = shared_files (db signed_up) /\
  folders (db s') = folders (db signed_up) /\ blobs s' = blobs signed_up.
Proof.
  apply (unknown_user_uploads_nothing (env := demo_env) carol 0
           [report; notes] None signed_up reachable_signed_up);
    by vm_compute.
Defined.

Lemma only_uploader_acts_witness :
  let s := uploaded_once in
  let untouched (s' : State) :=
    files (db s') = files (db s) /\ users (db s') = users (db s) /\
    shares (db s') = shares (db s) /\
    shared_files (db s') = shared_files (db s) /\ blobs s' = blobs s in
  (untouched (snd (delete_file (Some bob) 9000000 1 s)) /\
   (fst (check_rate_limit bob (of_string "delete") 9000000 (db s)) = true ->
    fst (delete_file (Some bob) 9000000 1 s) = HTTPException 404 None)) /\
  (forall t,
     untouched (snd (share_with_user (Some bob) 9000000 1 t s)) /\
     (fst (check_rate_limit bob (of_string "share-with-user") 9000000 (db s))
        = true ->
      fst (share_with_user (Some bob) 9000000 1 t s)
        = HTTPException 404 None)) /\
  (forall token,
     untouched (snd (create_share (Some bob) 9000000 1 token s)) /\
     (fst (check_rate_limit bob (of_string "share") 9000000 (db s)) = true ->
      fst (create_share (Some bob) 9000000 1 token s)
        = HTTPException 404 None)) /\
  revoke_share (Some bob) 1 s = (HTTPException 404 None, s).
Proof.
  apply (only_uploader_acts (env := demo_env) bob 9000000 1 uploaded_once
           first_record reachable_uploaded_once);
    by vm_compute.
Defined.

Lemma deleted_record_gone_witness :
  let s' := snd (delete_file (Some alice) 9000000 1 shared_once) in
  file_by_id 1 (files (db s')) = None /\
  (forall g, In g (shared_files (db s')) -> sf_file_id g <> 1) /\
  (forall x, In x (shares (db s')) -> sh_file_id x <> 1) /\
  (forall v, truthy v = true ->
     download_file (Some v) 1 s' = HTTPException 404 None).
Proof.
  apply (deleted_record_gone alice 9000000 1 shared_once); by vm_compute.
Defined.

Lemma grant_lets_download_witness :
  let s' := snd (share_with_user (Some alice) 7000000 1 bob uploaded_once) in
  is_shared_with 1 bob (shared_files (db s')) = true /\
  download_file (Some bob) 1 s' =
    FileResponse (os_path_join UPLOAD_DIR (f_file_hash first_record))
      (f_filename first_record).
Proof.
  apply (grant_lets_download (env := demo_env) alice bob 7000000 1
           uploaded_once first_record reachable_uploaded_once);
    try (by vm_compute).
  vm_compute. eauto.
Defined.

Lemma public_share_serves_witness :
  let s1 := snd (create_share (Some alice) 8000000 1 token1 uploaded_once) in
  let s2 := snd (public_download token1 s1) in
  fst (public_download token1 s1) =
    FileResponse (os_path_join UPLOAD_DIR (f_file_hash first_record))
      (f_filename first_record) /\
  shares (db s2) =
    shares (db uploaded_once) ++
    [{| sh_file_id := 1; sh_share_token := token1; sh_created_by := alice;
        sh_is_active := true; sh_download_count := 1 |}] /\
  files (db s2) = files (db uploaded_once) /\
  users (db s2) = users (db uploaded_once) /\
  blobs s2 = blobs uploaded_once.
Proof.
  apply (public_share_serves (env := demo_env) alice token1 8000000 1
           uploaded_once first_record reachable_uploaded_once);
    by vm_compute.
Defined.

Lemma revoked_share_dead_witness :
  let s' := snd (revoke_share (Some alice) 1 published) in
  fst (revoke_share (Some alice) 1 published)
    = RedirectResponse (of_string "/upload") 302 /\
  (forall x, In x (shares (db s')) -> sh_file_id x = 1 ->
     sh_is_active x = false) /\
  public_download token1 s' = (HTTPException 404 None, s').
Proof.
  apply (revoked_share_dead alice token1 1 published first_record);
    try by vm_compute.
  vm_compute. by intros x [<- | []] _.
Defined.

Lemma deleting_duplicate_frees_nothing_witness :
  let s' := snd (delete_file (Some alice) 9000000 2 uploaded_twice) in
  users (db s') = users (db uploaded_twice) /\
  blobs s' = blobs uploaded_twice /\
  files (db s') =
    List.filter (fun r => negb (f_id r =? f_id second_record))
      (files (db uploaded_twice)).
Proof.
  apply (deleting_duplicate_frees_nothing (env := demo_env) alice 9000000 2
           uploaded_twice second_record reachable_uploaded_twice);
    by vm_compute.
Defined.

Lemma upload_then_delete_restores_witness :
  let s := uploaded_once in
  let s1 := snd (upload_file (env := demo_env) (Some bob) 100 [report]
                   (Some (of_string "docs")) s) in
  let s2 := snd (delete_file (Some bob) 200 (next_id (files (db s))) s1) in
  fst (delete_file (Some bob) 200 (next_id (files (db s))) s1)
    = RedirectResponse (of_string "/upload") 302 /\
  files (db s2) = files (db s) /\ users (db s2) = users (db s) /\
  blobs s2 = blobs s /\ shares (db s2) = shares (db s) /\
  shared_files (db s2) = shared_files (db s) /\
  folders (db s2) = folders (db s).
Proof.
  apply (upload_then_delete_restores (env := demo_env) bob bob_row 100 200
           report (Some (of_string "docs")) uploaded_once
           reachable_uploaded_once);
    by vm_compute.
Defined.

Lemma delete_refused_iff_marked_witness :
  fst (delete_file (Some alice) 9000000 1 uploaded_twice) =
    if has_duplicates alice first_record (db uploaded_twice)
    then RedirectResponse (of_string "/upload?error=delete_duplicates_first")
           302
    else RedirectResponse (of_string "/upload") 302.
Proof.
  apply (delete_refused_iff_marked (env := demo_env) alice 9000000 1
           uploaded_twice first_record reachable_uploaded_twice);
    by vm_compute.
Defined.

Lemma savings_are_duplicates_witness :
  let user := set_storage_used alice_row 3 in
  total_savings_bytes alice (db uploaded_twice) =
    fold_right Z.add 0
      (map f_size
         (List.filter f_is_duplicate (own_files alice (db uploaded_twice)))) /\
  original_total_size alice (db uploaded_twice) =
    storage_used user + total_savings_bytes alice (db uploaded_twice) /\
  0 <= total_savings_bytes alice (db uploaded_twice).
Proof.
  apply (savings_are_duplicates (env := demo_env) alice
           (set_storage_used alice_row 3) uploaded_twice
           reachable_uploaded_twice).
  by vm_compute.
Defined.

Lemma shared_list_complete_witness :
  length (shared_with_me bob (db shared_once)) =
    length (List.filter (fun e => str_eqb (sf_shared_with e) bob)
              (shared_files (db shared_once))) /\
  forall file by_, In (file, by_) (shared_with_me bob (db shared_once)) ->
    In file (files (db shared_once)) /\ f_uploader file = by_ /\
    is_shared_with (f_id file) bob (shared_files (db shared_once)) = true.
Proof.
  exact (shared_list_complete (env := demo_env) bob shared_once
           reachable_shared_once).
Defined.

Lemma upload_batch_of_two_witness :
  let st2 := snd (upload_file (env := demo_env) (Some alice) 0
                    [report; report] None signed_up) in
  let n := Z.of_nat (length (uf_content report)) in
  exists i2,
    files (db st2) =
      files (db signed_up) ++
      [record_of (env := demo_env) alice None report false
         (next_id (files (db signed_up)));
       record_of (env := demo_env) alice None report
         (autoflush (Env := demo_env)) i2] /\
    users (db st2) !! alice =
      Some (set_storage_used alice_row
              (storage_used alice_row +
               (if autoflush (Env := demo_env) then n else 2 * n))).
Proof.
  apply (upload_batch_of_two (env := demo_env) alice alice_row 0 report
           report None signed_up);
    by vm_compute.
Defined.
